(** * MESI internal directory of a non-inclusive cache with several children

    A shallow embedding of [MESIInternalDirectory.cc] (SST memHierarchy,
    coherencemgr): the routing functions, the request, replacement,
    response and acknowledgement handlers, and the functions that build and
    time-stamp outgoing messages.  Stateful C++ becomes a state-and-fault
    monad; a line reached through a [CacheLine*] is the focus of the state
    while a handler runs on it. *)

From Stdlib Require Import ZArith String Ascii Strings.Byte List Bool Lia.
From stdpp Require Import base option list strings gmap.

Set Default Proof Using "Type".
Local Open Scope string_scope.

(** ** Basic types *)

(** [Addr] and the time stamps are [uint64_t] in the source. *)
Definition Addr := Z.

Definition u64_modulus : Z := (2 ^ 64)%Z.

(** Addition on [uint64_t]: the sum wraps around at [2^64]. *)
Definition u64_add (a b : Z) : Z := ((a + b) mod u64_modulus)%Z.

(** [a > b ? a : b] *)
Definition u64_max (a b : Z) : Z := if (b <? a)%Z then a else b.

Module Command.
Inductive t :=
| NULLCMD
| GetS | GetX | GetSX
| GetSResp | GetXResp
| PutS | PutE | PutM
| Inv | ForceInv | Fetch | FetchInv | FetchInvX
| FetchResp | FetchXResp | AckInv | AckPut
| FlushLine | FlushLineInv | FlushLineResp
| NACK.

#[global] Instance eq_dec : EqDecision t.
Proof. solve_decision. Defined.

(** [a == b] on the enumeration. *)
Scheme Equality for t.
Definition eqb (a b : t) : bool := t_beq a b.
End Command.
Definition Command := Command.t.

Module State.
Inductive t :=
| NP
| I | S | E | M
| IS | IM | SM
| S_Inv | SI | SB_Inv
| E_Inv | EI | E_InvX
| M_Inv | MI | M_InvX
| SM_Inv
| S_D | E_D | M_D | SM_D
| S_B | I_B.

#[global] Instance eq_dec : EqDecision t.
Proof. solve_decision. Defined.

(** [a == b] on the enumeration. *)
Scheme Equality for t.
Definition eqb (a b : t) : bool := t_beq a b.
End State.
Definition State := State.t.

Inductive CacheAction := DONE | STALL | BLOCK | IGNORE.

#[global] Instance CacheAction_eq_dec : EqDecision CacheAction.
Proof. solve_decision. Defined.

(** [a == b] on dispositions. *)
Definition CacheAction_eqb (a b : CacheAction) : bool :=
  match a, b with
  | DONE, DONE | STALL, STALL | BLOCK, BLOCK | IGNORE, IGNORE => true
  | _, _ => false
  end.

(** [p != NULL] *)
Definition notNull {A} (p : option A) : bool :=
  match p with
  | Some _ => true
  | None => false
  end.

(** ** Events

    Modelled from the spec: the class [MemEvent] is declared outside this
    file; section 6 of the specification lists what a message carries. *)
Record MemEvent := mkMemEvent {
  ev_src : string;
  ev_dst : string;
  ev_rqstr : string;
  ev_baseAddr : Addr;
  ev_addr : Addr;
  ev_cmd : Command;
  ev_size : Z;
  ev_payload : list byte;
  ev_dirty : bool;
  ev_prefetch : bool;
  ev_memFlags : Z;
  ev_success : bool;
  ev_fromHighNetNACK : bool
}.

(** A NACK wraps the event that was refused. *)
Record NACKEvent := mkNACKEvent {
  getNACKedEvent : MemEvent
}.

Definition ev_setDst (d : string) (e : MemEvent) : MemEvent :=
  mkMemEvent (ev_src e) d (ev_rqstr e) (ev_baseAddr e) (ev_addr e) (ev_cmd e)
    (ev_size e) (ev_payload e) (ev_dirty e) (ev_prefetch e) (ev_memFlags e)
    (ev_success e) (ev_fromHighNetNACK e).

Definition ev_setSrc (x : string) (e : MemEvent) : MemEvent :=
  mkMemEvent x (ev_dst e) (ev_rqstr e) (ev_baseAddr e) (ev_addr e) (ev_cmd e)
    (ev_size e) (ev_payload e) (ev_dirty e) (ev_prefetch e) (ev_memFlags e)
    (ev_success e) (ev_fromHighNetNACK e).

Definition ev_setRqstr (r : string) (e : MemEvent) : MemEvent :=
  mkMemEvent (ev_src e) (ev_dst e) r (ev_baseAddr e) (ev_addr e) (ev_cmd e)
    (ev_size e) (ev_payload e) (ev_dirty e) (ev_prefetch e) (ev_memFlags e)
    (ev_success e) (ev_fromHighNetNACK e).

Definition ev_setCmd (c : Command) (e : MemEvent) : MemEvent :=
  mkMemEvent (ev_src e) (ev_dst e) (ev_rqstr e) (ev_baseAddr e) (ev_addr e) c
    (ev_size e) (ev_payload e) (ev_dirty e) (ev_prefetch e) (ev_memFlags e)
    (ev_success e) (ev_fromHighNetNACK e).

Definition ev_setSize (n : Z) (e : MemEvent) : MemEvent :=
  mkMemEvent (ev_src e) (ev_dst e) (ev_rqstr e) (ev_baseAddr e) (ev_addr e)
    (ev_cmd e) n (ev_payload e) (ev_dirty e) (ev_prefetch e) (ev_memFlags e)
    (ev_success e) (ev_fromHighNetNACK e).

Definition ev_setPayload (p : list byte) (e : MemEvent) : MemEvent :=
  mkMemEvent (ev_src e) (ev_dst e) (ev_rqstr e) (ev_baseAddr e) (ev_addr e)
    (ev_cmd e) (ev_size e) p (ev_dirty e) (ev_prefetch e) (ev_memFlags e)
    (ev_success e) (ev_fromHighNetNACK e).

Definition ev_setDirty (d : bool) (e : MemEvent) : MemEvent :=
  mkMemEvent (ev_src e) (ev_dst e) (ev_rqstr e) (ev_baseAddr e) (ev_addr e)
    (ev_cmd e) (ev_size e) (ev_payload e) d (ev_prefetch e) (ev_memFlags e)
    (ev_success e) (ev_fromHighNetNACK e).

Definition ev_setMemFlags (f : Z) (e : MemEvent) : MemEvent :=
  mkMemEvent (ev_src e) (ev_dst e) (ev_rqstr e) (ev_baseAddr e) (ev_addr e)
    (ev_cmd e) (ev_size e) (ev_payload e) (ev_dirty e) (ev_prefetch e) f
    (ev_success e) (ev_fromHighNetNACK e).

Definition ev_setSuccess (b : bool) (e : MemEvent) : MemEvent :=
  mkMemEvent (ev_src e) (ev_dst e) (ev_rqstr e) (ev_baseAddr e) (ev_addr e)
    (ev_cmd e) (ev_size e) (ev_payload e) (ev_dirty e) (ev_prefetch e)
    (ev_memFlags e) b (ev_fromHighNetNACK e).

Definition ev_getPayloadSize (e : MemEvent) : Z := Z.of_nat (length (ev_payload e)).

(** [new MemEvent(src, addr, baseAddr, cmd)] *)
Definition newMemEvent (src : string) (addr baseAddr : Addr) (cmd : Command) : MemEvent :=
  mkMemEvent src EmptyString EmptyString baseAddr addr cmd 0 [] false false 0 false false.

(** Modelled from the spec: the command a response to [c] carries
    (section 6: responses to requests, invalidations, fetches and flushes;
    [GetSX] is treated as [GetX]). *)
Definition CommandResponse (c : Command) : Command :=
  match c with
  | Command.GetS => Command.GetSResp
  | Command.GetX | Command.GetSX => Command.GetXResp
  | Command.PutS | Command.PutE | Command.PutM => Command.AckPut
  | Command.Inv | Command.ForceInv => Command.AckInv
  | Command.Fetch | Command.FetchInv => Command.FetchResp
  | Command.FetchInvX => Command.FetchXResp
  | Command.FlushLine | Command.FlushLineInv => Command.FlushLineResp
  | _ => Command.NULLCMD
  end.

(** Modelled from the spec: [MemEvent::makeResponse] answers the sender of
    the request; the overload with a command forces the response command. *)
Definition makeResponseCmd (c : Command) (e : MemEvent) : MemEvent :=
  mkMemEvent (ev_dst e) (ev_src e) (ev_rqstr e) (ev_baseAddr e) (ev_addr e) c
    (ev_size e) [] false (ev_prefetch e) (ev_memFlags e) false false.

Definition makeResponse (e : MemEvent) : MemEvent :=
  makeResponseCmd (CommandResponse (ev_cmd e)) e.

(** [struct Response {event, deliveryTime, size}] *)
Record Response := mkResponse {
  resp_event : MemEvent;
  resp_deliveryTime : Z;
  resp_size : Z
}.

(** ** Directory lines

    Modelled from the spec: [CacheLine] is declared with the cache array,
    outside this file; section 3 of the specification gives its attributes.
    [sharers_] is a [std::set<std::string>]: a strictly sorted list, whose
    head is [*begin()]. An empty [owner_] means no owner. *)
Record CacheLine := mkCacheLine {
  ln_baseAddr : Addr;
  ln_state : State;
  ln_sharers : list string;
  ln_owner : string;
  ln_dataLine : option (list byte);
  ln_timestamp : Z;
  ln_prefetch : bool;
  ln_size : Z
}.

Fixpoint set_insert (x : string) (l : list string) : list string :=
  match l with
  | [] => [x]
  | y :: l' =>
      match String.compare x y with
      | Lt => x :: l
      | Eq => l
      | Gt => y :: set_insert x l'
      end
  end.

Definition set_erase (x : string) (l : list string) : list string :=
  filter (λ y, y ≠ x) l.

Definition set_find (x : string) (l : list string) : bool :=
  bool_decide (x ∈ l).

Definition ln_setState (st : State) (l : CacheLine) : CacheLine :=
  mkCacheLine (ln_baseAddr l) st (ln_sharers l) (ln_owner l) (ln_dataLine l)
    (ln_timestamp l) (ln_prefetch l) (ln_size l).

Definition ln_setSharers (sh : list string) (l : CacheLine) : CacheLine :=
  mkCacheLine (ln_baseAddr l) (ln_state l) sh (ln_owner l) (ln_dataLine l)
    (ln_timestamp l) (ln_prefetch l) (ln_size l).

Definition ln_setOwner (o : string) (l : CacheLine) : CacheLine :=
  mkCacheLine (ln_baseAddr l) (ln_state l) (ln_sharers l) o (ln_dataLine l)
    (ln_timestamp l) (ln_prefetch l) (ln_size l).

Definition ln_setDataLine (d : option (list byte)) (l : CacheLine) : CacheLine :=
  mkCacheLine (ln_baseAddr l) (ln_state l) (ln_sharers l) (ln_owner l) d
    (ln_timestamp l) (ln_prefetch l) (ln_size l).

Definition ln_setTimestamp (t : Z) (l : CacheLine) : CacheLine :=
  mkCacheLine (ln_baseAddr l) (ln_state l) (ln_sharers l) (ln_owner l)
    (ln_dataLine l) t (ln_prefetch l) (ln_size l).

Definition ln_setPrefetch (p : bool) (l : CacheLine) : CacheLine :=
  mkCacheLine (ln_baseAddr l) (ln_state l) (ln_sharers l) (ln_owner l)
    (ln_dataLine l) (ln_timestamp l) p (ln_size l).

Definition ln_isSharer (x : string) (l : CacheLine) : bool := set_find x (ln_sharers l).
Definition ln_numSharers (l : CacheLine) : nat := length (ln_sharers l).
Definition ln_ownerExists (l : CacheLine) : bool := negb (String.eqb (ln_owner l) EmptyString).

(** Modelled from the spec: a line is stable in [I], [S], [E] and [M] and
    in transition in every other state (glossary, "Transient state"); a
    line that was never installed ([NP]) or is invalid ([I]) holds no block. *)
Definition stable (st : State) : bool :=
  match st with
  | State.I | State.S | State.E | State.M => true
  | _ => false
  end.

Definition ln_inTransition (l : CacheLine) : bool :=
  match ln_state l with
  | State.NP => false
  | st => negb (stable st)
  end.

Definition ln_valid (l : CacheLine) : bool :=
  match ln_state l with
  | State.NP | State.I => false
  | _ => true
  end.

(** ** MSHR

    Modelled from the spec: the class [MSHR] is declared outside this file.
    An entry per address (section 3): a FIFO of pending events (and of
    pointers to addresses that wait for this one, section 9), the number of
    acknowledgements still needed, an optional data buffer and the
    writeback-pending bit; section 6 lists the operations. *)
Module MSHR.
Inductive mshrType :=
| mshrEvent (e : MemEvent)
| mshrPointer (a : Addr).

Record mshrEntry := mkEntry {
  mshrQueue : list mshrType;
  acksNeeded : nat;
  dataBuffer : option (list byte);
  writebackPending : bool
}.

Definition emptyEntry : mshrEntry := mkEntry [] 0 None false.

Record t := mk {
  map_ : gmap Addr mshrEntry;
  size_ : nat;
  maxSize_ : nat
}.

Definition entry (a : Addr) (m : t) : mshrEntry := default emptyEntry (map_ m !! a).

Definition setEntry (a : Addr) (e : mshrEntry) (m : t) : t :=
  mk (<[a := e]> (map_ m)) (size_ m) (maxSize_ m).

Definition setSize (n : nat) (m : t) : t := mk (map_ m) n (maxSize_ m).

Definition withQueue (q : list mshrType) (e : mshrEntry) : mshrEntry :=
  mkEntry q (acksNeeded e) (dataBuffer e) (writebackPending e).
Definition withAcks (n : nat) (e : mshrEntry) : mshrEntry :=
  mkEntry (mshrQueue e) n (dataBuffer e) (writebackPending e).
Definition withData (d : option (list byte)) (e : mshrEntry) : mshrEntry :=
  mkEntry (mshrQueue e) (acksNeeded e) d (writebackPending e).
Definition withWriteback (b : bool) (e : mshrEntry) : mshrEntry :=
  mkEntry (mshrQueue e) (acksNeeded e) (dataBuffer e) b.

Definition isFull (m : t) : bool := (maxSize_ m <=? size_ m)%nat.

(** Some entry is queued for the address. *)
Definition isHit (a : Addr) (m : t) : bool :=
  match mshrQueue (entry a m) with [] => false | _ => true end.

(** The head of the queue of the address is an event. *)
Definition exists_ (a : Addr) (m : t) : bool :=
  match mshrQueue (entry a m) with mshrEvent _ :: _ => true | _ => false end.

(** The event at the head of the queue, null when there is none. *)
Definition lookupFront (a : Addr) (m : t) : option MemEvent :=
  match mshrQueue (entry a m) with mshrEvent e :: _ => Some e | _ => None end.

Definition removeFront (a : Addr) (m : t) : t :=
  match mshrQueue (entry a m) with
  | [] => m
  | _ :: q => setSize (pred (size_ m)) (setEntry a (withQueue q (entry a m)) m)
  end.

(** Update, in place, of the event at the head of the queue. *)
Definition modifyFront (a : Addr) (f : MemEvent → MemEvent) (m : t) : t :=
  match mshrQueue (entry a m) with
  | mshrEvent e :: q => setEntry a (withQueue (mshrEvent (f e) :: q) (entry a m)) m
  | _ => m
  end.

(** Tail insertion of a stalled event (section 5). *)
Definition insert (a : Addr) (e : MemEvent) (m : t) : t :=
  setSize (Datatypes.S (size_ m))
    (setEntry a (withQueue (mshrQueue (entry a m) ++ [mshrEvent e]) (entry a m)) m).

(** An invalidation that stalls is queued at the tail (sections 5 and
    7). The mark that keeps a blocked one ([inProgress]) from being taken
    as the head is not part of this model: no handler of this file reads
    it. *)
Definition insertInv (a : Addr) (e : MemEvent) (inProgress : bool) (m : t) : t :=
  setSize (Datatypes.S (size_ m))
    (setEntry a (withQueue (mshrQueue (entry a m) ++ [mshrEvent e]) (entry a m)) m).

(** A pointer from [a] to the address [target] that waits for [a]. *)
Definition insertPointer (a target : Addr) (m : t) : t :=
  setSize (Datatypes.S (size_ m))
    (setEntry a (withQueue (mshrQueue (entry a m) ++ [mshrPointer target]) (entry a m)) m).

Definition getAcksNeeded (a : Addr) (m : t) : nat := acksNeeded (entry a m).
Definition incrementAcksNeeded (a : Addr) (m : t) : t :=
  setEntry a (withAcks (Datatypes.S (acksNeeded (entry a m))) (entry a m)) m.
Definition decrementAcksNeeded (a : Addr) (m : t) : t :=
  setEntry a (withAcks (pred (acksNeeded (entry a m))) (entry a m)) m.

Definition getDataBuffer (a : Addr) (m : t) : option (list byte) := dataBuffer (entry a m).
Definition setDataBuffer (a : Addr) (d : list byte) (m : t) : t :=
  setEntry a (withData (Some d) (entry a m)) m.
Definition clearDataBuffer (a : Addr) (m : t) : t :=
  setEntry a (withData None (entry a m)) m.

Definition pendingWriteback (a : Addr) (m : t) : bool := writebackPending (entry a m).
Definition insertWriteback (a : Addr) (m : t) : t :=
  setEntry a (withWriteback true (entry a m)) m.
Definition removeWriteback (a : Addr) (m : t) : t :=
  setEntry a (withWriteback false (entry a m)) m.
(** Events are values in this model: an operation of the source that is
    given a pointer to a queued event acts here on the first element of
    the queue that equals the event. *)
#[global] Instance byte_eq_dec : EqDecision byte := Byte.byte_eq_dec.

#[global] Instance MemEvent_eq_dec : EqDecision MemEvent.
Proof. solve_decision. Defined.

#[global] Instance mshrType_eq_dec : EqDecision mshrType.
Proof. solve_decision. Defined.

Fixpoint removeFirst (e : MemEvent) (q : list mshrType) : list mshrType :=
  match q with
  | [] => []
  | x :: q' => if decide (x = mshrEvent e) then q' else x :: removeFirst e q'
  end.

Fixpoint modifyFirst (e : MemEvent) (f : MemEvent → MemEvent) (q : list mshrType)
    : list mshrType :=
  match q with
  | [] => []
  | x :: q' => if decide (x = mshrEvent e) then mshrEvent (f e) :: q'
               else x :: modifyFirst e f q'
  end.

(** Modelled from the spec: [MSHR::removeElement(addr, event)] is defined
    outside this file; the event leaves the queue of the address, wherever
    it stands in it (section 6, the operations on the queue of an
    address). *)
Definition removeElement (a : Addr) (e : MemEvent) (m : t) : t :=
  if bool_decide (mshrEvent e ∈ mshrQueue (entry a m)) then
    setSize (pred (size_ m))
      (setEntry a (withQueue (removeFirst e (mshrQueue (entry a m))) (entry a m)) m)
  else m.

(** Update, in place, of a queued event that a handler holds a pointer
    to. *)
Definition modifyElement (a : Addr) (e : MemEvent) (f : MemEvent → MemEvent) (m : t) : t :=
  setEntry a (withQueue (modifyFirst e f (mshrQueue (entry a m))) (entry a m)) m.
End MSHR.

(** ** The state and fault monad *)

(** What stops a handler: the fatal diagnostic of [debug->fatal], or the
    dereference of a null line, event or data pointer, or of [begin()] of an
    empty sharer set. [Dangling] is an index outside the array of lines: no
    pointer of the source is one. *)
Inductive Fault := Fatal | NullLine | NullEvent | NullData | NoSharer | Dangling.

#[global] Instance Fault_eq_dec : EqDecision Fault.
Proof. solve_decision. Defined.

Inductive Outcome (St A : Type) :=
| Ret (a : A) (s : St)
| Abort (f : Fault) (s : St).
Arguments Ret {St A} a s.
Arguments Abort {St A} f s.

Definition M (St A : Type) : Type := St → Outcome St A.

Definition ret {St A} (a : A) : M St A := λ s, Ret a s.

Definition bind {St A B} (m : M St A) (k : A → M St B) : M St B :=
  λ s, match m s with
       | Ret a s' => k a s'
       | Abort f s' => Abort f s'
       end.

(** [x <- m; k] runs [m] and names its result; [m;; k] drops it. *)
Declare Scope M_scope.
Delimit Scope M_scope with M.
Notation "x <- m ; k" := (bind m (λ x, k))
  (at level 20, m at level 100, k at level 200, only parsing) : M_scope.
Notation "m ;; k" := (bind m (λ _, k))
  (at level 100, k at level 200, only parsing, right associativity) : M_scope.
Open Scope M_scope.

Definition abort {St A} (f : Fault) : M St A := λ s, Abort f s.

(** [debug->fatal(...)] *)
Definition fatal {St A} : M St A := abort Fatal.

Definition gets {St A} (f : St → A) : M St A := λ s, Ret (f s) s.
Definition modify {St} (f : St → St) : M St unit := λ s, Ret tt (f s).

(** [if (c) body;] *)
Definition when {St} (c : bool) (body : M St unit) : M St unit :=
  if c then body else ret tt.

(** Dereference of a pointer that may be null. *)
Definition deref {St A} (f : Fault) (p : option A) : M St A :=
  match p with
  | Some a => ret a
  | None => abort f
  end.

(** ** The state of the coherence manager *)

(** What every handler shares: the MSHR, the two outgoing queues and the
    current time of the manager. *)
Record Shared := mkShared {
  mshr_ : MSHR.t;
  outgoingEventQueue_ : list Response;
  outgoingEventQueueUp_ : list Response;
  timestamp_ : Z
}.

(** The state of a handler that holds a [CacheLine*]: the line it points to
    and the shared part. *)
Record LineState := mkLineState {
  dirLine : CacheLine;
  ls_shared : Shared
}.

(** The whole manager: the lines of the cache array, a [CacheLine*] being an
    index, and the shared part. *)
Record Engine := mkEngine {
  cacheArray_ : list CacheLine;
  en_shared : Shared
}.

Class HasShared (St : Type) := {
  shared_of : St → Shared;
  shared_set : Shared → St → St
}.

#[global] Instance Shared_HasShared : HasShared Shared :=
  {| shared_of := λ s, s; shared_set := λ s _, s |}.
#[global] Instance LineState_HasShared : HasShared LineState :=
  {| shared_of := ls_shared; shared_set := λ sh s, mkLineState (dirLine s) sh |}.
#[global] Instance Engine_HasShared : HasShared Engine :=
  {| shared_of := en_shared; shared_set := λ sh s, mkEngine (cacheArray_ s) sh |}.

Definition sh_setMshr (m : MSHR.t) (sh : Shared) : Shared :=
  mkShared m (outgoingEventQueue_ sh) (outgoingEventQueueUp_ sh) (timestamp_ sh).

Section SharedOps.
Context {St : Type} `{HasShared St}.

Definition getsMSHR {A} (f : MSHR.t → A) : M St A :=
  gets (λ s, f (mshr_ (shared_of s))).
Definition modMSHR (f : MSHR.t → MSHR.t) : M St unit :=
  modify (λ s, shared_set (sh_setMshr (f (mshr_ (shared_of s))) (shared_of s)) s).

Definition mshr_isFull : M St bool := getsMSHR MSHR.isFull.
Definition mshr_isHit (a : Addr) : M St bool := getsMSHR (MSHR.isHit a).
Definition mshr_exists (a : Addr) : M St bool := getsMSHR (MSHR.exists_ a).
Definition mshr_lookupFront (a : Addr) : M St (option MemEvent) := getsMSHR (MSHR.lookupFront a).
Definition mshr_removeFront (a : Addr) : M St unit := modMSHR (MSHR.removeFront a).
Definition mshr_modifyFront (a : Addr) (f : MemEvent → MemEvent) : M St unit :=
  modMSHR (MSHR.modifyFront a f).
Definition mshr_insert (a : Addr) (e : MemEvent) : M St unit := modMSHR (MSHR.insert a e).
Definition mshr_insertInv (a : Addr) (e : MemEvent) (inProgress : bool) : M St unit :=
  modMSHR (MSHR.insertInv a e inProgress).
Definition mshr_insertPointer (a target : Addr) : M St unit := modMSHR (MSHR.insertPointer a target).
Definition mshr_getAcksNeeded (a : Addr) : M St nat := getsMSHR (MSHR.getAcksNeeded a).
Definition mshr_incrementAcksNeeded (a : Addr) : M St unit := modMSHR (MSHR.incrementAcksNeeded a).
Definition mshr_decrementAcksNeeded (a : Addr) : M St unit := modMSHR (MSHR.decrementAcksNeeded a).
Definition mshr_getDataBuffer (a : Addr) : M St (option (list byte)) := getsMSHR (MSHR.getDataBuffer a).
Definition mshr_setDataBuffer (a : Addr) (d : list byte) : M St unit := modMSHR (MSHR.setDataBuffer a d).
Definition mshr_clearDataBuffer (a : Addr) : M St unit := modMSHR (MSHR.clearDataBuffer a).
Definition mshr_pendingWriteback (a : Addr) : M St bool := getsMSHR (MSHR.pendingWriteback a).
Definition mshr_insertWriteback (a : Addr) : M St unit := modMSHR (MSHR.insertWriteback a).
Definition mshr_removeWriteback (a : Addr) : M St unit := modMSHR (MSHR.removeWriteback a).

Definition now : M St Z := gets (λ s, timestamp_ (shared_of s)).

(** Modelled from the spec: [CoherenceController::addToOutgoingQueue] and
    [addToOutgoingQueueUp] are defined outside this file; the emitter of
    section 2 enqueues the message, here in emission order, toward the
    parent (the lower level) or toward the children (the upper level). *)
Definition addToOutgoingQueue (resp : Response) : M St unit :=
  modify (λ s, let sh := shared_of s in
               shared_set (mkShared (mshr_ sh) (outgoingEventQueue_ sh ++ [resp])
                                    (outgoingEventQueueUp_ sh) (timestamp_ sh)) s).
Definition addToOutgoingQueueUp (resp : Response) : M St unit :=
  modify (λ s, let sh := shared_of s in
               shared_set (mkShared (mshr_ sh) (outgoingEventQueue_ sh)
                                    (outgoingEventQueueUp_ sh ++ [resp]) (timestamp_ sh)) s).

Definition mshr_removeElement (a : Addr) (e : MemEvent) : M St unit :=
  modMSHR (MSHR.removeElement a e).
Definition mshr_modifyElement (a : Addr) (e : MemEvent) (f : MemEvent → MemEvent) : M St unit :=
  modMSHR (MSHR.modifyElement a e f).
(** The number of entries queued for the address. *)
Definition mshr_queueLength (a : Addr) : M St nat :=
  getsMSHR (λ m, length (MSHR.mshrQueue (MSHR.entry a m))).

(** Modelled from the spec: [CoherenceController::allocateMSHR] is
    defined outside this file; a stalled event is inserted at the tail of
    the queue of its address (section 5). *)
Definition allocateMSHR (a : Addr) (e : MemEvent) : M St unit := mshr_insert a e.

(** Modelled from the spec: [processInvRequestInMSHR] is defined outside
    this file; a stalled or blocked invalidation is queued in the MSHR
    (sections 5 and 7). *)
Definition processInvRequestInMSHR (a : Addr) (e : MemEvent) (inProgress : bool) : M St unit :=
  mshr_insertInv a e inProgress.
End SharedOps.

(** ** Methods of the line a handler holds *)

Definition getsLine {A} (f : CacheLine → A) : M LineState A := gets (λ s, f (dirLine s)).
Definition modLine (f : CacheLine → CacheLine) : M LineState unit :=
  modify (λ s, mkLineState (f (dirLine s)) (ls_shared s)).

Definition getState : M LineState State := getsLine ln_state.
Definition setState (st : State) : M LineState unit := modLine (ln_setState st).
Definition getBaseAddr : M LineState Addr := getsLine ln_baseAddr.
Definition getSize : M LineState Z := getsLine ln_size.
Definition getDataLine : M LineState (option (list byte)) := getsLine ln_dataLine.
(** [dirLine->getDataLine()->setData(payload, 0)] on a line that has data. *)
Definition setData (d : list byte) : M LineState unit := modLine (ln_setDataLine (Some d)).
Definition getSharers : M LineState (list string) := getsLine ln_sharers.
Definition isSharer (x : string) : M LineState bool := getsLine (ln_isSharer x).
Definition numSharers : M LineState nat := getsLine ln_numSharers.
Definition addSharer (x : string) : M LineState unit :=
  modLine (λ l, ln_setSharers (set_insert x (ln_sharers l)) l).
Definition removeSharer (x : string) : M LineState unit :=
  modLine (λ l, ln_setSharers (set_erase x (ln_sharers l)) l).
Definition getOwner : M LineState string := getsLine ln_owner.
Definition ownerExists : M LineState bool := getsLine ln_ownerExists.
Definition setOwner (x : string) : M LineState unit := modLine (ln_setOwner x).
Definition clearOwner : M LineState unit := modLine (ln_setOwner EmptyString).
Definition getTimestamp : M LineState Z := getsLine ln_timestamp.
Definition setTimestamp (t : Z) : M LineState unit := modLine (ln_setTimestamp t).
Definition getPrefetch : M LineState bool := getsLine ln_prefetch.
Definition setPrefetch (p : bool) : M LineState unit := modLine (ln_setPrefetch p).

(** [*(sharers->begin())] *)
Definition firstSharer : M LineState string :=
  sh <- getSharers; deref NoSharer (head sh).

(** Run a handler on the line behind the pointer [p]. *)
Definition focus {A} (p : nat) (m : M LineState A) : M Engine A :=
  λ s, match cacheArray_ s !! p with
       | None => Abort Dangling s
       | Some l =>
           match m (mkLineState l (en_shared s)) with
           | Ret a s' => Ret a (mkEngine (<[p := dirLine s']> (cacheArray_ s)) (ls_shared s'))
           | Abort f s' => Abort f (mkEngine (<[p := dirLine s']> (cacheArray_ s)) (ls_shared s'))
           end
       end.

(** ** Configuration and collaborators

    The members of the manager that do not change while it runs, the route
    to the parent ([getDestination]) and the choice of a replacement
    candidate, which belongs to the replacement policy: the candidate is
    given as the index of a line of the array. *)
Record Config := mkConfig {
  ownerName_ : string;
  getName : string;
  lastLevel_ : bool;
  protocol_ : bool;
  expectWritebackAck_ : bool;
  writebackCleanBlocks_ : bool;
  lineSize_ : Z;
  tagLatency_ : Z;
  accessLatency_ : Z;
  mshrLatency_ : Z;
  packetHeaderBytes : Z;
  getDestination : Addr → string;
  findReplacementCandidate : list CacheLine → Addr → bool → nat
}.

(** [forEach l body]: the body of a [for] loop over an iterator range. *)
Fixpoint forEach {St A} (l : list A) (body : A → M St unit) : M St unit :=
  match l with
  | [] => ret tt
  | x :: l' => body x;; forEach l' body
  end.

Section Manager.
Variable cfg : Config.

(** *** Functions for sending events *)

(** The loop of [invalidateAllSharers]; the result is [invSent]. *)
Fixpoint invalidateAllSharers_loop (its : list string) (rqstr : string)
    (deliveryTime : Z) (invSent : bool) : M LineState bool :=
  match its with
  | [] => ret invSent
  | it :: rest =>
      base <- getBaseAddr;
      let inv := ev_setRqstr rqstr (ev_setDst it
                   (newMemEvent (ownerName_ cfg) base base Command.Inv)) in
      addToOutgoingQueueUp (mkResponse inv deliveryTime (packetHeaderBytes cfg));;
      mshr_incrementAcksNeeded base;;
      invalidateAllSharers_loop rest rqstr deliveryTime true
  end.

Definition invalidateAllSharers (rqstr : string) (replay : bool) : M LineState unit :=
  sharers <- getSharers;
  ts <- now;
  lts <- getTimestamp;
  let baseTime := u64_max ts lts in
  let deliveryTime := if replay then u64_add baseTime (mshrLatency_ cfg)
                      else u64_add baseTime (tagLatency_ cfg) in
  invSent <- invalidateAllSharers_loop sharers rqstr deliveryTime false;
  when invSent (setTimestamp deliveryTime).

(** The loop of [invalidateAllSharersAndFetch]; the accumulator is
    ([fetched], [invSent]) and the result is [invSent]. *)
Fixpoint invalidateAllSharersAndFetch_loop (its : list string) (rqstr : string)
    (deliveryTime : Z) (fetched invSent : bool) : M LineState bool :=
  match its with
  | [] => ret invSent
  | it :: rest =>
      base <- getBaseAddr;
      size <- getSize;
      let cmd := if fetched then Command.Inv else Command.FetchInv in
      let inv := ev_setSize size (ev_setRqstr rqstr (ev_setDst it
                   (newMemEvent (ownerName_ cfg) base base cmd))) in
      addToOutgoingQueueUp (mkResponse inv deliveryTime (packetHeaderBytes cfg));;
      mshr_incrementAcksNeeded base;;
      invalidateAllSharersAndFetch_loop rest rqstr deliveryTime true true
  end.

Definition invalidateAllSharersAndFetch (rqstr : string) (replay : bool) : M LineState unit :=
  sharers <- getSharers;
  ts <- now;
  lts <- getTimestamp;
  let baseTime := u64_max ts lts in
  let deliveryTime := if replay then u64_add ts (mshrLatency_ cfg)
                      else u64_add ts (tagLatency_ cfg) in
  invSent <- invalidateAllSharersAndFetch_loop sharers rqstr deliveryTime false false;
  when invSent (setTimestamp deliveryTime).

(** The loop of [invalidateSharersExceptRequestor]; the accumulator is
    ([needFetch], [sentInv]) and the result is [sentInv]. *)
Fixpoint invalidateSharersExceptRequestor_loop (its : list string)
    (rqstr origRqstr : string) (deliveryTime : Z) (needFetch sentInv : bool)
    : M LineState bool :=
  match its with
  | [] => ret sentInv
  | it :: rest =>
      if bool_decide (it = rqstr)
      then invalidateSharersExceptRequestor_loop rest rqstr origRqstr deliveryTime
             needFetch sentInv
      else
        base <- getBaseAddr;
        size <- getSize;
        let cmd := if needFetch then Command.FetchInv else Command.Inv in
        let inv := ev_setSize size (ev_setRqstr origRqstr (ev_setDst it
                     (newMemEvent (ownerName_ cfg) base base cmd))) in
        addToOutgoingQueueUp (mkResponse inv deliveryTime (packetHeaderBytes cfg));;
        mshr_incrementAcksNeeded base;;
        invalidateSharersExceptRequestor_loop rest rqstr origRqstr deliveryTime
          false true
  end.

Definition invalidateSharersExceptRequestor (rqstr origRqstr : string)
    (replay uncached : bool) : M LineState bool :=
  sharers <- getSharers;
  let needFetch := uncached && negb (set_find rqstr sharers) in
  ts <- now;
  lts <- getTimestamp;
  let baseTime := u64_max ts lts in
  let deliveryTime := if replay then u64_add baseTime (mshrLatency_ cfg)
                      else u64_add baseTime (tagLatency_ cfg) in
  sentInv <- invalidateSharersExceptRequestor_loop sharers rqstr origRqstr
              deliveryTime needFetch false;
  when sentInv (setTimestamp deliveryTime);;
  ret sentInv.

Definition sendFetchInv (rqstr : string) (replay : bool) : M LineState unit :=
  base <- getBaseAddr;
  owner <- getOwner;
  dst <- (if negb (String.eqb owner EmptyString) then ret owner else firstSharer);
  size <- getSize;
  let fetch := ev_setSize size (ev_setRqstr rqstr (ev_setDst dst
                 (newMemEvent (ownerName_ cfg) base base Command.FetchInv))) in
  ts <- now;
  lts <- getTimestamp;
  let baseTime := u64_max ts lts in
  let deliveryTime := if replay then u64_add ts (mshrLatency_ cfg)
                      else u64_add ts (tagLatency_ cfg) in
  addToOutgoingQueueUp (mkResponse fetch deliveryTime (packetHeaderBytes cfg));;
  setTimestamp deliveryTime.

Definition sendFetchInvX (rqstr : string) (replay : bool) : M LineState unit :=
  base <- getBaseAddr;
  owner <- getOwner;
  size <- getSize;
  let fetch := ev_setSize size (ev_setRqstr rqstr (ev_setDst owner
                 (newMemEvent (ownerName_ cfg) base base Command.FetchInvX))) in
  ts <- now;
  lts <- getTimestamp;
  let baseTime := u64_max ts lts in
  let deliveryTime := if replay then u64_add baseTime (mshrLatency_ cfg)
                      else u64_add baseTime (tagLatency_ cfg) in
  addToOutgoingQueueUp (mkResponse fetch deliveryTime (packetHeaderBytes cfg));;
  setTimestamp deliveryTime.

Definition sendFetch (rqstr : string) (replay : bool) : M LineState unit :=
  base <- getBaseAddr;
  dst <- firstSharer;
  let fetch := ev_setRqstr rqstr (ev_setDst dst
                 (newMemEvent (ownerName_ cfg) base base Command.Fetch)) in
  ts <- now;
  lts <- getTimestamp;
  let baseTime := u64_max ts lts in
  let deliveryTime := u64_add baseTime (tagLatency_ cfg) in
  addToOutgoingQueueUp (mkResponse fetch deliveryTime (packetHeaderBytes cfg));;
  setTimestamp deliveryTime.

Definition sendForceInv (rqstr : string) (replay : bool) : M LineState unit :=
  base <- getBaseAddr;
  owner <- getOwner;
  size <- getSize;
  let inv := ev_setSize size (ev_setRqstr rqstr (ev_setDst owner
               (newMemEvent (ownerName_ cfg) base base Command.ForceInv))) in
  ts <- now;
  lts <- getTimestamp;
  let baseTime := u64_max ts lts in
  let deliveryTime := if replay then u64_add baseTime (mshrLatency_ cfg)
                      else u64_add baseTime (tagLatency_ cfg) in
  addToOutgoingQueueUp (mkResponse inv deliveryTime (packetHeaderBytes cfg));;
  setTimestamp deliveryTime.

Definition sendResponseDown (event : MemEvent) (data : option (list byte))
    (dirty replay : bool) : M LineState unit :=
  d <- deref NullData data;
  let responseEvent := ev_setDirty dirty (ev_setSize (Z.of_nat (length d))
                         (ev_setPayload d (makeResponse event))) in
  ts <- now;
  lts <- getTimestamp;
  let baseTime := u64_max ts lts in
  let deliveryTime := if replay then u64_add baseTime (mshrLatency_ cfg)
                      else u64_add baseTime (accessLatency_ cfg) in
  addToOutgoingQueue (mkResponse responseEvent deliveryTime
    (packetHeaderBytes cfg + ev_getPayloadSize responseEvent));;
  setTimestamp deliveryTime.

Section NoLine.
Context {St : Type} `{HasShared St}.

Definition sendResponseDownFromMSHR (event : MemEvent) (dirty : bool) : M St unit :=
  front <- mshr_lookupFront (ev_baseAddr event);
  requestEvent <- deref NullEvent front;
  let responseEvent := ev_setDirty dirty (ev_setSize (ev_size event)
                         (ev_setPayload (ev_payload event) (makeResponse requestEvent))) in
  ts <- now;
  let deliveryTime := u64_add ts (mshrLatency_ cfg) in
  addToOutgoingQueue (mkResponse responseEvent deliveryTime
    (packetHeaderBytes cfg + ev_getPayloadSize responseEvent)).

Definition sendAckInv (event : MemEvent) : M St unit :=
  let ack := ev_setDst (getDestination cfg (ev_baseAddr event))
               (ev_setCmd Command.AckInv (makeResponse event)) in
  ts <- now;
  let deliveryTime := u64_add ts (tagLatency_ cfg) in
  addToOutgoingQueue (mkResponse ack deliveryTime (packetHeaderBytes cfg)).

Definition sendWritebackAck (event : MemEvent) : M St unit :=
  let ack := ev_setSize (ev_size event) (ev_setRqstr (ev_src event)
               (ev_setDst (ev_src event)
                 (newMemEvent (ownerName_ cfg) (ev_baseAddr event) (ev_baseAddr event)
                    Command.AckPut))) in
  ts <- now;
  let deliveryTime := u64_add ts (tagLatency_ cfg) in
  addToOutgoingQueueUp (mkResponse ack deliveryTime (packetHeaderBytes cfg)).

Definition sendFlushResponse (requestEvent : option MemEvent) (success : bool) : M St unit :=
  req <- deref NullEvent requestEvent;
  let flushResponse := ev_setDst (ev_src req) (ev_setSuccess success (makeResponse req)) in
  ts <- now;
  let deliveryTime := u64_add ts (mshrLatency_ cfg) in
  addToOutgoingQueueUp (mkResponse flushResponse deliveryTime (packetHeaderBytes cfg)).

(** Modelled from the spec: [CoherenceController::forwardMessage] is
    defined outside this file. The request is copied and sent toward
    the parent in the name of this cache; its delivery time is
    [max(engine_now, baseTime)] plus the tag latency of a first attempt
    (section 5). The result is the delivery time. *)
Definition forwardMessage (event : MemEvent) (baseAddr : Addr) (requestSize : Z)
    (baseTime : Z) (data : option (list byte)) : M St Z :=
  let fwd := ev_setSize requestSize (ev_setDst (getDestination cfg baseAddr)
               (ev_setSrc (ownerName_ cfg) event)) in
  let forwardEvent := match data with Some d => ev_setPayload d fwd | None => fwd end in
  ts <- now;
  let deliveryTime := u64_add (u64_max ts baseTime) (tagLatency_ cfg) in
  addToOutgoingQueue (mkResponse forwardEvent deliveryTime
    (packetHeaderBytes cfg + ev_getPayloadSize forwardEvent));;
  ret deliveryTime.

(** Modelled from the spec: [CoherenceController::sendResponseUp] is
    defined outside this file. The response to [event] is sent to its
    sender with the payload; its delivery time is
    [max(engine_now, baseTime)] plus the MSHR latency of a replay or the
    access latency of a first attempt (section 5). The result is the
    delivery time. [NULLCMD] keeps the response command of the request. *)
Definition sendResponseUpCmd (event : MemEvent) (cmd : Command)
    (data : option (list byte)) (replay : bool) (baseTime : Z) : M St Z :=
  let r0 := makeResponse event in
  let r1 := if Command.eqb cmd Command.NULLCMD then r0 else ev_setCmd cmd r0 in
  let responseEvent := match data with Some d => ev_setPayload d r1 | None => r1 end in
  ts <- now;
  let deliveryTime := u64_add (u64_max ts baseTime)
                        (if replay then mshrLatency_ cfg else accessLatency_ cfg) in
  addToOutgoingQueueUp (mkResponse responseEvent deliveryTime
    (packetHeaderBytes cfg + ev_getPayloadSize responseEvent));;
  ret deliveryTime.

Definition sendResponseUp (event : MemEvent) (data : option (list byte))
    (replay : bool) (baseTime : Z) : M St Z :=
  sendResponseUpCmd event Command.NULLCMD data replay baseTime.
End NoLine.

Definition sendWritebackFromCache (cmd : Command) (rqstr : string) : M LineState unit :=
  base <- getBaseAddr;
  size <- getSize;
  let wb0 := ev_setSize size (ev_setDst (getDestination cfg base)
               (newMemEvent (ownerName_ cfg) base base cmd)) in
  payload <- (if Command.eqb cmd Command.PutM || writebackCleanBlocks_ cfg
              then dl <- getDataLine; d <- deref NullData dl; ret (Some d)
              else ret None);
  let wb1 := match payload with Some d => ev_setPayload d wb0 | None => wb0 end in
  let wb2 := ev_setRqstr rqstr wb1 in
  let writeback := if Command.eqb cmd Command.PutM then ev_setDirty true wb2 else wb2 in
  ts <- now;
  lts <- getTimestamp;
  let baseTime := u64_max ts lts in
  let deliveryTime := u64_add baseTime (accessLatency_ cfg) in
  addToOutgoingQueue (mkResponse writeback deliveryTime
    (packetHeaderBytes cfg + ev_getPayloadSize writeback));;
  setTimestamp deliveryTime.

Definition sendWritebackFromMSHR (cmd : Command) (rqstr : string)
    (data : option (list byte)) : M LineState unit :=
  base <- getBaseAddr;
  size <- getSize;
  let wb0 := ev_setSize size (ev_setDst (getDestination cfg base)
               (newMemEvent (ownerName_ cfg) base base cmd)) in
  payload <- (if Command.eqb cmd Command.PutM || writebackCleanBlocks_ cfg
              then d <- deref NullData data; ret (Some d)
              else ret None);
  let wb1 := match payload with Some d => ev_setPayload d wb0 | None => wb0 end in
  let wb2 := ev_setRqstr rqstr wb1 in
  let writeback := if Command.eqb cmd Command.PutM then ev_setDirty true wb2 else wb2 in
  ts <- now;
  let deliveryTime := u64_add ts (accessLatency_ cfg) in
  addToOutgoingQueue (mkResponse writeback deliveryTime
    (packetHeaderBytes cfg + ev_getPayloadSize writeback)).

(** *** Eviction *)

(** The [switch] of [handleEviction]; [state] is the state read on
    entry, before a colliding replacement is merged. *)
Definition handleEviction_switch (origRqstr : string) (fromDataCache : bool)
    (state : State) (wbBaseAddr : Addr) (isCached collision : bool)
    : M LineState CacheAction :=
  match state with
  | State.I => ret DONE
  | State.S =>
      pf <- getPrefetch;
      when pf (setPrefetch false);;
      n <- numSharers;
      if (0 <? n)%nat && negb fromDataCache then
        (if isCached || collision then invalidateAllSharers (ownerName_ cfg) false
         else invalidateAllSharersAndFetch (ownerName_ cfg) false);;
        setState State.SI;;
        ret STALL
      else if negb isCached && negb collision then fatal
      else
        n <- numSharers;
        if fromDataCache && (0 <? n)%nat then ret DONE
        else
          (if isCached then sendWritebackFromCache Command.PutS origRqstr
           else buf <- mshr_getDataBuffer wbBaseAddr;
                sendWritebackFromMSHR Command.PutS origRqstr buf);;
          n <- numSharers;
          when (n =? 0)%nat (setState State.I);;
          when (expectWritebackAck_ cfg) (mshr_insertWriteback wbBaseAddr);;
          ret DONE
  | State.E =>
      pf <- getPrefetch;
      when pf (setPrefetch false);;
      n <- numSharers;
      oe <- ownerExists;
      if (0 <? n)%nat && negb fromDataCache then
        (if isCached || collision then invalidateAllSharers (ownerName_ cfg) false
         else invalidateAllSharersAndFetch (ownerName_ cfg) false);;
        setState State.EI;;
        ret STALL
      else if oe && negb fromDataCache then
        sendFetchInv (ownerName_ cfg) false;;
        mshr_incrementAcksNeeded wbBaseAddr;;
        setState State.EI;;
        ret STALL
      else if negb isCached && negb collision then fatal
      else
        n <- numSharers;
        oe <- ownerExists;
        if fromDataCache && ((0 <? n)%nat || oe) then ret DONE
        else
          (if isCached then sendWritebackFromCache Command.PutE origRqstr
           else buf <- mshr_getDataBuffer wbBaseAddr;
                sendWritebackFromMSHR Command.PutE origRqstr buf);;
          n <- numSharers;
          oe <- ownerExists;
          when ((n =? 0)%nat && negb oe) (setState State.I);;
          when (expectWritebackAck_ cfg) (mshr_insertWriteback wbBaseAddr);;
          ret DONE
  | State.M =>
      pf <- getPrefetch;
      when pf (setPrefetch false);;
      n <- numSharers;
      oe <- ownerExists;
      if (0 <? n)%nat && negb fromDataCache then
        (if isCached || collision then invalidateAllSharers (ownerName_ cfg) false
         else invalidateAllSharersAndFetch (ownerName_ cfg) false);;
        setState State.MI;;
        ret STALL
      else if oe && negb fromDataCache then
        sendFetchInv (ownerName_ cfg) false;;
        mshr_incrementAcksNeeded wbBaseAddr;;
        setState State.MI;;
        ret STALL
      else if negb isCached && negb collision then fatal
      else
        n <- numSharers;
        oe <- ownerExists;
        if fromDataCache && ((0 <? n)%nat || oe) then ret DONE
        else
          (if isCached then sendWritebackFromCache Command.PutM origRqstr
           else buf <- mshr_getDataBuffer wbBaseAddr;
                sendWritebackFromMSHR Command.PutM origRqstr buf);;
          n <- numSharers;
          oe <- ownerExists;
          when ((n =? 0)%nat && negb oe) (setState State.I);;
          when (expectWritebackAck_ cfg) (mshr_insertWriteback wbBaseAddr);;
          ret DONE
  | State.SI | State.S_Inv | State.E_Inv | State.M_Inv | State.SM_Inv
  | State.E_InvX | State.S_B | State.I_B => ret STALL
  | _ => fatal
  end.

Definition isPut (c : Command) : bool :=
  Command.eqb c Command.PutS || Command.eqb c Command.PutE || Command.eqb c Command.PutM.

(** The replacement waiting at the head of the MSHR queue of the line is
    handled at once: it is taken as already done. *)
Definition handleEviction_collision (state : State) (w : MemEvent) : M LineState unit :=
  when (State.eqb state State.E && ev_dirty w) (setState State.M);;
  isS <- isSharer (ev_src w);
  (if isS then removeSharer (ev_src w)
   else oe <- ownerExists; when oe clearOwner);;
  mshr_setDataBuffer (ev_baseAddr w) (ev_payload w);;
  mshr_removeFront (ev_baseAddr w).

(** [handleEviction(replacementLine, origRqstr, fromDataCache)], run on
    the replacement line. The statistics ([recordEvictionState], the
    prefetch counters) are not part of the state. *)
Definition handleEviction (origRqstr : string) (fromDataCache : bool)
    : M LineState CacheAction :=
  state <- getState;
  wbBaseAddr <- getBaseAddr;
  dl <- getDataLine;
  let isCached := notNull dl in
  hit <- mshr_isHit wbBaseAddr;
  waitingEvent <- (if hit then mshr_lookupFront wbBaseAddr else ret None);
  let collision :=
    match waitingEvent with
    | Some w => isPut (ev_cmd w)
    | None => false
    end in
  match waitingEvent with
  | Some w => when collision (handleEviction_collision state w)
  | None => ret tt
  end;;
  handleEviction_switch origRqstr fromDataCache state wbBaseAddr isCached collision.

(** *** Manage data structures *)

(** Dereference of a line pointer of the array. *)
Definition readLine (p : nat) : M Engine CacheLine :=
  λ s, match cacheArray_ s !! p with
       | Some l => Ret l s
       | None => Abort Dangling s
       end.

Definition writeLine (p : nat) (l : CacheLine) : M Engine unit :=
  modify (λ s, mkEngine (<[p := l]> (cacheArray_ s)) (en_shared s)).

(** Modelled from the spec: [CacheArray::lookup] is defined outside this
    file; it finds the directory line of an address, or null (section 6).
    The second argument only feeds the replacement order. *)
Definition cacheArray_lookup (addr : Addr) (update : bool) : M Engine (option nat) :=
  gets (λ s, fst <$> list_find (λ l, ln_baseAddr l = addr) (cacheArray_ s)).

(** Modelled from the spec: [CacheArray::replace(addr, line)] is defined
    outside this file; it installs the line at [addr] (section 6), a fresh
    line in state [I] (section 4.2). *)
Definition cacheArray_replace (addr : Addr) (p : nat) : M Engine unit :=
  l <- readLine p;
  writeLine p (mkCacheLine addr State.I [] EmptyString None 0 false (ln_size l)).

(** Modelled from the spec: [CacheArray::replace(addr, line, dataLine)]
    is defined outside this file; it binds the data slot of the candidate
    [q] to the line [p] (sections 3 and 6): the candidate loses its
    binding. *)
Definition cacheArray_replaceData (addr : Addr) (p q : nat) : M Engine unit :=
  rl <- readLine q;
  writeLine q (ln_setDataLine None rl);;
  l <- readLine p;
  writeLine p (ln_setDataLine (Some (default [] (ln_dataLine rl))) l).

Definition allocateLine (addr : Addr) (event : MemEvent) : M Engine bool :=
  arr <- gets cacheArray_;
  let replacementLine := findReplacementCandidate cfg arr addr true in
  rl <- readLine replacementLine;
  if ln_valid rl then
    if ln_inTransition rl then
      mshr_insertPointer (ln_baseAddr rl) (ev_baseAddr event);;
      ret false
    else
      action <- focus replacementLine (handleEviction (getName cfg) false);
      if CacheAction_eqb action STALL then
        mshr_insertPointer (ln_baseAddr rl) (ev_baseAddr event);;
        ret false
      else
        cacheArray_replace addr replacementLine;;
        ret true
  else
    cacheArray_replace addr replacementLine;;
    ret true.

Definition allocateDirCacheLine (event : MemEvent) (addr : Addr) (dirLine : nat)
    (noStall : bool) : M Engine bool :=
  arr <- gets cacheArray_;
  let replacementDirLine := findReplacementCandidate cfg arr addr false in
  rl <- readLine replacementDirLine;
  if bool_decide (dirLine = replacementDirLine) then
    cacheArray_replaceData addr dirLine replacementDirLine;;
    ret true
  else if ln_valid rl then
    if ln_inTransition rl then
      if noStall then ret false
      else
        mshr_insertPointer (ln_baseAddr rl) addr;;
        ret false
    else
      focus replacementDirLine (handleEviction (getName cfg) true);;
      cacheArray_replaceData addr dirLine replacementDirLine;;
      ret true
  else
    cacheArray_replaceData addr dirLine replacementDirLine;;
    ret true.

(** *** Internal event handlers: requests *)

(** The [switch] of [handleGetSRequest], run on [dirLine]; [state] is
    the state read on entry. *)
Definition handleGetSRequest_switch (event : MemEvent) (replay : bool)
    (state : State) (localPrefetch : bool) : M LineState CacheAction :=
  let addr := ev_baseAddr event in
  dl <- getDataLine;
  let isCached := notNull dl in
  match state with
  | State.I =>
      base <- getBaseAddr;
      sendTime <- forwardMessage event base (lineSize_ cfg) 0 None;
      setState State.IS;;
      setTimestamp sendTime;;
      allocateMSHR addr event;;
      ret STALL
  | State.S =>
      if localPrefetch then ret DONE
      else
        pf <- getPrefetch;
        when pf (setPrefetch false);;
        if isCached then
          addSharer (ev_src event);;
          lts <- getTimestamp;
          sendTime <- sendResponseUp event dl replay lts;
          setTimestamp sendTime;;
          ret DONE
        else
          sendFetch (ev_rqstr event) replay;;
          mshr_incrementAcksNeeded (ev_baseAddr event);;
          setState State.S_D;;
          allocateMSHR addr event;;
          ret STALL
  | State.E | State.M =>
      if localPrefetch then ret DONE
      else
        pf <- getPrefetch;
        when pf (setPrefetch false);;
        oe <- ownerExists;
        if oe then
          sendFetchInvX (ev_rqstr event) replay;;
          mshr_incrementAcksNeeded (ev_baseAddr event);;
          (if State.eqb state State.E then setState State.E_InvX
           else setState State.M_InvX);;
          allocateMSHR addr event;;
          ret STALL
        else if isCached then
          n <- numSharers;
          (if protocol_ cfg && (n =? 0)%nat then
             lts <- getTimestamp;
             sendTime <- sendResponseUpCmd event Command.GetXResp dl replay lts;
             setOwner (ev_src event);;
             setTimestamp sendTime
           else
             lts <- getTimestamp;
             sendTime <- sendResponseUp event dl replay lts;
             addSharer (ev_src event);;
             setTimestamp sendTime);;
          ret DONE
        else
          sendFetch (ev_rqstr event) replay;;
          mshr_incrementAcksNeeded (ev_baseAddr event);;
          (if State.eqb state State.E then setState State.E_D
           else setState State.M_D);;
          allocateMSHR addr event;;
          ret STALL
  | _ => fatal
  end.

(** [handleGetSRequest(event, dirLine, replay)]: the allocation of a data
    line for a local prefetch works on the array, the rest on the line. *)
Definition handleGetSRequest (event : MemEvent) (dirLine : nat) (replay : bool)
    : M Engine CacheAction :=
  let addr := ev_baseAddr event in
  l <- readLine dirLine;
  let state := ln_state l in
  let localPrefetch := ev_prefetch event && bool_decide (ev_rqstr event = ownerName_ cfg) in
  stalled <-
    (if localPrefetch && negb (notNull (ln_dataLine l)) && State.eqb state State.I
     then
       ok <- allocateDirCacheLine event addr dirLine false;
       if negb ok then allocateMSHR addr event;; ret true else ret false
     else ret false);
  if stalled then ret STALL
  else focus dirLine (handleGetSRequest_switch event replay state localPrefetch).

(** [handleGetXRequest(event, dirLine, replay)] *)
Definition handleGetXRequest (event : MemEvent) (replay : bool) : M LineState CacheAction :=
  let addr := ev_baseAddr event in
  state0 <- getState;
  dl <- getDataLine;
  let isCached := notNull dl in
  state <- (if State.eqb state0 State.S && lastLevel_ cfg
            then setState State.M;; ret State.M
            else ret state0);
  let caseM : M LineState CacheAction :=
    pf <- getPrefetch;
    when pf (setPrefetch false);;
    sentInv <- invalidateSharersExceptRequestor (ev_src event) (ev_rqstr event)
                 replay (negb isCached);
    if sentInv then
      setState State.M_Inv;;
      ret STALL
    else
      oe <- ownerExists;
      if oe then
        sendFetchInv (ev_rqstr event) replay;;
        mshr_incrementAcksNeeded (ev_baseAddr event);;
        setState State.M_Inv;;
        allocateMSHR addr event;;
        ret STALL
      else
        setOwner (ev_src event);;
        isS <- isSharer (ev_src event);
        when isS (removeSharer (ev_src event));;
        lts <- getTimestamp;
        sendTime <- sendResponseUp event (if isCached then dl else None) replay lts;
        setTimestamp sendTime;;
        ret DONE in
  match state with
  | State.I =>
      base <- getBaseAddr;
      sendTime <- forwardMessage event base (lineSize_ cfg) 0 (Some (ev_payload event));
      setState State.IM;;
      setTimestamp sendTime;;
      allocateMSHR addr event;;
      ret STALL
  | State.S =>
      pf <- getPrefetch;
      when pf (setPrefetch false);;
      base <- getBaseAddr;
      lts <- getTimestamp;
      sendTime <- forwardMessage event base (lineSize_ cfg) lts (Some (ev_payload event));
      sentInv <- invalidateSharersExceptRequestor (ev_src event) (ev_rqstr event)
                   replay false;
      (if sentInv then setState State.SM_Inv
       else setState State.SM;; setTimestamp sendTime);;
      allocateMSHR addr event;;
      ret STALL
  | State.E =>
      setState State.M;;
      caseM
  | State.M => caseM
  | State.SM =>
      allocateMSHR addr event;;
      ret STALL
  | _ => fatal
  end.

(** [handleRequest(event, replay)] *)
Definition handleRequest (event : MemEvent) (replay : bool) : M Engine CacheAction :=
  let addr := ev_baseAddr event in
  let dispatch (dirLine : option nat) : M Engine CacheAction :=
    match ev_cmd event with
    | Command.GetS =>
        p <- deref NullLine dirLine;
        handleGetSRequest event p replay
    | Command.GetX | Command.GetSX =>
        p <- deref NullLine dirLine;
        focus p (handleGetXRequest event replay)
    | _ => fatal
    end in
  dirLine <- cacheArray_lookup addr (negb replay);
  inTransition <- match dirLine with
                  | Some p => l <- readLine p; ret (ln_inTransition l)
                  | None => ret false
                  end;
  if inTransition then
    allocateMSHR addr event;;
    ret STALL
  else
    match dirLine with
    | None =>
        ok <- allocateLine addr event;
        if negb ok then
          allocateMSHR addr event;;
          ret STALL
        else
          dirLine' <- cacheArray_lookup addr false;
          dispatch dirLine'
    | Some _ => dispatch dirLine
    end.

(** *** Internal event handlers: replacements *)

(** [handlePutSRequest(event, dirLine, reqEvent)] *)
Definition handlePutSRequest (event : MemEvent) (reqEvent : option MemEvent)
    : M LineState CacheAction :=
  let payload := Some (ev_payload event) in
  state <- getState;
  (if State.eqb state State.S_D || State.eqb state State.E_D
      || State.eqb state State.SM_D || State.eqb state State.M_D
   then
     first <- firstSharer;
     when (bool_decide (first = ev_src event)) (mshr_decrementAcksNeeded (ev_baseAddr event))
   else
     n <- mshr_getAcksNeeded (ev_baseAddr event);
     when (0 <? n)%nat (mshr_decrementAcksNeeded (ev_baseAddr event)));;
  isS <- isSharer (ev_src event);
  when isS (removeSharer (ev_src event));;
  dl <- getDataLine;
  (if notNull dl then setData (ev_payload event)
   else
     base <- getBaseAddr;
     hit <- mshr_isHit base;
     when hit (mshr_setDataBuffer base (ev_payload event)));;
  n <- mshr_getAcksNeeded (ev_baseAddr event);
  if negb (n =? 0)%nat then ret IGNORE
  else
    match state with
    | State.I | State.S | State.E | State.M | State.S_B =>
        sendWritebackAck event;;
        ret DONE
    | State.SI =>
        req <- deref NullEvent reqEvent;
        sendWritebackFromMSHR Command.PutS (ev_rqstr req) payload;;
        when (expectWritebackAck_ cfg) (mshr_insertWriteback (ev_baseAddr event));;
        setState State.I;;
        ret DONE
    | State.EI =>
        req <- deref NullEvent reqEvent;
        sendWritebackFromMSHR Command.PutE (ev_rqstr req) payload;;
        when (expectWritebackAck_ cfg) (mshr_insertWriteback (ev_baseAddr event));;
        setState State.I;;
        ret DONE
    | State.MI =>
        req <- deref NullEvent reqEvent;
        sendWritebackFromMSHR Command.PutM (ev_rqstr req) payload;;
        when (expectWritebackAck_ cfg) (mshr_insertWriteback (ev_baseAddr event));;
        setState State.I;;
        ret DONE
    | State.S_Inv =>
        req <- deref NullEvent reqEvent;
        (if Command.eqb (ev_cmd req) Command.Inv then sendAckInv req
         else sendResponseDownFromMSHR event false);;
        setState State.I;;
        ret DONE
    | State.SB_Inv =>
        req <- deref NullEvent reqEvent;
        sendAckInv req;;
        setState State.I_B;;
        ret DONE
    | State.S_D =>
        setState State.S;;
        req <- deref NullEvent reqEvent;
        (if Command.eqb (ev_cmd req) Command.Fetch then
           dl <- getDataLine;
           n <- numSharers;
           if negb (notNull dl) && (n =? 0)%nat then
             sendWritebackFromMSHR Command.PutS (ev_rqstr req) payload;;
             setState State.I
           else sendResponseDownFromMSHR event false
         else if Command.eqb (ev_cmd req) Command.GetS then
           addSharer (ev_src req);;
           lts <- getTimestamp;
           sendTime <- sendResponseUp req payload true lts;
           setTimestamp sendTime
         else fatal);;
        ret DONE
    | State.E_Inv =>
        req <- deref NullEvent reqEvent;
        when (Command.eqb (ev_cmd req) Command.FetchInv) (
          sendResponseDown req payload (ev_dirty event) true;;
          setState State.I);;
        ret DONE
    | State.E_D =>
        setState State.E;;
        req <- deref NullEvent reqEvent;
        (if Command.eqb (ev_cmd req) Command.Fetch then
           dl <- getDataLine;
           n <- numSharers;
           if negb (notNull dl) && (n =? 0)%nat then
             sendWritebackFromMSHR Command.PutE (ev_rqstr req) payload;;
             setState State.I
           else sendResponseDownFromMSHR event false
         else if Command.eqb (ev_cmd req) Command.GetS then
           n <- numSharers;
           if (n =? 0)%nat then
             setOwner (ev_src req);;
             lts <- getTimestamp;
             sendTime <- sendResponseUpCmd req Command.GetXResp payload true lts;
             setTimestamp sendTime
           else
             addSharer (ev_src req);;
             lts <- getTimestamp;
             sendTime <- sendResponseUp req payload true lts;
             setTimestamp sendTime
         else fatal);;
        ret DONE
    | State.E_InvX =>
        setState State.S;;
        req <- deref NullEvent reqEvent;
        (if Command.eqb (ev_cmd req) Command.FetchInvX then
           dl <- getDataLine;
           n <- numSharers;
           if negb (notNull dl) && (n =? 0)%nat then
             sendWritebackFromMSHR Command.PutE (ev_rqstr req) payload;;
             setState State.I
           else sendResponseDownFromMSHR event false
         else fatal);;
        ret DONE
    | State.M_Inv =>
        req <- deref NullEvent reqEvent;
        (if Command.eqb (ev_cmd req) Command.FetchInv then
           sendResponseDown req payload true true;;
           setState State.I
         else
           setOwner (ev_src req);;
           isS <- isSharer (ev_src req);
           when isS (removeSharer (ev_src req));;
           lts <- getTimestamp;
           sendTime <- sendResponseUp req payload true lts;
           setTimestamp sendTime;;
           setState State.M);;
        ret DONE
    | State.M_D =>
        setState State.M;;
        req <- deref NullEvent reqEvent;
        (if Command.eqb (ev_cmd req) Command.Fetch then
           dl <- getDataLine;
           n <- numSharers;
           if negb (notNull dl) && (n =? 0)%nat then
             sendWritebackFromMSHR Command.PutM (ev_rqstr req) payload;;
             setState State.I
           else sendResponseDownFromMSHR event false
         else if Command.eqb (ev_cmd req) Command.GetS then
           n <- numSharers;
           if (n =? 0)%nat then
             setOwner (ev_src req);;
             lts <- getTimestamp;
             sendTime <- sendResponseUpCmd req Command.GetXResp payload true lts;
             setTimestamp sendTime
           else
             addSharer (ev_src req);;
             lts <- getTimestamp;
             sendTime <- sendResponseUp req payload true lts;
             setTimestamp sendTime
         else fatal);;
        ret DONE
    | State.SM_Inv =>
        req <- deref NullEvent reqEvent;
        n <- numSharers;
        if Command.eqb (ev_cmd req) Command.Inv then
          if (0 <? n)%nat then
            invalidateAllSharers (ev_rqstr event) true;;
            ret IGNORE
          else
            sendAckInv req;;
            setState State.IM;;
            ret DONE
        else if Command.eqb (ev_cmd req) Command.FetchInv then
          if (0 <? n)%nat then
            invalidateAllSharers (ev_rqstr event) true;;
            ret IGNORE
          else
            sendResponseDownFromMSHR event false;;
            setState State.IM;;
            ret DONE
        else
          setState State.SM;;
          ret DONE
    | State.SM_D =>
        req <- deref NullEvent reqEvent;
        when (Command.eqb (ev_cmd req) Command.Fetch) (
          sendResponseDownFromMSHR event false;;
          setState State.SM);;
        ret DONE
    | _ => fatal
    end.

(** [handlePutMRequest(event, dirLine, reqEvent)] *)
Definition handlePutMRequest (event : MemEvent) (reqEvent : option MemEvent)
    : M LineState CacheAction :=
  let payload := Some (ev_payload event) in
  state <- getState;
  dl <- getDataLine;
  base <- getBaseAddr;
  let isCached := notNull dl in
  (if isCached then setData (ev_payload event)
   else
     hit <- mshr_isHit base;
     when hit (mshr_setDataBuffer base (ev_payload event)));;
  n <- mshr_getAcksNeeded (ev_baseAddr event);
  when (0 <? n)%nat (mshr_decrementAcksNeeded (ev_baseAddr event));;
  let caseM : M LineState CacheAction :=
    clearOwner;;
    sendWritebackAck event;;
    when (negb isCached) (
      st <- getState;
      sendWritebackFromMSHR
        (if State.eqb st State.E then Command.PutE else Command.PutM)
        (ev_rqstr event) payload;;
      when (expectWritebackAck_ cfg) (mshr_insertWriteback base);;
      setState State.I);;
    ret DONE in
  let caseMI : M LineState CacheAction :=
    clearOwner;;
    st <- getState;
    sendWritebackFromMSHR
      (if State.eqb st State.EI then Command.PutE else Command.PutM)
      (ownerName_ cfg) payload;;
    when (expectWritebackAck_ cfg) (mshr_insertWriteback base);;
    setState State.I;;
    ret DONE in
  let caseM_Inv : M LineState CacheAction :=
    clearOwner;;
    req <- deref NullEvent reqEvent;
    (if Command.eqb (ev_cmd req) Command.GetX || Command.eqb (ev_cmd req) Command.GetSX
     then
       setState State.M;;
       lts <- getTimestamp;
       sendTime <- sendResponseUp req payload true lts;
       setTimestamp sendTime;;
       setOwner (ev_src req)
     else
       st <- getState;
       sendResponseDownFromMSHR event (State.eqb st State.M_Inv);;
       setState State.I);;
    ret DONE in
  match state with
  | State.E =>
      when (ev_dirty event) (setState State.M);;
      caseM
  | State.M => caseM
  | State.EI =>
      when (ev_dirty event) (setState State.MI);;
      caseMI
  | State.MI => caseMI
  | State.E_InvX =>
      clearOwner;;
      req <- deref NullEvent reqEvent;
      (if Command.eqb (ev_cmd req) Command.FetchInvX then
         if negb isCached then
           sendWritebackFromMSHR
             (if ev_dirty event then Command.PutM else Command.PutE)
             (ev_rqstr event) payload;;
           setState State.I;;
           when (expectWritebackAck_ cfg) (mshr_insertWriteback (ev_baseAddr event))
         else
           sendResponseDownFromMSHR event (Command.eqb (ev_cmd event) Command.PutM);;
           setState State.S
       else
         (if protocol_ cfg then
            lts <- getTimestamp;
            sendTime <- sendResponseUpCmd req Command.GetXResp payload true lts;
            setTimestamp sendTime;;
            setOwner (ev_src req)
          else
            lts <- getTimestamp;
            sendTime <- sendResponseUp req payload true lts;
            setTimestamp sendTime;;
            addSharer (ev_src req));;
         (if ev_dirty event then setState State.M else setState State.E));;
      ret DONE
  | State.M_InvX =>
      clearOwner;;
      req <- deref NullEvent reqEvent;
      (if Command.eqb (ev_cmd req) Command.FetchInvX then
         if negb isCached then
           sendWritebackFromMSHR Command.PutM (ev_rqstr event) payload;;
           setState State.I;;
           when (expectWritebackAck_ cfg) (mshr_insertWriteback (ev_baseAddr event))
         else
           sendResponseDownFromMSHR event true;;
           setState State.S
       else
         setState State.M;;
         (if protocol_ cfg then
            lts <- getTimestamp;
            sendTime <- sendResponseUpCmd req Command.GetXResp payload true lts;
            setTimestamp sendTime;;
            setOwner (ev_src req)
          else
            lts <- getTimestamp;
            sendTime <- sendResponseUp req payload true lts;
            setTimestamp sendTime;;
            addSharer (ev_src req)));;
      ret DONE
  | State.E_Inv =>
      when (Command.eqb (ev_cmd event) Command.PutM) (setState State.M_Inv);;
      caseM_Inv
  | State.M_Inv => caseM_Inv
  | _ => fatal
  end.

(** [handleReplacement(event, replay)]: the line returned by the lookup
    is dereferenced without a test. *)
Definition handleReplacement (event : MemEvent) (replay : bool) : M Engine CacheAction :=
  let addr := ev_baseAddr event in
  dirLine <- cacheArray_lookup addr false;
  p <- deref NullLine dirLine;
  l <- readLine p;
  stalled <-
    (if negb (notNull (ln_dataLine l)) then
       ok <- allocateDirCacheLine event addr p (ln_inTransition l);
       l' <- readLine p;
       if negb ok && negb (ln_inTransition l') then
         allocateMSHR addr event;;
         ret true
       else ret false
     else ret false);
  if stalled then ret STALL
  else
    ex <- mshr_exists addr;
    reqEvent <- (if ex then mshr_lookupFront addr else ret None);
    action <-
      match ev_cmd event with
      | Command.PutS => focus p (handlePutSRequest event reqEvent)
      | Command.PutE | Command.PutM => focus p (handlePutMRequest event reqEvent)
      | _ => fatal
      end;
    when ((CacheAction_eqb action DONE || CacheAction_eqb action STALL)
          && notNull reqEvent) (mshr_removeFront addr);;
    when (CacheAction_eqb action STALL || CacheAction_eqb action BLOCK)
      (allocateMSHR addr event);;
    ret action.

(** *** Internal event handlers: responses *)

(** [handleDataResponse(responseEvent, dirLine, origRequest)]. The
    original request is the event at the head of the MSHR queue of the
    address: [setMemFlags] updates it there. *)
Definition handleDataResponse (responseEvent : MemEvent) (origRequest : option MemEvent)
    : M LineState CacheAction :=
  let payload := Some (ev_payload responseEvent) in
  state <- getState;
  orig <- deref NullEvent origRequest;
  mshr_modifyFront (ev_baseAddr responseEvent) (ev_setMemFlags (ev_memFlags responseEvent));;
  let req := ev_setMemFlags (ev_memFlags responseEvent) orig in
  let localPrefetch := ev_prefetch req && bool_decide (ev_rqstr req = ownerName_ cfg) in
  dl <- getDataLine;
  let isCached := notNull dl in
  let caseSM : M LineState CacheAction :=
    setState State.M;;
    setOwner (ev_src req);;
    isS <- isSharer (ev_src req);
    when isS (removeSharer (ev_src req));;
    dl' <- getDataLine;
    lts <- getTimestamp;
    sendTime <- sendResponseUp req (if isCached then dl' else payload) true lts;
    setTimestamp sendTime;;
    ret DONE in
  match state with
  | State.IS =>
      (if Command.eqb (ev_cmd responseEvent) Command.GetXResp && protocol_ cfg
       then setState State.E else setState State.S);;
      when isCached (setData (ev_payload responseEvent));;
      if localPrefetch then
        setPrefetch true;;
        ret DONE
      else
        st <- getState;
        lts <- getTimestamp;
        sendTime <-
          (if State.eqb st State.E then
             setOwner (ev_src req);;
             sendResponseUpCmd req Command.GetXResp payload true lts
           else
             addSharer (ev_src req);;
             sendResponseUp req payload true lts);
        setTimestamp sendTime;;
        ret DONE
  | State.IM =>
      when isCached (setData (ev_payload responseEvent));;
      caseSM
  | State.SM => caseSM
  | State.SM_Inv =>
      mshr_setDataBuffer (ev_baseAddr responseEvent) (ev_payload responseEvent);;
      setState State.M_Inv;;
      ret STALL
  | _ => fatal
  end.

(** [handleCacheResponse(event, inMSHR)] *)
Definition handleCacheResponse (event : MemEvent) (inMSHR : bool) : M Engine CacheAction :=
  let bAddr := ev_baseAddr event in
  dLine <- cacheArray_lookup bAddr false;
  reqEvent <- mshr_lookupFront bAddr;
  action <-
    match ev_cmd event with
    | Command.GetSResp | Command.GetXResp =>
        p <- deref NullLine dLine;
        focus p (handleDataResponse event reqEvent)
    | Command.FlushLineResp =>
        sendFlushResponse reqEvent (ev_success event);;
        match dLine with
        | Some p =>
            focus p (st <- getState;
                     if State.eqb st State.S_B then setState State.S
                     else setState State.I)
        | None => ret tt
        end;;
        ret DONE
    | _ => fatal
    end;
  when (CacheAction_eqb action DONE) (mshr_removeFront bAddr);;
  ret action.

(** [handleAckInv(ack, dirLine, reqEvent)]. The cases [SI], [EI] and
    [MI] of the [switch] have neither [break] nor [return]: each falls
    through to the next one and then to the [default] case. *)
Definition handleAckInv (ack : MemEvent) (reqEvent : option MemEvent)
    : M LineState CacheAction :=
  state <- getState;
  isS <- isSharer (ev_src ack);
  when isS (removeSharer (ev_src ack));;
  n <- mshr_getAcksNeeded (ev_baseAddr ack);
  when (0 <? n)%nat (mshr_decrementAcksNeeded (ev_baseAddr ack));;
  n <- mshr_getAcksNeeded (ev_baseAddr ack);
  let action := if (n =? 0)%nat then DONE else IGNORE in
  let done := CacheAction_eqb action DONE in
  dl <- getDataLine;
  data <- (if notNull dl then ret dl
           else req <- deref NullEvent reqEvent; mshr_getDataBuffer (ev_baseAddr req));
  let writeback (cmd : Command) : M LineState unit :=
    when done (
      req <- deref NullEvent reqEvent;
      sendWritebackFromMSHR cmd (ev_rqstr req) data;;
      when (expectWritebackAck_ cfg) (mshr_insertWriteback (ev_baseAddr ack));;
      setState State.I) in
  match state with
  | State.S_Inv =>
      when done (
        req <- deref NullEvent reqEvent;
        (if Command.eqb (ev_cmd req) Command.FetchInv
         then sendResponseDown req data false true
         else sendAckInv req);;
        setState State.I);;
      ret action
  | State.E_Inv | State.M_Inv =>
      when done (
        req <- deref NullEvent reqEvent;
        (if Command.eqb (ev_cmd req) Command.FetchInv then
           sendResponseDown req data (State.eqb state State.E_Inv) true;;
           setState State.I
         else if Command.eqb (ev_cmd req) Command.ForceInv then
           sendAckInv req;;
           setState State.I
         else
           setOwner (ev_src req);;
           isS <- isSharer (ev_src req);
           when isS (removeSharer (ev_src req));;
           lts <- getTimestamp;
           sendTime <- sendResponseUp req data true lts;
           setTimestamp sendTime;;
           setState State.M);;
        mshr_clearDataBuffer (ev_baseAddr req));;
      ret action
  | State.SM_Inv =>
      if done then
        req <- deref NullEvent reqEvent;
        if Command.eqb (ev_cmd req) Command.Inv || Command.eqb (ev_cmd req) Command.ForceInv
        then
          n <- numSharers;
          if (0 <? n)%nat then
            invalidateAllSharers (ev_rqstr req) true;;
            ret STALL
          else
            sendAckInv req;;
            setState State.IM;;
            ret action
        else if Command.eqb (ev_cmd req) Command.FetchInv then
          sendResponseDown req data false true;;
          setState State.IM;;
          ret action
        else
          setState State.SM;;
          ret IGNORE
      else ret action
  | State.SB_Inv =>
      if done then
        req <- deref NullEvent reqEvent;
        n <- numSharers;
        if (0 <? n)%nat then
          invalidateAllSharers (ev_rqstr req) true;;
          ret IGNORE
        else
          sendAckInv req;;
          setState State.I_B;;
          ret action
      else ret action
  | State.SI =>
      writeback Command.PutS;;
      writeback Command.PutE;;
      writeback Command.PutM;;
      fatal
  | State.EI =>
      writeback Command.PutE;;
      writeback Command.PutM;;
      fatal
  | State.MI =>
      writeback Command.PutM;;
      fatal
  | _ => fatal
  end.

(** [handleNACK(event, inMSHR)].

    Modelled from the spec: [resendEvent] is defined outside this file.
    Section 4.5 says only that the refused event is sent again: here the
    event is queued once more, toward the children when the NACK came
    from the upper network and toward the parent otherwise. Neither the
    source nor the specification gives the time of a resend: the
    delivery time below stands for it, and no theorem states it, nor
    which of the two queues the event joins. *)
Definition resendEvent {St : Type} `{HasShared St} (event : MemEvent) (up : bool) : M St unit :=
  ts <- now;
  let deliveryTime := u64_add ts (mshrLatency_ cfg) in
  let resp := mkResponse event deliveryTime (packetHeaderBytes cfg + ev_getPayloadSize event) in
  if up then addToOutgoingQueueUp resp else addToOutgoingQueue resp.

Definition handleNACK (event : NACKEvent) (inMSHR : bool) : M Engine bool :=
  let nackedEvent := getNACKedEvent event in
  let cmd := ev_cmd nackedEvent in
  dLine <- cacheArray_lookup (ev_baseAddr nackedEvent) false;
  dl <- match dLine with
        | Some p => l <- readLine p; ret (Some l)
        | None => ret None
        end;
  let state := match dl with Some l => ln_state l | None => State.I end in
  (** [state != I] implies that [dLine] is not null *)
  let owner := match dl with Some l => ln_owner l | None => EmptyString end in
  let isSharerDst := match dl with Some l => ln_isSharer (ev_dst nackedEvent) l | None => false end in
  resend <-
    match cmd with
    | Command.GetS | Command.GetX | Command.GetSX => ret true
    | Command.PutS | Command.PutE | Command.PutM =>
        pw <- mshr_pendingWriteback (ev_baseAddr nackedEvent);
        ret (if expectWritebackAck_ cfg && negb pw then false else true)
    | Command.FetchInvX =>
        ret (if State.eqb state State.I || bool_decide (owner ≠ ev_dst nackedEvent)
              then false else true)
    | Command.FetchInv =>
        ret (if State.eqb state State.I
                 || (bool_decide (owner ≠ ev_dst nackedEvent) && negb isSharerDst)
              then false else true)
    | Command.Fetch | Command.Inv =>
        ret (if State.eqb state State.I || negb isSharerDst then false else true)
    | _ => fatal
    end;
  (if resend then resendEvent nackedEvent (ev_fromHighNetNACK nackedEvent)
   else ret tt);;
  ret true.

End Manager.

(** *** Routing of acknowledgements and invalidations

    The handlers of [FetchResp]/[FetchXResp] and of the five invalidation
    commands dispatch on the state of the line; the two routing functions
    below are given them as parameters. *)
Section Routing.
Variable cfg : Config.
Variable handleFetchResp : MemEvent → option nat → option MemEvent → M Engine CacheAction.
Variables handleInv handleFetch handleFetchInv handleFetchInvX handleForceInv
  : MemEvent → option nat → bool → option MemEvent → M Engine CacheAction.

(** [handleFetchResponse(event, inMSHR)] *)
Definition handleFetchResponse (event : MemEvent) (inMSHR : bool) : M Engine CacheAction :=
  let bAddr := ev_baseAddr event in
  dLine <- cacheArray_lookup bAddr false;
  ex <- mshr_exists bAddr;
  reqEvent <- (if ex then mshr_lookupFront bAddr else ret None);
  action <-
    match ev_cmd event with
    | Command.FetchResp | Command.FetchXResp => handleFetchResp event dLine reqEvent
    | Command.AckInv =>
        p <- deref NullLine dLine;
        focus p (handleAckInv cfg event reqEvent)
    | Command.AckPut =>
        mshr_removeWriteback bAddr;;
        ret DONE
    | _ => fatal
    end;
  when (CacheAction_eqb action DONE && notNull reqEvent)
    (mshr_removeFront bAddr);;
  ret action.

(** [handleInvalidationRequest(event, replay)] *)
Definition handleInvalidationRequest (event : MemEvent) (replay : bool)
    : M Engine CacheAction :=
  let bAddr := ev_baseAddr event in
  dirLine <- cacheArray_lookup bAddr false;
  pw <- mshr_pendingWriteback bAddr;
  full <- mshr_isFull;
  if negb pw && full then
    processInvRequestInMSHR bAddr event false;;
    ret STALL
  else
    ex <- mshr_exists bAddr;
    collisionEvent <- (if ex then mshr_lookupFront bAddr else ret None);
    pw <- mshr_pendingWriteback bAddr;
    if pw then
      mshr_removeWriteback bAddr;;
      ret DONE
    else
      let collision :=
        match collisionEvent with
        | Some c => isPut (ev_cmd c)
        | None => false
        end in
      action <-
        match ev_cmd event with
        | Command.Inv => handleInv event dirLine replay collisionEvent
        | Command.Fetch =>
            handleFetch event dirLine replay (if collision then collisionEvent else None)
        | Command.FetchInv => handleFetchInv event dirLine replay collisionEvent
        | Command.FetchInvX => handleFetchInvX event dirLine replay collisionEvent
        | Command.ForceInv => handleForceInv event dirLine replay collisionEvent
        | _ => fatal
        end;
      (if CacheAction_eqb action STALL then processInvRequestInMSHR bAddr event false
       else if CacheAction_eqb action BLOCK then processInvRequestInMSHR bAddr event true
       else ret tt);;
      ret action.
End Routing.

(** ** Handlers of invalidations

    The five handlers that [handleInvalidationRequest] dispatches to. Each
    one dereferences the line it is given without a test. The statistics
    ([recordStateEventCount], the prefetch counters) are not part of the
    state. *)

(** Modelled from the spec: [MemEvent::isWriteback] is declared outside
    this file; the writebacks are the replacements [PutS], [PutE] and
    [PutM] (section 4.1, handle_replacement). *)
Definition isWriteback (e : MemEvent) : bool := isPut (ev_cmd e).

(** [cmd == Command::FlushLine || cmd == Command::FlushLineInv] *)
Definition isFlush (c : Command) : bool :=
  Command.eqb c Command.FlushLine || Command.eqb c Command.FlushLineInv.

(** Subtraction on [uint64_t]. *)
Definition u64_sub (a b : Z) : Z := ((a - b) mod u64_modulus)%Z.

Section Invalidations.
Variable cfg : Config.

(** The [while] loop of the cases [S] and [S_B] of [handleInv]: a PutS
    that waits in the queue stands for the acknowledgement of its sender.
    The loop is given the number of turns it may take; [handleInv] gives
    it one more than the length of the queue, and every turn after the
    first takes an element out of the queue. *)
Fixpoint handleInv_collisions (fuel : nat) (bAddr : Addr)
    (collisionEvent : option MemEvent) : M LineState unit :=
  match fuel, collisionEvent with
  | Datatypes.S fuel', Some c =>
      if Command.eqb (ev_cmd c) Command.PutS then
        removeSharer (ev_src c);;
        mshr_decrementAcksNeeded bAddr;;
        mshr_removeElement bAddr c;;
        hit <- mshr_isHit bAddr;
        front <- (if hit then mshr_lookupFront bAddr else ret None);
        handleInv_collisions fuel' bAddr
          (match front with
           | Some c' => if negb (Command.eqb (ev_cmd c') Command.PutS) then None else Some c'
           | None => None
           end)
      else ret tt
  | _, _ => ret tt
  end.

(** The same loop in the case [SM], where the head of the queue is
    removed. *)
Fixpoint handleInv_collisionsSM (fuel : nat) (bAddr : Addr)
    (collisionEvent : option MemEvent) : M LineState unit :=
  match fuel, collisionEvent with
  | Datatypes.S fuel', Some c =>
      if Command.eqb (ev_cmd c) Command.PutS then
        removeSharer (ev_src c);;
        mshr_decrementAcksNeeded bAddr;;
        mshr_removeFront bAddr;;
        hit <- mshr_isHit bAddr;
        front <- (if hit then mshr_lookupFront bAddr else ret None);
        handleInv_collisionsSM fuel' bAddr
          (match front with
           | Some c' => if negb (Command.eqb (ev_cmd c') Command.PutS) then None else Some c'
           | None => None
           end)
      else ret tt
  | _, _ => ret tt
  end.

(** [handleInv(event, dirLine, replay, collisionEvent)] *)
Definition handleInv (event : MemEvent) (replay : bool) (collisionEvent : option MemEvent)
    : M LineState CacheAction :=
  let bAddr := ev_baseAddr event in
  state <- getState;
  pf <- getPrefetch;
  when pf (setPrefetch false);;
  match state with
  | State.I_B => ret DONE
  | State.S_B | State.S =>
      n <- numSharers;
      stall <-
        (if (0 <? n)%nat then
           invalidateAllSharers cfg (ev_rqstr event) replay;;
           (if State.eqb state State.S_B then setState State.SB_Inv
            else setState State.S_Inv);;
           len <- mshr_queueLength bAddr;
           handleInv_collisions (Datatypes.S len) bAddr collisionEvent;;
           acks <- mshr_getAcksNeeded bAddr;
           ret (0 <? acks)%nat
         else ret false);
      if stall then ret STALL
      else
        sendAckInv cfg event;;
        (if State.eqb state State.S_B then setState State.I_B else setState State.I);;
        ret DONE
  | State.SM =>
      n <- numSharers;
      stall <-
        (if (0 <? n)%nat then
           invalidateAllSharers cfg (ev_rqstr event) replay;;
           setState State.SM_Inv;;
           len <- mshr_queueLength bAddr;
           handleInv_collisionsSM (Datatypes.S len) bAddr collisionEvent;;
           acks <- mshr_getAcksNeeded bAddr;
           ret (0 <? acks)%nat
         else ret false);
      if stall then ret STALL
      else
        sendAckInv cfg event;;
        setState State.IM;;
        ret DONE
  | State.SI | State.S_Inv | State.S_D => ret BLOCK
  | State.SM_Inv => ret STALL
  | _ => fatal
  end.

(** The [while] loop of [handleForceInv]: the replacements that wait at
    the head of the queue are taken as done and acknowledged. The result
    is the colliding event the loop ends with. The head is removed from
    the queue of the line and read from the queue of the event. *)
Fixpoint handleForceInv_collisions (fuel : nat) (bAddr : Addr)
    (collisionEvent : option MemEvent) : M LineState (option MemEvent) :=
  match fuel, collisionEvent with
  | Datatypes.S fuel', Some c =>
      if isWriteback c then
        isS <- isSharer (ev_src c);
        when isS (removeSharer (ev_src c));;
        oe <- ownerExists;
        when oe clearOwner;;
        sendWritebackAck cfg c;;
        base <- getBaseAddr;
        mshr_removeFront base;;
        hit <- mshr_isHit bAddr;
        front <- (if hit then mshr_lookupFront bAddr else ret None);
        handleForceInv_collisions fuel' bAddr front
      else ret collisionEvent
  | _, _ => ret collisionEvent
  end.

(** [handleForceInv(event, dirLine, replay, collisionEvent)] *)
Definition handleForceInv (event : MemEvent) (replay : bool)
    (collisionEvent : option MemEvent) : M LineState CacheAction :=
  let bAddr := ev_baseAddr event in
  state <- getState;
  pf <- getPrefetch;
  when pf (setPrefetch false);;
  len <- mshr_queueLength bAddr;
  collisionEvent <- handleForceInv_collisions (Datatypes.S len) bAddr collisionEvent;
  match state with
  | State.I | State.IS | State.IM | State.I_B => ret IGNORE
  | State.S | State.S_B | State.SM =>
      n <- numSharers;
      stall <-
        (if (0 <? n)%nat then
           invalidateAllSharers cfg (ev_rqstr event) replay;;
           (if State.eqb state State.S then setState State.S_Inv
            else if State.eqb state State.S_B then setState State.SB_Inv
            else setState State.SM_Inv);;
           acks <- mshr_getAcksNeeded bAddr;
           ret (0 <? acks)%nat
         else ret false);
      if stall then ret STALL
      else
        sendAckInv cfg event;;
        (if State.eqb state State.S then setState State.I
         else if State.eqb state State.S_B then setState State.I_B
         else setState State.IM);;
        ret DONE
  | State.E | State.M =>
      oe <- ownerExists;
      if oe then
        sendForceInv cfg (ev_rqstr event) replay;;
        mshr_incrementAcksNeeded bAddr;;
        (if State.eqb state State.E then setState State.E_Inv else setState State.M_Inv);;
        ret STALL
      else
        n <- numSharers;
        if (0 <? n)%nat then
          invalidateAllSharers cfg (ev_rqstr event) replay;;
          (if State.eqb state State.E then setState State.E_Inv else setState State.M_Inv);;
          ret STALL
        else
          sendAckInv cfg event;;
          setState State.I;;
          ret DONE
  | State.SI => setState State.S_Inv;; ret STALL
  | State.EI => setState State.E_Inv;; ret STALL
  | State.MI => setState State.M_Inv;; ret STALL
  | State.S_D | State.E_D | State.M_D | State.SM_D | State.E_InvX | State.M_InvX
  | State.M_Inv | State.S_Inv | State.E_Inv | State.SM_Inv | State.SB_Inv =>
      c <- deref NullEvent collisionEvent;
      if isFlush (ev_cmd c) then ret STALL else ret BLOCK
  | _ => fatal
  end.

(** [handleFetch(event, dirLine, replay, collisionEvent)] *)
Definition handleFetch (event : MemEvent) (replay : bool) (collisionEvent : option MemEvent)
    : M LineState CacheAction :=
  state <- getState;
  match state with
  | State.I | State.IS | State.IM => ret IGNORE
  | State.S | State.SM =>
      dl <- getDataLine;
      if notNull dl then
        sendResponseDown cfg event dl false replay;;
        ret DONE
      else
        match collisionEvent with
        | Some c =>
            sendResponseDown cfg event (Some (ev_payload c)) false replay;;
            ret DONE
        | None =>
            sendFetch cfg (ev_rqstr event) replay;;
            mshr_incrementAcksNeeded (ev_baseAddr event);;
            (if State.eqb state State.S then setState State.S_D else setState State.SM_D);;
            ret STALL
        end
  | State.S_Inv | State.SI | State.S_D => ret BLOCK
  | _ => fatal
  end.

(** [handleFetchInv(event, dirLine, replay, collisionEvent)]. A colliding
    replacement is taken as done; the [switch] then runs on [M] whatever
    the state of the line was. *)
Definition handleFetchInv (event : MemEvent) (replay : bool)
    (collisionEvent : option MemEvent) : M LineState CacheAction :=
  let bAddr := ev_baseAddr event in
  state0 <- getState;
  pf <- getPrefetch;
  when pf (setPrefetch false);;
  dl <- getDataLine;
  let isCached := notNull dl in
  let collision :=
    match collisionEvent with
    | Some c => isWriteback c
    | None => false
    end in
  match collisionEvent with
  | Some c =>
      when collision (
        isS <- isSharer (ev_src c);
        when isS (removeSharer (ev_src c));;
        oe <- ownerExists;
        when oe clearOwner;;
        mshr_setDataBuffer (ev_baseAddr c) (ev_payload c);;
        when (State.eqb state0 State.E && ev_dirty c) (setState State.M);;
        sendWritebackAck cfg c;;
        base <- getBaseAddr;
        mshr_removeFront base)
  | None => ret tt
  end;;
  let state := if collision then State.M else state0 in
  (** [collision ? mshr_->getDataBuffer(dirLine->getBaseAddr())
                 : dirLine->getDataLine()->getData()] *)
  let data : M LineState (option (list byte)) :=
    if collision then base <- getBaseAddr; mshr_getDataBuffer base
    else getDataLine in
  let invalidate (next : State) : M LineState CacheAction :=
    (if isCached || collision then invalidateAllSharers cfg (ev_rqstr event) replay
     else invalidateAllSharersAndFetch cfg (ev_rqstr event) replay);;
    setState next;;
    ret STALL in
  match state with
  | State.I | State.IS | State.IM | State.I_B => ret IGNORE
  | State.S =>
      n <- numSharers;
      if (0 <? n)%nat then invalidate State.S_Inv
      else
        dl' <- getDataLine;
        if negb (notNull dl') && negb collision then fatal
        else
          d <- data;
          sendResponseDown cfg event d false replay;;
          setState State.I;;
          ret DONE
  | State.SM =>
      n <- numSharers;
      if (0 <? n)%nat then invalidate State.SM_Inv
      else
        dl' <- getDataLine;
        if negb (notNull dl') then fatal
        else
          d <- data;
          sendResponseDown cfg event d false replay;;
          setState State.IM;;
          ret DONE
  | State.S_B =>
      n <- numSharers;
      if (0 <? n)%nat then
        invalidateAllSharers cfg (ev_rqstr event) replay;;
        setState State.SB_Inv;;
        ret STALL
      else
        sendAckInv cfg event;;
        setState State.I_B;;
        ret DONE
  | State.E =>
      oe <- ownerExists;
      if oe then
        sendFetchInv cfg (ev_rqstr event) replay;;
        mshr_incrementAcksNeeded bAddr;;
        setState State.E_Inv;;
        ret STALL
      else
        n <- numSharers;
        if (0 <? n)%nat then invalidate State.E_Inv
        else
          dl' <- getDataLine;
          if negb (notNull dl') && negb collision then fatal
          else
            d <- data;
            sendResponseDown cfg event d false replay;;
            setState State.I;;
            ret DONE
  | State.M =>
      oe <- ownerExists;
      if oe then
        sendFetchInv cfg (ev_rqstr event) replay;;
        mshr_incrementAcksNeeded bAddr;;
        setState State.M_Inv;;
        ret STALL
      else
        n <- numSharers;
        if (0 <? n)%nat then invalidate State.M_Inv
        else
          dl' <- getDataLine;
          if negb (notNull dl') && negb collision then fatal
          else
            d <- data;
            sendResponseDown cfg event d true replay;;
            setState State.I;;
            ret DONE
  | State.EI => setState State.E_Inv;; ret STALL
  | State.MI => setState State.M_Inv;; ret STALL
  | State.S_D | State.E_D | State.M_D | State.E_Inv | State.E_InvX
  | State.M_Inv | State.M_InvX =>
      c <- deref NullEvent collisionEvent;
      if isFlush (ev_cmd c) then ret STALL else ret BLOCK
  | _ => fatal
  end.

(** [handleFetchInvX(event, dirLine, replay, collisionEvent)]. With a
    colliding replacement the [switch] runs on [M]; the replacement of an
    owner stays in the queue and is turned, there, into a PutS. *)
Definition handleFetchInvX (event : MemEvent) (replay : bool)
    (collisionEvent : option MemEvent) : M LineState CacheAction :=
  let bAddr := ev_baseAddr event in
  state0 <- getState;
  dl <- getDataLine;
  let isCached := notNull dl in
  let collision :=
    match collisionEvent with
    | Some c => isWriteback c
    | None => false
    end in
  match collisionEvent with
  | Some c => when (collision && State.eqb state0 State.E && ev_dirty c) (setState State.M)
  | None => ret tt
  end;;
  let state := if collision then State.M else state0 in
  let collided (dirty : MemEvent → bool) : M LineState CacheAction :=
    c <- deref NullEvent collisionEvent;
    oe <- ownerExists;
    when oe (
      clearOwner;;
      addSharer (ev_src c);;
      mshr_modifyElement bAddr c (ev_setCmd Command.PutS));;
    setState State.S;;
    sendResponseDown cfg event (Some (ev_payload c)) (dirty c) replay;;
    ret DONE in
  let downgrade (next : State) (dirty : bool) : M LineState CacheAction :=
    oe <- ownerExists;
    if oe then
      sendFetchInvX cfg (ev_rqstr event) replay;;
      mshr_incrementAcksNeeded bAddr;;
      setState next;;
      ret STALL
    else if isCached then
      dl' <- getDataLine;
      sendResponseDown cfg event dl' dirty replay;;
      setState State.S;;
      ret DONE
    else
      sendFetch cfg (ev_rqstr event) replay;;
      mshr_incrementAcksNeeded bAddr;;
      setState next;;
      ret STALL in
  match state with
  | State.I | State.IS | State.IM | State.I_B | State.S_B => ret IGNORE
  | State.E =>
      if collision then collided ev_dirty
      else downgrade State.E_InvX false
  | State.M =>
      if collision then collided (λ _, true)
      else downgrade State.M_InvX true
  | State.E_D | State.M_D | State.EI | State.MI | State.E_Inv | State.E_InvX
  | State.M_Inv | State.M_InvX =>
      c <- deref NullEvent collisionEvent;
      if isFlush (ev_cmd c) then ret STALL else ret BLOCK
  | _ => fatal
  end.
End Invalidations.

(** ** Flushes and fetch responses

    [NextState] is a table of the coherence types, declared outside this
    file: the handlers below are given it as a parameter. The listeners
    ([notifyListenerOfAccess]), the latency records and the [inProgress]
    mark of the event in hand are not part of the state. *)
Section Flushes.
Variable cfg : Config.
Variable NextState : State → State.

(** [forwardFlushLine(origFlush, dirLine, dirty, cmd)] with a line. *)
Definition forwardFlushLine (origFlush : MemEvent) (dirty : bool) (cmd : Command)
    : M LineState unit :=
  let base := ev_baseAddr origFlush in
  let f0 := ev_setSize (lineSize_ cfg) (ev_setRqstr (ev_rqstr origFlush)
              (ev_setDst (getDestination cfg base)
                 (newMemEvent (ownerName_ cfg) base base cmd))) in
  let f1 := if dirty then ev_setDirty true f0 else f0 in
  dl <- getDataLine;
  hit <- mshr_isHit base;
  payload <-
    match dl with
    | Some d => ret (Some d)
    | None =>
        if hit then
          buf <- mshr_getDataBuffer base;
          d <- deref NullData buf;
          ret (Some d)
        else if negb (ev_getPayloadSize origFlush =? 0)%Z
        then ret (Some (ev_payload origFlush))
        else ret None
    end;
  let flush := match payload with Some d => ev_setPayload d f1 | None => f1 end in
  ts <- now;
  lts <- getTimestamp;
  let baseTime := if (ts <? lts)%Z then lts else ts in
  let deliveryTime := u64_add baseTime (tagLatency_ cfg) in
  addToOutgoingQueue (mkResponse flush deliveryTime
    (packetHeaderBytes cfg + ev_getPayloadSize flush));;
  setTimestamp (u64_sub deliveryTime 1).

(** [forwardFlushLine(origFlush, NULL, dirty, cmd)] *)
Definition forwardFlushLine_null {St : Type} `{HasShared St} (origFlush : MemEvent)
    (dirty : bool) (cmd : Command) : M St unit :=
  let base := ev_baseAddr origFlush in
  let f0 := ev_setSize (lineSize_ cfg) (ev_setRqstr (ev_rqstr origFlush)
              (ev_setDst (getDestination cfg base)
                 (newMemEvent (ownerName_ cfg) base base cmd))) in
  let flush := if dirty then ev_setDirty true f0 else f0 in
  ts <- now;
  let deliveryTime := u64_add ts (tagLatency_ cfg) in
  addToOutgoingQueue (mkResponse flush deliveryTime
    (packetHeaderBytes cfg + ev_getPayloadSize flush)).

(** The payload of a flush is kept, in the line or in the MSHR. *)
Definition saveFlushPayload (event : MemEvent) (isCached : bool) : M LineState unit :=
  when (negb (ev_getPayloadSize event =? 0)%Z) (
    if isCached then setData (ev_payload event)
    else
      hit <- mshr_isHit (ev_baseAddr event);
      when hit (mshr_setDataBuffer (ev_baseAddr event) (ev_payload event))).

(** [handleFlushLineRequest(event, dirLine, reqEvent, replay)] with a
    line. [self] stands for the call of the function on the request that
    waited, [handleFlushLineRequest(reqEvent, dirLine, NULL, true)]. *)
Definition handleFlushLineRequest_body (self : MemEvent → M LineState CacheAction)
    (event : MemEvent) (reqEvent : option MemEvent) (replay : bool)
    : M LineState CacheAction :=
  let bAddr := ev_baseAddr event in
  state <- getState;
  dl <- getDataLine;
  let isCached := notNull dl in
  saveFlushPayload event isCached;;
  let forward : M LineState CacheAction :=
    st <- getState;
    forwardFlushLine event (State.eqb st State.M) Command.FlushLine;;
    st <- getState;
    (if negb (State.eqb st State.I) then setState State.S_B else setState State.I_B);;
    ret STALL in
  let ownerToSharer (more : M LineState unit) : M LineState unit :=
    owner <- getOwner;
    when (bool_decide (owner = ev_src event)) (
      clearOwner;;
      addSharer (ev_src event);;
      more) in
  match state with
  | State.I | State.S | State.I_B | State.S_B =>
      if notNull reqEvent then ret STALL else forward
  | State.E | State.M =>
      ownerToSharer (when (ev_dirty event) (setState State.M));;
      oe <- ownerExists;
      if oe then
        sendFetchInvX cfg (ev_rqstr event) replay;;
        mshr_incrementAcksNeeded bAddr;;
        (if State.eqb state State.E then setState State.E_InvX else setState State.M_InvX);;
        ret STALL
      else forward
  | State.IM | State.IS | State.SM => ret STALL
  | State.SM_D | State.S_D | State.E_D | State.M_D => ret STALL
  | State.S_Inv | State.SI => ret STALL
  | State.SM_Inv => ret STALL
  | State.MI | State.EI | State.M_Inv | State.E_Inv =>
      ownerToSharer (ret tt);;
      when (ev_dirty event) (
        if State.eqb state State.EI then setState State.MI
        else if State.eqb state State.E_Inv then setState State.M_Inv
        else ret tt);;
      ret STALL
  | State.M_InvX | State.E_InvX =>
      owner <- getOwner;
      let ownerFlush := bool_decide (owner = ev_src event) in
      when ownerFlush (
        clearOwner;;
        addSharer (ev_src event);;
        mshr_decrementAcksNeeded bAddr;;
        when (ev_dirty event) (setState State.M_InvX));;
      let state := if ownerFlush && ev_dirty event then State.M_InvX else state in
      acks <- mshr_getAcksNeeded bAddr;
      if (acks =? 0)%nat then
        req <- deref NullEvent reqEvent;
        if Command.eqb (ev_cmd req) Command.FetchInvX then
          sendResponseDownFromMSHR cfg event (State.eqb state State.M_InvX);;
          setState State.S;;
          ret DONE
        else if Command.eqb (ev_cmd req) Command.FlushLine then
          setState (NextState state);;
          self req
        else if Command.eqb (ev_cmd req) Command.FetchInv then
          setState (NextState state);;
          handleFetchInv cfg req true None
        else
          addSharer (ev_src req);;
          dl' <- getDataLine;
          data <- (if isCached then ret dl' else mshr_getDataBuffer bAddr);
          lts <- getTimestamp;
          sendTime <- sendResponseUp cfg req data true lts;
          setTimestamp sendTime;;
          setState (NextState state);;
          ret DONE
      else ret STALL
  | _ => fatal
  end.

(** [handleFlushLineRequest(event, dirLine, reqEvent, replay)] with a
    line. The function calls itself with no waiting request, and a call
    with no waiting request does not call the function again: it stops
    where the command of the waiting request is read. *)
Definition handleFlushLineRequest (event : MemEvent) (reqEvent : option MemEvent)
    (replay : bool) : M LineState CacheAction :=
  handleFlushLineRequest_body
    (λ req, handleFlushLineRequest_body (λ _, abort NullEvent) req None true)
    event reqEvent replay.

(** [handleFlushLineRequest(event, NULL, reqEvent, replay)] *)
Definition handleFlushLineRequest_null {St : Type} `{HasShared St} (event : MemEvent)
    (reqEvent : option MemEvent) (replay : bool) : M St CacheAction :=
  when (negb (ev_getPayloadSize event =? 0)%Z) (
    hit <- mshr_isHit (ev_baseAddr event);
    when hit (mshr_setDataBuffer (ev_baseAddr event) (ev_payload event)));;
  if notNull reqEvent then ret STALL
  else
    forwardFlushLine_null event false Command.FlushLine;;
    ret STALL.

(** [handleFlushLineInvRequest(event, dirLine, reqEvent, replay)] with a
    line. In the [switch], the case [M_Inv] falls through to [E_Inv], and
    [E_Inv] to [M_InvX] and [E_InvX], when the last acknowledgement is in
    and the waiting request is none of those the case handles. *)
Definition handleFlushLineInvRequest (event : MemEvent) (reqEvent : option MemEvent)
    (replay : bool) : M LineState CacheAction :=
  let bAddr := ev_baseAddr event in
  let payload := Some (ev_payload event) in
  state0 <- getState;
  dl <- getDataLine;
  let isCached := notNull dl in
  saveFlushPayload event isCached;;
  owner <- getOwner;
  let ownerFlush := (State.eqb state0 State.M || State.eqb state0 State.E)
                    && bool_decide (owner = ev_src event) in
  when ownerFlush (
    clearOwner;;
    when (ev_dirty event) (setState State.M));;
  let state := if ownerFlush && ev_dirty event then State.M else state0 in
  let forward : M LineState CacheAction :=
    st <- getState;
    forwardFlushLine event (State.eqb st State.M) Command.FlushLineInv;;
    setState State.I_B;;
    ret STALL in
  let clearPrefetch : M LineState unit :=
    pf <- getPrefetch;
    when pf (setPrefetch false) in
  let dropSharer : M LineState unit :=
    isS <- isSharer (ev_src event);
    when isS (removeSharer (ev_src event)) in
  (** the sharer, or else the owner, that flushes stands for an
      acknowledgement *)
  let sharerOrOwnerAcks : M LineState unit :=
    isS <- isSharer (ev_src event);
    if isS then
      removeSharer (ev_src event);;
      mshr_decrementAcksNeeded bAddr
    else
      owner <- getOwner;
      when (bool_decide (owner = ev_src event)) (
        clearOwner;;
        mshr_decrementAcksNeeded bAddr) in
  let ownerOrSharerAcks : M LineState unit :=
    owner <- getOwner;
    if bool_decide (owner = ev_src event) then
      clearOwner;;
      mshr_decrementAcksNeeded bAddr
    else
      isS <- isSharer (ev_src event);
      when isS (
        removeSharer (ev_src event);;
        mshr_decrementAcksNeeded bAddr) in
  let sharerAcks : M LineState unit :=
    isS <- isSharer (ev_src event);
    when isS (
      removeSharer (ev_src event);;
      mshr_decrementAcksNeeded bAddr) in
  let firstSharerAcks : M LineState unit :=
    first <- firstSharer;
    when (bool_decide (first = ev_src event)) (mshr_decrementAcksNeeded bAddr) in
  let dirtyX := State.eqb state State.M_InvX || ev_dirty event in
  let caseInvX : M LineState CacheAction :=
    clearPrefetch;;
    owner <- getOwner;
    when (bool_decide (owner = ev_src event)) (
      mshr_decrementAcksNeeded bAddr;;
      clearOwner);;
    acks <- mshr_getAcksNeeded bAddr;
    if (acks =? 0)%nat then
      req <- deref NullEvent reqEvent;
      (if Command.eqb (ev_cmd req) Command.FetchInvX then
         if negb isCached then
           sendWritebackFromMSHR cfg
             (if ev_dirty event || State.eqb state State.M_InvX
              then Command.PutM else Command.PutE)
             (ev_rqstr event) payload;;
           setState State.I;;
           when (expectWritebackAck_ cfg) (mshr_insertWriteback bAddr)
         else
           sendResponseDownFromMSHR cfg event dirtyX;;
           setState State.S
       else
         lts <- getTimestamp;
         sendTime <- (if protocol_ cfg
                      then sendResponseUpCmd cfg req Command.GetXResp payload true lts
                      else sendResponseUp cfg req payload true lts);
         setTimestamp sendTime;;
         addSharer (ev_src req));;
      (if dirtyX then setState State.M else setState State.E);;
      ret DONE
    else ret STALL in
  let caseE_Inv : M LineState CacheAction :=
    sharerOrOwnerAcks;;
    acks <- mshr_getAcksNeeded bAddr;
    if (acks =? 0)%nat then
      req <- deref NullEvent reqEvent;
      if Command.eqb (ev_cmd req) Command.FetchInv then
        sendResponseDown cfg req payload (ev_dirty event) true;;
        setState State.I;;
        ret DONE
      else if Command.eqb (ev_cmd req) Command.FlushLineInv then
        forwardFlushLine req (ev_dirty req) Command.FlushLineInv;;
        setState State.I_B;;
        ret STALL
      else caseInvX
    else ret STALL in
  let caseM_Inv : M LineState CacheAction :=
    sharerOrOwnerAcks;;
    acks <- mshr_getAcksNeeded bAddr;
    if (acks =? 0)%nat then
      req <- deref NullEvent reqEvent;
      if Command.eqb (ev_cmd req) Command.FetchInv then
        sendResponseDown cfg req payload true true;;
        setState State.I;;
        ret DONE
      else if Command.eqb (ev_cmd req) Command.GetX
              || Command.eqb (ev_cmd req) Command.GetSX then
        setOwner (ev_src req);;
        isS <- isSharer (ev_src req);
        when isS (removeSharer (ev_src req));;
        dl' <- getDataLine;
        data <- (if isCached then ret dl' else mshr_getDataBuffer bAddr);
        lts <- getTimestamp;
        sendTime <- sendResponseUp cfg req data true lts;
        setTimestamp sendTime;;
        setState State.M;;
        ret DONE
      else if Command.eqb (ev_cmd req) Command.FlushLineInv then
        forwardFlushLine req true Command.FlushLineInv;;
        setState State.I_B;;
        ret STALL
      else caseE_Inv
    else ret STALL in
  match state with
  | State.I =>
      if notNull reqEvent then ret STALL else forward
  | State.S =>
      clearPrefetch;;
      dropSharer;;
      n <- numSharers;
      if (0 <? n)%nat then
        invalidateAllSharers cfg (ev_rqstr event) replay;;
        setState State.S_Inv;;
        ret STALL
      else forward
  | State.E | State.M =>
      clearPrefetch;;
      dropSharer;;
      oe <- ownerExists;
      if oe then
        sendFetchInv cfg (ev_rqstr event) replay;;
        mshr_incrementAcksNeeded bAddr;;
        (if State.eqb state State.E then setState State.E_Inv else setState State.M_Inv);;
        ret STALL
      else
        n <- numSharers;
        if (0 <? n)%nat then
          invalidateAllSharers cfg (ev_rqstr event) replay;;
          (if State.eqb state State.E then setState State.E_Inv else setState State.M_Inv);;
          ret STALL
        else forward
  | State.IM | State.IS | State.SM => ret STALL
  | State.SM_D =>
      firstSharerAcks;;
      acks <- mshr_getAcksNeeded bAddr;
      if (acks =? 0)%nat then
        req <- deref NullEvent reqEvent;
        if Command.eqb (ev_cmd req) Command.Fetch then
          setState State.SM;;
          sendResponseDownFromMSHR cfg event false;;
          ret DONE
        else ret STALL
      else ret STALL
  | State.S_D | State.E_D | State.M_D =>
      firstSharerAcks;;
      dropSharer;;
      acks <- mshr_getAcksNeeded bAddr;
      if (acks =? 0)%nat then
        setState (NextState state);;
        req <- deref NullEvent reqEvent;
        (if Command.eqb (ev_cmd req) Command.Fetch then
           dl' <- getDataLine;
           n <- numSharers;
           if negb (notNull dl') && (n =? 0)%nat then
             (if State.eqb state State.M_D || ev_dirty event
              then sendWritebackFromMSHR cfg Command.PutM (ev_rqstr req) payload
              else if State.eqb state State.E_D
              then sendWritebackFromMSHR cfg Command.PutE (ev_rqstr req) payload
              else if State.eqb state State.S_D
              then sendWritebackFromMSHR cfg Command.PutS (ev_rqstr req) payload
              else ret tt);;
             setState State.I
           else
             sendResponseDownFromMSHR cfg event
               (State.eqb state State.M_D || ev_dirty event)
         else if Command.eqb (ev_cmd req) Command.GetS then
           n <- numSharers;
           if (0 <? n)%nat || State.eqb state State.S_D then
             addSharer (ev_src req);;
             lts <- getTimestamp;
             sendTime <- sendResponseUp cfg req payload true lts;
             setTimestamp sendTime
           else
             setOwner (ev_src req);;
             lts <- getTimestamp;
             sendTime <- sendResponseUpCmd cfg req Command.GetXResp payload true lts;
             setTimestamp sendTime
         else fatal);;
        ret DONE
      else ret STALL
  | State.S_Inv =>
      sharerAcks;;
      acks <- mshr_getAcksNeeded bAddr;
      if (acks =? 0)%nat then
        req <- deref NullEvent reqEvent;
        if Command.eqb (ev_cmd req) Command.Inv then
          sendAckInv cfg req;;
          setState State.I;;
          ret DONE
        else if Command.eqb (ev_cmd req) Command.Fetch
                || Command.eqb (ev_cmd req) Command.FetchInv
                || Command.eqb (ev_cmd req) Command.FetchInvX then
          sendResponseDownFromMSHR cfg event false;;
          setState State.I;;
          ret DONE
        else if Command.eqb (ev_cmd req) Command.FlushLineInv then
          forwardFlushLine req false Command.FlushLineInv;;
          setState State.I_B;;
          ret STALL
        else ret DONE
      else ret STALL
  | State.SM_Inv =>
      sharerAcks;;
      acks <- mshr_getAcksNeeded bAddr;
      if (acks =? 0)%nat then
        req <- deref NullEvent reqEvent;
        if Command.eqb (ev_cmd req) Command.Inv then
          n <- numSharers;
          if (0 <? n)%nat then
            invalidateAllSharers cfg (ev_rqstr req) true;;
            ret STALL
          else
            sendAckInv cfg req;;
            setState State.IM;;
            ret DONE
        else if Command.eqb (ev_cmd req) Command.GetXResp then
          setState State.SM;;
          ret STALL
        else fatal
      else ret STALL
  | State.MI =>
      ownerOrSharerAcks;;
      acks <- mshr_getAcksNeeded bAddr;
      if (acks =? 0)%nat then
        (if isCached then sendWritebackFromCache cfg Command.PutM (ownerName_ cfg)
         else
           buf <- mshr_getDataBuffer bAddr;
           sendWritebackFromMSHR cfg Command.PutM (ownerName_ cfg) buf);;
        base <- getBaseAddr;
        when (expectWritebackAck_ cfg) (mshr_insertWriteback base);;
        setState (NextState state);;
        ret DONE
      else ret STALL
  | State.EI =>
      ownerOrSharerAcks;;
      when (ev_dirty event) (setState State.MI);;
      acks <- mshr_getAcksNeeded bAddr;
      if (acks =? 0)%nat then
        (if isCached && ev_dirty event
         then sendWritebackFromCache cfg Command.PutM (ownerName_ cfg)
         else if isCached
         then sendWritebackFromCache cfg Command.PutE (ownerName_ cfg)
         else
           buf <- mshr_getDataBuffer bAddr;
           if ev_dirty event
           then sendWritebackFromMSHR cfg Command.PutM (ownerName_ cfg) buf
           else sendWritebackFromMSHR cfg Command.PutE (ownerName_ cfg) buf);;
        base <- getBaseAddr;
        when (expectWritebackAck_ cfg) (mshr_insertWriteback base);;
        setState (NextState state);;
        ret DONE
      else ret STALL
  | State.SI =>
      sharerAcks;;
      acks <- mshr_getAcksNeeded bAddr;
      if (acks =? 0)%nat then
        (if isCached then sendWritebackFromCache cfg Command.PutS (ownerName_ cfg)
         else
           buf <- mshr_getDataBuffer bAddr;
           sendWritebackFromMSHR cfg Command.PutS (ownerName_ cfg) buf);;
        base <- getBaseAddr;
        when (expectWritebackAck_ cfg) (mshr_insertWriteback base);;
        setState State.I;;
        ret DONE
      else ret STALL
  | State.M_Inv => caseM_Inv
  | State.E_Inv => caseE_Inv
  | State.M_InvX | State.E_InvX => caseInvX
  | _ => fatal
  end.

(** [handleFlushLineInvRequest(event, NULL, reqEvent, replay)] *)
Definition handleFlushLineInvRequest_null {St : Type} `{HasShared St} (event : MemEvent)
    (reqEvent : option MemEvent) (replay : bool) : M St CacheAction :=
  when (negb (ev_getPayloadSize event =? 0)%Z) (
    hit <- mshr_isHit (ev_baseAddr event);
    when hit (mshr_setDataBuffer (ev_baseAddr event) (ev_payload event)));;
  if notNull reqEvent then ret STALL
  else
    forwardFlushLine_null event false Command.FlushLineInv;;
    ret STALL.

(** [handleFlush(event, dirLine, reqEvent, replay)] with a line. *)
Definition handleFlush (event : MemEvent) (reqEvent : option MemEvent) (replay : bool)
    : M LineState CacheAction :=
  match ev_cmd event with
  | Command.FlushLineInv => handleFlushLineInvRequest event reqEvent replay
  | Command.FlushLine => handleFlushLineRequest event reqEvent replay
  | _ => fatal
  end.

(** [handleFetchResp(responseEvent, dirLine, reqEvent)]. In the [switch]
    the cases [S_D], [SM_D], [E_D] and [M_D] share one body, and [EI]
    falls through to [MI]. *)
Definition handleFetchResp (responseEvent : MemEvent) (reqEvent : option MemEvent)
    : M LineState CacheAction :=
  let bAddr := ev_baseAddr responseEvent in
  let payload := Some (ev_payload responseEvent) in
  state <- getState;
  n <- mshr_getAcksNeeded bAddr;
  when (0 <? n)%nat (mshr_decrementAcksNeeded bAddr);;
  n <- mshr_getAcksNeeded bAddr;
  let action := if (n =? 0)%nat then DONE else IGNORE in
  let done := CacheAction_eqb action DONE in
  dl <- getDataLine;
  let isCached := notNull dl in
  when isCached (setData (ev_payload responseEvent));;
  let dirtyX := State.eqb state State.M_InvX || ev_dirty responseEvent in
  let dirtyInv := State.eqb state State.M_Inv || ev_dirty responseEvent in
  let dropOwner : M LineState unit :=
    owner <- getOwner;
    when (bool_decide (owner = ev_src responseEvent)) clearOwner in
  let dropSharer : M LineState unit :=
    isS <- isSharer (ev_src responseEvent);
    when isS (removeSharer (ev_src responseEvent)) in
  let caseMI : M LineState CacheAction :=
    dropOwner;;
    dropSharer;;
    when done (
      st <- getState;
      sendWritebackFromMSHR cfg
        (if State.eqb st State.EI then Command.PutE else Command.PutM)
        (ownerName_ cfg) payload;;
      base <- getBaseAddr;
      when (expectWritebackAck_ cfg) (mshr_insertWriteback base);;
      setState State.I);;
    ret action in
  match state with
  | State.S_D | State.SM_D | State.E_D | State.M_D =>
      (if State.eqb state State.S_D then setState State.S
       else if State.eqb state State.SM_D then setState State.SM
       else if State.eqb state State.E_D then setState State.E
       else setState State.M);;
      req <- deref NullEvent reqEvent;
      (if Command.eqb (ev_cmd req) Command.Fetch then
         sendResponseDownFromMSHR cfg responseEvent (State.eqb state State.M)
       else if Command.eqb (ev_cmd req) Command.GetS then
         addSharer (ev_src req);;
         lts <- getTimestamp;
         sendTime <- sendResponseUp cfg req payload true lts;
         setTimestamp sendTime
       else fatal);;
      ret action
  | State.SI =>
      removeSharer (ev_src responseEvent);;
      mshr_setDataBuffer bAddr (ev_payload responseEvent);;
      when done (
        req <- deref NullEvent reqEvent;
        sendWritebackFromMSHR cfg Command.PutS (ev_rqstr req) payload;;
        base <- getBaseAddr;
        when (expectWritebackAck_ cfg) (mshr_insertWriteback base);;
        setState State.I);;
      ret action
  | State.EI =>
      when (ev_dirty responseEvent) (setState State.MI);;
      caseMI
  | State.MI => caseMI
  | State.E_InvX | State.M_InvX =>
      owner <- getOwner;
      when (bool_decide (owner = ev_src responseEvent)) (
        clearOwner;;
        addSharer (ev_src responseEvent));;
      when (negb isCached) (mshr_setDataBuffer bAddr (ev_payload responseEvent));;
      req <- deref NullEvent reqEvent;
      if Command.eqb (ev_cmd req) Command.FetchInvX then
        sendResponseDownFromMSHR cfg responseEvent dirtyX;;
        setState State.S;;
        ret action
      else if Command.eqb (ev_cmd req) Command.FetchInv then
        n <- numSharers;
        if (0 <? n)%nat then
          invalidateAllSharers cfg (ev_rqstr req) true;;
          (if dirtyX then setState State.M_Inv else setState State.E_Inv);;
          ret STALL
        else
          (if dirtyX then setState State.M else setState State.E);;
          sendResponseDownFromMSHR cfg responseEvent dirtyX;;
          ret action
      else if Command.eqb (ev_cmd req) Command.FlushLine then
        (if dirtyX then setState State.M else setState State.E);;
        handleFlushLineRequest req None true
      else
        addSharer (ev_src req);;
        lts <- getTimestamp;
        sendTime <- sendResponseUp cfg req payload true lts;
        setTimestamp sendTime;;
        (if ev_dirty responseEvent || State.eqb state State.M_InvX
         then setState State.M else setState State.E);;
        ret action
  | State.E_Inv | State.M_Inv =>
      dropSharer;;
      dropOwner;;
      if negb done then
        when (ev_dirty responseEvent) (setState State.M_Inv);;
        mshr_setDataBuffer bAddr (ev_payload responseEvent);;
        ret action
      else
        req <- deref NullEvent reqEvent;
        if Command.eqb (ev_cmd req) Command.GetX || Command.eqb (ev_cmd req) Command.GetSX
        then
          isS <- isSharer (ev_src req);
          when isS (removeSharer (ev_src req));;
          setOwner (ev_src req);;
          lts <- getTimestamp;
          sendTime <- sendResponseUp cfg req payload true lts;
          setTimestamp sendTime;;
          setState State.M;;
          ret action
        else if Command.eqb (ev_cmd req) Command.FlushLineInv then
          when (ev_dirty responseEvent) (
            dl' <- getDataLine;
            if notNull dl' then setData (ev_payload responseEvent)
            else mshr_setDataBuffer bAddr (ev_payload responseEvent));;
          (if ev_dirty responseEvent || State.eqb state State.M_Inv
           then setState State.M else setState State.E);;
          handleFlushLineInvRequest req None true
        else
          sendResponseDownFromMSHR cfg responseEvent dirtyInv;;
          setState State.I;;
          ret action
  | State.S_Inv | State.SM_Inv =>
      dropSharer;;
      (if negb done then mshr_setDataBuffer bAddr (ev_payload responseEvent)
       else
         sendResponseDownFromMSHR cfg responseEvent false;;
         (if State.eqb state State.S_Inv then setState State.I else setState State.IM));;
      ret action
  | _ => fatal
  end.
End Flushes.

(** [isCacheHit(event)]: whether the request would hit, for the profile
    of the cache controller.

    Modelled from the spec: [CacheLine::isShareless] is declared with the
    cache array, outside this file; a line is shareless when its set of
    sharers (section 3) is empty. *)
Definition ln_isShareless (l : CacheLine) : bool :=
  match ln_sharers l with [] => true | _ => false end.

Definition isCacheHit (cfg : Config) (event : MemEvent) : M Engine bool :=
  p <- cacheArray_lookup (ev_baseAddr event) false;
  line <- match p with
          | Some p => l <- readLine p; ret (Some l)
          | None => ret None
          end;
  let cmd := if Command.eqb (ev_cmd event) Command.GetSX then Command.GetX
             else ev_cmd event in
  let state := match line with Some l => ln_state l | None => State.I end in
  if State.eqb state State.I then ret false
  else if ev_prefetch event && bool_decide (ev_rqstr event = ownerName_ cfg) then ret true
  else
    let state := if State.eqb state State.S && lastLevel_ cfg then State.M else state in
    match state with
    | State.S => ret (Command.eqb cmd Command.GetS)
    | State.E | State.M =>
        l <- deref NullLine line;
        if ln_ownerExists l then ret false
        else if Command.eqb cmd Command.GetS then ret true
        else if Command.eqb cmd Command.GetX then
          ret (ln_isShareless l
               || (ln_isSharer (ev_src event) l && (ln_numSharers l =? 1)%nat))
        else ret false
    | State.IS | State.IM | State.SM | State.S_Inv | State.E_Inv | State.M_Inv
    | State.SM_Inv | State.E_InvX | State.M_InvX => ret false
    | _ => ret true
    end.

(** ** The routing functions with the handlers of this file *)

(** Run a handler on the line a pointer, taken from the lookup, leads
    to: a null pointer stops it where the handler reads the line. *)
Definition onLine {A} (dirLine : option nat) (m : M LineState A) : M Engine A :=
  p <- deref NullLine dirLine;
  focus p m.

Module MESIInternalDirectory.
Section Closed.
Variable cfg : Config.
Variable NextState : State → State.

Definition handleInvalidationRequest : MemEvent → bool → M Engine CacheAction :=
  handleInvalidationRequest
    (λ e d r c, onLine d (handleInv cfg e r c))
    (λ e d r c, onLine d (handleFetch cfg e r c))
    (λ e d r c, onLine d (handleFetchInv cfg e r c))
    (λ e d r c, onLine d (handleFetchInvX cfg e r c))
    (λ e d r c, onLine d (handleForceInv cfg e r c)).

Definition handleFetchResponse : MemEvent → bool → M Engine CacheAction :=
  handleFetchResponse cfg (λ e d r, onLine d (handleFetchResp cfg NextState e r)).

(** [handleFlush(event, dirLine, reqEvent, replay)], the line being null
    or not. *)
Definition handleFlush (event : MemEvent) (dirLine : option nat)
    (reqEvent : option MemEvent) (replay : bool) : M Engine CacheAction :=
  match dirLine with
  | Some p => focus p (handleFlush cfg NextState event reqEvent replay)
  | None =>
      match ev_cmd event with
      | Command.FlushLineInv => handleFlushLineInvRequest_null cfg event reqEvent replay
      | Command.FlushLine => handleFlushLineRequest_null cfg event reqEvent replay
      | _ => fatal
      end
  end.
End Closed.
End MESIInternalDirectory.

Local Open Scope list_scope.

(** * Observations and scenarios *)

(** The state a computation ends in, whether it returns or stops. *)
Definition final {St A} (o : Outcome St A) : St :=
  match o with
  | Ret _ s => s
  | Abort _ s => s
  end.

(** [keeps f m]: running [m] does not change the observation [f]. *)
Definition keeps {St X A} (f : St → X) (m : M St A) : Prop :=
  ∀ s, f (final (m s)) = f s.

(** [never flt m]: [m] does not stop with the fault [flt]. *)
Definition never {St A} (flt : Fault) (m : M St A) : Prop :=
  ∀ s s', m s ≠ Abort flt s'.

(** [stops m]: [m] never returns. *)
Definition stops {St A} (m : M St A) : Prop := ∀ s, ∃ f s', m s = Abort f s'.

(** The acknowledgements of a writeback in the two outgoing queues. *)
Definition isAckPut (r : Response) : bool := Command.eqb (ev_cmd (resp_event r)) Command.AckPut.

Definition ackPuts (sh : Shared) : list Response :=
  filter (λ r, isAckPut r = true) (outgoingEventQueue_ sh ++ outgoingEventQueueUp_ sh)%list.

(** What the eviction of a line leaves alone once a colliding replacement
    is merged: the sharers and the owner of the line, the data buffer and
    the queue of an address in the MSHR, and the acknowledgements of
    writebacks sent so far. *)
Definition evictionObs (a : Addr) (s : LineState) :=
  (ln_sharers (dirLine s), ln_owner (dirLine s),
   MSHR.dataBuffer (MSHR.entry a (mshr_ (ls_shared s))),
   MSHR.mshrQueue (MSHR.entry a (mshr_ (ls_shared s))),
   ackPuts (ls_shared s)).

(** The messages that ask a child to give a line up. *)
Definition isInvalidation (r : Response) : Prop :=
  ev_cmd (resp_event r) = Command.Inv ∨ ev_cmd (resp_event r) = Command.FetchInv.

(** The states in which [handleEviction] answers [STALL] at once. *)
Definition stallsEviction (st : State) : bool :=
  match st with
  | State.SI | State.S_Inv | State.E_Inv | State.M_Inv | State.SM_Inv
  | State.E_InvX | State.S_B | State.I_B => true
  | _ => false
  end.

(** A replacement waits at the head of the MSHR queue of the address. *)
Definition collidingPut (a : Addr) (m : MSHR.t) : bool :=
  MSHR.isHit a m &&
  match MSHR.lookupFront a m with
  | Some w => isPut (ev_cmd w)
  | None => false
  end.

(** The eviction of a line in transition, as the specification states it:
    [STALL], and nothing changes. *)
Definition eviction_in_transition_claim (cfg : Config) (origRqstr : string)
    (fromDataCache : bool) (s : LineState) : Prop :=
  stable (ln_state (dirLine s)) = false →
  handleEviction cfg origRqstr fromDataCache s = Ret STALL s.

(** The event [e] was sent again between [s] and [s']: one message that
    carries it was added to one of the outgoing queues. *)
Definition resent (e : MemEvent) (s s' : Engine) : Prop :=
  ∃ r, resp_event r = e
       ∧ (outgoingEventQueue_ (en_shared s') = outgoingEventQueue_ (en_shared s) ++ [r]
          ∨ outgoingEventQueueUp_ (en_shared s') = outgoingEventQueueUp_ (en_shared s) ++ [r]).

(** The NACK of a replacement, as the specification states it: the
    message is sent again exactly when a writeback is pending. *)
Definition nack_put_claim (cfg : Config) (ev : NACKEvent) (s : Engine) : Prop :=
  ∃ s', handleNACK cfg ev false s = Ret true s'
        ∧ (MSHR.pendingWriteback (ev_baseAddr (getNACKedEvent ev)) (mshr_ (en_shared s)) = true
           ↔ resent (getNACKedEvent ev) s s').

Module Scenario.
(** A private L2 named "L2" under "memory": tag, access and MSHR
    latencies of 1, 2 and 3 cycles, writebacks acknowledged. *)
Definition config (lastLevel expectAck : bool) : Config :=
  mkConfig "L2" "L2" lastLevel false expectAck false 64%Z 1%Z 2%Z 3%Z 8%Z
    (λ _, "memory") (λ _ _ _, 0%nat).
Definition cfg : Config := config false true.
Definition cfg_noAck : Config := config false false.
Definition cfg_lastLevel : Config := config true true.

Definition event (src dst : string) (a : Addr) (cmd : Command) (payload : list byte)
    : MemEvent :=
  mkMemEvent src dst src a a cmd 64%Z payload false false 0%Z false false.

Definition line (st : State) (sharers : list string) (owner : string)
    (data : option (list byte)) (timestamp : Z) : CacheLine :=
  mkCacheLine 64%Z st sharers owner data timestamp false 64%Z.

Definition mshr (q : list MSHR.mshrType) (acks : nat) (wb : bool) : MSHR.t :=
  MSHR.mk {[ 64%Z := MSHR.mkEntry q acks None wb ]} (length q) 4.

Definition shared (m : MSHR.t) (time : Z) : Shared := mkShared m [] [] time.

Definition putS_C0 : MemEvent := event "C0" "L2" 64%Z Command.PutS [Byte.xcc].
Definition putM_C0 : MemEvent := event "C0" "L2" 64%Z Command.PutM [Byte.xcc].
Definition getS_C0 : MemEvent := event "C0" "L2" 64%Z Command.GetS [].
Definition getX_C0 : MemEvent := event "C0" "L2" 64%Z Command.GetX [].
Definition getS_C2 : MemEvent := event "C2" "L2" 64%Z Command.GetS [].
Definition getSResp : MemEvent := event "memory" "L2" 64%Z Command.GetSResp [Byte.xaa].
Definition inv_parent : MemEvent := event "memory" "L2" 64%Z Command.Inv [].
Definition ackInv_C1 : MemEvent := event "C1" "L2" 64%Z Command.AckInv [].
Definition putS_L2 : MemEvent := event "L2" "memory" 64%Z Command.PutS [].

(** Invalidation handlers that are never reached. *)
Definition unreached : MemEvent → option nat → bool → option MemEvent → M Engine CacheAction :=
  λ _ _ _ _, fatal.
Definition unreachedResp : MemEvent → option nat → option MemEvent → M Engine CacheAction :=
  λ _ _ _, fatal.
End Scenario.

(** ** Observations on the handlers of invalidations, of flushes and of
    the messages sent *)

(** [m], run from [s], sends one message, [latency] after the later of
    the time of the manager and the timestamp of the line, and leaves
    that delivery time as the timestamp of the line. *)
Definition deliversAfter (latency : Z) (m : M LineState unit) (s : LineState) : Prop :=
  ∀ s', m s = Ret tt s' →
    ∃ r,
      ((outgoingEventQueue_ (ls_shared s') = outgoingEventQueue_ (ls_shared s) ++ [r]
        ∧ outgoingEventQueueUp_ (ls_shared s') = outgoingEventQueueUp_ (ls_shared s))
       ∨ (outgoingEventQueueUp_ (ls_shared s') = outgoingEventQueueUp_ (ls_shared s) ++ [r]
          ∧ outgoingEventQueue_ (ls_shared s') = outgoingEventQueue_ (ls_shared s)))
      ∧ resp_deliveryTime r
        = (Z.max (timestamp_ (ls_shared s)) (ln_timestamp (dirLine s)) + latency)%Z
      ∧ (timestamp_ (ls_shared s) ≤ resp_deliveryTime r)%Z
      ∧ (ln_timestamp (dirLine s) ≤ resp_deliveryTime r)%Z
      ∧ ln_timestamp (dirLine s') = resp_deliveryTime r.

(** The child [x] still holds the block of the line [l], as the target
    of the invalidation [c]: a sharer for [Inv] and [Fetch], the owner
    for [FetchInvX], either for [FetchInv]. *)
Definition stillHolds (c : Command) (l : CacheLine) (x : string) : Prop :=
  ln_state l ≠ State.I
  ∧ match c with
    | Command.Inv | Command.Fetch => x ∈ ln_sharers l
    | Command.FetchInvX => ln_owner l = x
    | Command.FetchInv => ln_owner l = x ∨ x ∈ ln_sharers l
    | _ => False
    end.

(** The five commands that [handleInvalidationRequest] dispatches. *)
Definition isInvalidationCmd (c : Command) : bool :=
  match c with
  | Command.Inv | Command.Fetch | Command.FetchInv | Command.FetchInvX
  | Command.ForceInv => true
  | _ => false
  end.

(** The head of a queue, when it is a PutS. *)
Definition frontPutS (q : list MSHR.mshrType) : bool :=
  match q with
  | MSHR.mshrEvent e :: _ => Command.eqb (ev_cmd e) Command.PutS
  | _ => false
  end.

(** The transient states in which a recall waits behind the request in
    progress, whichever of ForceInv, FetchInv and FetchInvX it is. *)
Definition recallWaits (st : State) : bool :=
  match st with
  | State.E_D | State.M_D | State.E_Inv | State.E_InvX | State.M_Inv | State.M_InvX => true
  | _ => false
  end.


(** The miss of a read and its data, as the specification states it:
    the line in I goes to IS and the request, forwarded, stalls; the
    GetSResp then makes the requestor the only sharer of the line in S
    and is passed on to it. *)
Definition simple_miss_claim (cfg : Config) (event resp : MemEvent) (s : Engine) : Prop :=
  ∀ p l,
    ev_cmd event = Command.GetS →
    ev_cmd resp = Command.GetSResp →
    ev_baseAddr resp = ev_baseAddr event →
    list_find (λ l, ln_baseAddr l = ev_baseAddr event) (cacheArray_ s) = Some (p, l) →
    ln_state l = State.I →
    ∃ s1 s2 l2 r,
      handleRequest cfg event false s = Ret STALL s1
      ∧ handleCacheResponse cfg resp false s1 = Ret DONE s2
      ∧ cacheArray_ s2 !! p = Some l2
      ∧ ln_state l2 = State.S
      ∧ ln_sharers l2 = [ev_src event]
      ∧ outgoingEventQueueUp_ (en_shared s2) = outgoingEventQueueUp_ (en_shared s) ++ [r]
      ∧ ev_dst (resp_event r) = ev_src event
      ∧ ev_payload (resp_event r) = ev_payload resp.

(** Further inputs of the scenarios: the line at address 64 of the cache
    "L2", its children "C0" and "C1", and "memory" below. *)
Module Cases.
Import Scenario.

(** A table of next states for the scenarios: each transient state of an
    invalidation or of a fetch leads back to the stable state it left. *)
Definition nextState (st : State) : State :=
  match st with
  | State.E_Inv | State.E_InvX | State.E_D | State.EI => State.E
  | State.M_Inv | State.M_InvX | State.M_D | State.MI => State.M
  | State.S_Inv | State.S_D | State.SI => State.S
  | _ => st
  end.

(** A prefetch of the cache "L2" itself. *)
Definition prefetch_L2 : MemEvent :=
  mkMemEvent "L2" "L2" "L2" 64%Z 64%Z Command.GetS 64%Z [] false true 0%Z false false.
Definition getXResp : MemEvent := event "memory" "L2" 64%Z Command.GetXResp [Byte.xaa].
Definition getS_L2 : MemEvent := event "L2" "memory" 64%Z Command.GetS [].
Definition inv_L2_C0 : MemEvent := event "L2" "C0" 64%Z Command.Inv [].
Definition ackPut_parent : MemEvent := event "memory" "L2" 64%Z Command.AckPut [].
Definition fetchResp_C0 : MemEvent := event "C0" "L2" 64%Z Command.FetchResp [Byte.xcc].
Definition fetch_parent : MemEvent := event "memory" "L2" 64%Z Command.Fetch [].
Definition fetchInvX_parent : MemEvent := event "memory" "L2" 64%Z Command.FetchInvX [].
Definition flush_C0 : MemEvent := event "C0" "L2" 64%Z Command.FlushLine [Byte.xcc].
Definition flushInv_C0 : MemEvent := event "C0" "L2" 64%Z Command.FlushLineInv [Byte.xcc].
Definition flushResp : MemEvent := event "memory" "L2" 64%Z Command.FlushLineResp [].

(** The engine that holds one line and the shared part. *)
Definition engine (l : CacheLine) (m : MSHR.t) : Engine := mkEngine [l] (shared m 10%Z).
End Cases.

(** * Reasoning about handlers *)

(** Unfolding of the primitive operations down to state functions. *)
Ltac munfold :=
  unfold mshr_isFull, mshr_isHit, mshr_exists, mshr_lookupFront, mshr_removeFront,
    mshr_insert, mshr_insertInv, mshr_insertPointer, mshr_getAcksNeeded,
    mshr_incrementAcksNeeded, mshr_decrementAcksNeeded, mshr_getDataBuffer,
    mshr_setDataBuffer, mshr_clearDataBuffer, mshr_pendingWriteback,
    mshr_insertWriteback, mshr_removeWriteback, mshr_modifyFront, now,
    addToOutgoingQueue, addToOutgoingQueueUp, allocateMSHR, processInvRequestInMSHR,
    getsMSHR, modMSHR, cacheArray_lookup, firstSharer,
    getState, setState, getBaseAddr, getSize, getDataLine, setData, getSharers,
    isSharer, numSharers, addSharer, removeSharer, getOwner, ownerExists, setOwner,
    clearOwner, getTimestamp, setTimestamp, getPrefetch, setPrefetch, getsLine, modLine,
    bind, ret, gets, modify, when, abort, fatal, deref, sh_setMshr.

Section Combinators.
Context {St X : Type} (f : St → X).

Lemma keeps_ret {A} (a : A) : keeps f (ret a).
Proof. by intros s. Qed.

Lemma keeps_abort {A} flt : keeps f (abort flt : M St A).
Proof. by intros s. Qed.

Lemma keeps_fatal {A} : keeps f (fatal : M St A).
Proof. by intros s. Qed.

Lemma keeps_gets {A} (g : St → A) : keeps f (gets g).
Proof. by intros s. Qed.

Lemma keeps_modify (g : St → St) : (∀ s, f (g s) = f s) → keeps f (modify g).
Proof. intros Hg s. apply Hg. Qed.

Lemma keeps_bind {A B} (m : M St A) (k : A → M St B) :
  keeps f m → (∀ a, keeps f (k a)) → keeps f (bind m k).
Proof.
  intros Hm Hk s. unfold bind. specialize (Hm s).
  destruct (m s) as [a s'|flt s']; cbn in *; [by rewrite Hk|done].
Qed.

Lemma keeps_when (c : bool) (m : M St unit) : keeps f m → keeps f (when c m).
Proof. destruct c; [done|]. intros _. apply keeps_ret. Qed.

Lemma keeps_deref {A} flt (p : option A) : keeps f (deref flt p).
Proof. destruct p; [apply keeps_ret|apply keeps_abort]. Qed.

Lemma keeps_forEach {A} (l : list A) (body : A → M St unit) :
  (∀ x, keeps f (body x)) → keeps f (forEach l body).
Proof.
  intros Hb. induction l as [|x l IH]; cbn; [apply keeps_ret|].
  apply keeps_bind; auto.
Qed.
End Combinators.

Section Never.
Context {St : Type} (flt : Fault).

Lemma never_ret {A} (a : A) : never flt (ret a : M St A).
Proof. by intros s s'. Qed.

Lemma never_abort {A} g : g ≠ flt → never flt (abort g : M St A).
Proof. intros Hne s s' [=]. done. Qed.

Lemma never_gets {A} (g : St → A) : never flt (gets g).
Proof. by intros s s'. Qed.

Lemma never_modify (g : St → St) : never flt (modify g).
Proof. by intros s s'. Qed.

Lemma never_bind {A B} (m : M St A) (k : A → M St B) :
  never flt m → (∀ a, never flt (k a)) → never flt (bind m k).
Proof.
  intros Hm Hk s s'. unfold bind. specialize (Hm s).
  destruct (m s) as [a s1|g s1]; [apply Hk|].
  intros [= -> ->]. by eapply Hm.
Qed.

Lemma never_when (c : bool) (m : M St unit) : never flt m → never flt (when c m).
Proof. destruct c; [done|]. intros _. apply never_ret. Qed.

Lemma never_deref {A} g (p : option A) : g ≠ flt → never flt (deref g p : M St A).
Proof. intros Hne. destruct p; [apply never_ret|by apply never_abort]. Qed.
End Never.

Lemma never_focus {A} flt p (m : M LineState A) :
  flt ≠ Dangling → never flt m → never flt (focus p m).
Proof.
  intros Hne Hm s s'. unfold focus.
  destruct (cacheArray_ s !! p) as [l|]; [|intros [=]; congruence].
  specialize (Hm (mkLineState l (en_shared s))).
  destruct (m _) as [a s1|g s1]; [done|].
  intros [= -> _]. by eapply Hm.
Qed.

Lemma never_readLine flt p : flt ≠ Dangling → never flt (readLine p).
Proof.
  intros Hne s s'. unfold readLine. destruct (_ !! _); [done|intros [=]; congruence].
Qed.

(** One step of symbolic execution: a case analysis on the condition of a
    branch that is applied to the current state. *)
Ltac destruct_if :=
  match goal with
  | |- context [ (if ?c then _ else _) ?s ] => destruct c eqn:?
  end.

(** Unfolding of the primitive operations to [gets], [modify] and [deref]. *)
Ltac punfold :=
  unfold mshr_isFull, mshr_isHit, mshr_exists, mshr_lookupFront, mshr_removeFront,
    mshr_insert, mshr_insertInv, mshr_insertPointer, mshr_getAcksNeeded,
    mshr_incrementAcksNeeded, mshr_decrementAcksNeeded, mshr_getDataBuffer,
    mshr_setDataBuffer, mshr_clearDataBuffer, mshr_pendingWriteback,
    mshr_insertWriteback, mshr_removeWriteback, mshr_modifyFront, now,
    addToOutgoingQueue, addToOutgoingQueueUp, allocateMSHR, processInvRequestInMSHR,
    getsMSHR, modMSHR, cacheArray_lookup, firstSharer, writeLine,
    getState, setState, getBaseAddr, getSize, getDataLine, setData, getSharers,
    isSharer, numSharers, addSharer, removeSharer, getOwner, ownerExists, setOwner,
    clearOwner, getTimestamp, setTimestamp, getPrefetch, setPrefetch, getsLine, modLine,
    fatal.

Create HintDb never_db.

Ltac never_step :=
  first
    [ solve [auto with never_db]
    | apply never_bind; [|intros ?]
    | apply never_ret
    | apply never_gets
    | apply never_modify
    | apply never_when
    | apply never_deref; discriminate
    | apply never_abort; discriminate
    | apply never_focus; [discriminate|]
    | apply never_readLine; discriminate
    | match goal with
      | |- never _ (if ?c then _ else _) => destruct c
      | |- never _ (match ?x with _ => _ end) => destruct x
      end ].

Ltac never_tac := cbv zeta; punfold; repeat never_step.

Section NeverNullLine.
Variable cfg : Config.

Lemma never_invalidateAllSharers_loop its rq dt b :
  never NullLine (invalidateAllSharers_loop cfg its rq dt b).
Proof. revert b. induction its as [|it its IH]; intros b; cbn; never_tac. Qed.

Lemma never_invalidateAllSharersAndFetch_loop its rq dt b1 b2 :
  never NullLine (invalidateAllSharersAndFetch_loop cfg its rq dt b1 b2).
Proof. revert b1 b2. induction its as [|it its IH]; intros b1 b2; cbn; never_tac. Qed.

#[local] Hint Resolve never_invalidateAllSharers_loop never_invalidateAllSharersAndFetch_loop
  : never_db.

Lemma never_invalidateAllSharers rq rp : never NullLine (invalidateAllSharers cfg rq rp).
Proof. unfold invalidateAllSharers. never_tac. Qed.

Lemma never_invalidateAllSharersAndFetch rq rp :
  never NullLine (invalidateAllSharersAndFetch cfg rq rp).
Proof. unfold invalidateAllSharersAndFetch. never_tac. Qed.

Lemma never_sendFetchInv rq rp : never NullLine (sendFetchInv cfg rq rp).
Proof. unfold sendFetchInv. never_tac. Qed.

Lemma never_sendWritebackFromCache c rq : never NullLine (sendWritebackFromCache cfg c rq).
Proof. unfold sendWritebackFromCache. never_tac. Qed.

Lemma never_sendWritebackFromMSHR c rq d : never NullLine (sendWritebackFromMSHR cfg c rq d).
Proof. unfold sendWritebackFromMSHR. never_tac. Qed.

Lemma never_sendResponseDown e d b1 b2 : never NullLine (sendResponseDown cfg e d b1 b2).
Proof. unfold sendResponseDown. never_tac. Qed.

Lemma never_sendResponseDownFromMSHR {St} `{HasShared St} e b :
  never NullLine (sendResponseDownFromMSHR cfg e b : M St unit).
Proof. unfold sendResponseDownFromMSHR. never_tac. Qed.

Lemma never_sendAckInv {St} `{HasShared St} e : never NullLine (sendAckInv cfg e : M St unit).
Proof. unfold sendAckInv. never_tac. Qed.

Lemma never_sendWritebackAck {St} `{HasShared St} e :
  never NullLine (sendWritebackAck cfg e : M St unit).
Proof. unfold sendWritebackAck. never_tac. Qed.

Lemma never_sendResponseUpCmd {St} `{HasShared St} e c d r t :
  never NullLine (sendResponseUpCmd cfg e c d r t : M St Z).
Proof. unfold sendResponseUpCmd. never_tac. Qed.

Lemma never_sendResponseUp {St} `{HasShared St} e d r t :
  never NullLine (sendResponseUp cfg e d r t : M St Z).
Proof. apply never_sendResponseUpCmd. Qed.

#[local] Hint Resolve never_invalidateAllSharers never_invalidateAllSharersAndFetch
  never_sendFetchInv never_sendWritebackFromCache never_sendWritebackFromMSHR
  never_sendResponseDown never_sendResponseDownFromMSHR never_sendAckInv
  never_sendWritebackAck never_sendResponseUpCmd never_sendResponseUp : never_db.

Lemma never_handleEviction rq fdc : never NullLine (handleEviction cfg rq fdc).
Proof.
  unfold handleEviction, handleEviction_collision, handleEviction_switch. never_tac.
Qed.
#[local] Hint Resolve never_handleEviction : never_db.

Lemma never_cacheArray_replaceData a p q : never NullLine (cacheArray_replaceData a p q).
Proof. unfold cacheArray_replaceData. never_tac. Qed.
#[local] Hint Resolve never_cacheArray_replaceData : never_db.

Lemma never_allocateDirCacheLine e a p b : never NullLine (allocateDirCacheLine cfg e a p b).
Proof. unfold allocateDirCacheLine. never_tac. Qed.

Lemma never_handlePutSRequest e r : never NullLine (handlePutSRequest cfg e r).
Proof. unfold handlePutSRequest. never_tac. Qed.

Lemma never_handlePutMRequest e r : never NullLine (handlePutMRequest cfg e r).
Proof. unfold handlePutMRequest. never_tac. Qed.
End NeverNullLine.

Create HintDb keeps_db.

Ltac keeps_step leaf :=
  first
    [ solve [auto with keeps_db]
    | apply keeps_bind; [|intros ?]
    | apply keeps_ret
    | apply keeps_gets
    | apply keeps_when
    | apply keeps_deref
    | apply keeps_abort
    | apply keeps_modify; solve [leaf]
    | match goal with
      | |- keeps _ (if ?c then _ else _) => destruct c
      | |- keeps _ (match ?x with _ => _ end) => destruct x
      end ].

Ltac keeps_tac leaf := cbv zeta; punfold; repeat keeps_step leaf.

Lemma ackPuts_down (d u : list Response) r :
  isAckPut r = false →
  filter (λ r, isAckPut r = true) ((d ++ [r]) ++ u)%list
  = filter (λ r, isAckPut r = true) (d ++ u)%list.
Proof.
  intros Hr. rewrite !filter_app. cbn.
  rewrite decide_False by (rewrite Hr; discriminate). by rewrite app_nil_r.
Qed.

Lemma ackPuts_up (d u : list Response) r :
  isAckPut r = false →
  filter (λ r, isAckPut r = true) (d ++ u ++ [r])%list
  = filter (λ r, isAckPut r = true) (d ++ u)%list.
Proof.
  intros Hr. rewrite !filter_app. cbn.
  rewrite decide_False by (rewrite Hr; discriminate). by rewrite app_nil_r.
Qed.

Lemma entry_setEntry a b e m :
  MSHR.entry a (MSHR.setEntry b e m) = if decide (a = b) then e else MSHR.entry a m.
Proof.
  unfold MSHR.entry, MSHR.setEntry. cbn. case_decide as Hab.
  - subst. by rewrite lookup_insert_eq.
  - by rewrite lookup_insert_ne.
Qed.

Lemma entry_incrementAcksNeeded a b m :
  MSHR.entry a (MSHR.incrementAcksNeeded b m)
  = if decide (a = b) then MSHR.withAcks (S (MSHR.acksNeeded (MSHR.entry a m))) (MSHR.entry a m)
    else MSHR.entry a m.
Proof. unfold MSHR.incrementAcksNeeded. rewrite entry_setEntry. by case_decide; subst. Qed.

Lemma entry_insertWriteback a b m :
  MSHR.entry a (MSHR.insertWriteback b m)
  = if decide (a = b) then MSHR.withWriteback true (MSHR.entry a m) else MSHR.entry a m.
Proof. unfold MSHR.insertWriteback. rewrite entry_setEntry. by case_decide; subst. Qed.

Ltac evictionObs_leaf :=
  intros [? [? ? ? ?]]; unfold evictionObs, ackPuts; cbn;
  rewrite ?entry_incrementAcksNeeded, ?entry_insertWriteback;
  repeat case_decide; cbn;
  rewrite ?ackPuts_down, ?ackPuts_up by (cbn; repeat case_match; reflexivity);
  reflexivity.

Section KeepsEvictionObs.
Variable cfg : Config.
Variable a : Addr.
Abbreviation obs := (evictionObs a).

Lemma keepsE_invalidateAllSharers_loop its rq dt b :
  keeps obs (invalidateAllSharers_loop cfg its rq dt b).
Proof. revert b. induction its as [|it its IH]; intros b; cbn; keeps_tac evictionObs_leaf. Qed.

Lemma keepsE_invalidateAllSharersAndFetch_loop its rq dt b1 b2 :
  keeps obs (invalidateAllSharersAndFetch_loop cfg its rq dt b1 b2).
Proof.
  revert b1 b2. induction its as [|it its IH]; intros b1 b2; cbn; keeps_tac evictionObs_leaf.
Qed.

#[local] Hint Resolve keepsE_invalidateAllSharers_loop keepsE_invalidateAllSharersAndFetch_loop
  : keeps_db.

Lemma keepsE_invalidateAllSharers rq rp : keeps obs (invalidateAllSharers cfg rq rp).
Proof. unfold invalidateAllSharers. keeps_tac evictionObs_leaf. Qed.

Lemma keepsE_invalidateAllSharersAndFetch rq rp :
  keeps obs (invalidateAllSharersAndFetch cfg rq rp).
Proof. unfold invalidateAllSharersAndFetch. keeps_tac evictionObs_leaf. Qed.

Lemma keepsE_sendFetchInv rq rp : keeps obs (sendFetchInv cfg rq rp).
Proof. unfold sendFetchInv. keeps_tac evictionObs_leaf. Qed.

Lemma keepsE_sendWritebackFromCache c rq :
  isPut c = true → keeps obs (sendWritebackFromCache cfg c rq).
Proof.
  intros Hc. unfold sendWritebackFromCache.
  destruct c; try discriminate Hc; keeps_tac evictionObs_leaf.
Qed.

Lemma keepsE_sendWritebackFromMSHR c rq d :
  isPut c = true → keeps obs (sendWritebackFromMSHR cfg c rq d).
Proof.
  intros Hc. unfold sendWritebackFromMSHR.
  destruct c; try discriminate Hc; keeps_tac evictionObs_leaf.
Qed.

#[local] Hint Resolve keepsE_invalidateAllSharers keepsE_invalidateAllSharersAndFetch
  keepsE_sendFetchInv : keeps_db.
#[local] Hint Extern 1 (keeps _ (sendWritebackFromCache _ _ _)) =>
  apply keepsE_sendWritebackFromCache; reflexivity : keeps_db.
#[local] Hint Extern 1 (keeps _ (sendWritebackFromMSHR _ _ _ _)) =>
  apply keepsE_sendWritebackFromMSHR; reflexivity : keeps_db.

Lemma keepsE_handleEviction_switch rq fdc st b ic co :
  keeps obs (handleEviction_switch cfg rq fdc st b ic co).
Proof. unfold handleEviction_switch. keeps_tac evictionObs_leaf. Qed.
End KeepsEvictionObs.

Lemma stops_bind {St A B} (m : M St A) (k : A → M St B) :
  (∀ a, stops (k a)) → stops (bind m k).
Proof.
  intros Hk s. unfold bind. destruct (m s) as [a s1|f s1]; [apply Hk|eauto].
Qed.

Lemma stops_fatal {St A} : stops (fatal : M St A).
Proof. intros s. by eexists _, _. Qed.

Lemma bind_gets {St A B} (f : St → A) (k : A → M St B) s :
  bind (gets f) k s = k (f s) s.
Proof. reflexivity. Qed.

Section C3.
Import Scenario.

Lemma handleAckInv_eviction_states_stop cfg0 ack req l sh :
  ln_state l = State.SI ∨ ln_state l = State.EI ∨ ln_state l = State.MI →
  ∃ f s', handleAckInv cfg0 ack req (mkLineState l sh) = Abort f s'.
Proof.
  intros Hst. destruct l as [ba st shs ow dl ts pf sz]. cbn in Hst.
  unfold handleAckInv. rewrite (bind_gets (λ s, ln_state (dirLine s))).
  cbv beta. cbn [dirLine ln_state].
  refine ((_ : stops _) _).
  destruct Hst as [-> | [-> | ->]];
    repeat first [ apply stops_fatal
                 | apply stops_bind; intros ?
                 | progress cbv beta iota zeta ].
Qed.
End C3.

Lemma bind_Ret {St A B} (m : M St A) (k : A → M St B) s a s1 :
  m s = Ret a s1 → bind m k s = k a s1.
Proof. intros Hm. unfold bind. by rewrite Hm. Qed.

Lemma set_erase_notin x l : x ∉ l → set_erase x l = l.
Proof.
  intros Hx. unfold set_erase. induction l as [|y l IH]; [done|].
  rewrite filter_cons. rewrite decide_True by (intros ->; apply Hx; left).
  f_equal. apply IH. intros Hin. apply Hx. by right.
Qed.

Lemma set_erase_not_elem x l : x ∉ set_erase x l.
Proof. unfold set_erase. rewrite list_elem_of_filter. by intros [Hne _]. Qed.

Lemma ownerExists_false l : ln_ownerExists l = false → ln_owner l = EmptyString.
Proof.
  unfold ln_ownerExists. intros Hoe. apply negb_false_iff in Hoe. by apply String.eqb_eq.
Qed.

Lemma entry_setDataBuffer a b d m :
  MSHR.entry a (MSHR.setDataBuffer b d m)
  = if decide (a = b) then MSHR.withData (Some d) (MSHR.entry a m) else MSHR.entry a m.
Proof. unfold MSHR.setDataBuffer. rewrite entry_setEntry. by case_decide; subst. Qed.

Lemma entry_setSize a n m : MSHR.entry a (MSHR.setSize n m) = MSHR.entry a m.
Proof. done. Qed.

Section C10.
Variable cfg : Config.

Lemma handleEviction_collision_spec rq fdc l sh w q :
  MSHR.mshrQueue (MSHR.entry (ln_baseAddr l) (mshr_ sh)) = MSHR.mshrEvent w :: q →
  isPut (ev_cmd w) = true →
  ev_baseAddr w = ln_baseAddr l →
  ∃ s1,
    handleEviction cfg rq fdc (mkLineState l sh)
    = handleEviction_switch cfg rq fdc (ln_state l) (ln_baseAddr l)
        (notNull (ln_dataLine l)) true s1
    ∧ evictionObs (ln_baseAddr l) s1
      = (set_erase (ev_src w) (ln_sharers l),
         (if ln_isSharer (ev_src w) l then ln_owner l else EmptyString),
         Some (ev_payload w), q, ackPuts sh).
Proof.
  intros Hq Hput Hb. destruct l as [ba st shs ow dl ts pf sz]. cbn in *.
  unfold handleEviction, handleEviction_collision. munfold.
  unfold MSHR.isHit, MSHR.lookupFront, ln_isSharer, ln_ownerExists.
  cbn -[isPut handleEviction_switch].
  repeat (rewrite Hq; cbn -[isPut handleEviction_switch]).
  rewrite Hput. cbn -[handleEviction_switch]. rewrite Hb.
  unfold evictionObs.
  destruct (State.eqb st State.E && ev_dirty w);
    cbn -[handleEviction_switch];
    (destruct (set_find (ev_src w) shs) eqn:HS; cbn -[handleEviction_switch];
     [|destruct (negb (ow =? EmptyString))%string eqn:HO; cbn -[handleEviction_switch]]);
    (eexists; split; [reflexivity|]);
    cbn; unfold MSHR.removeFront; rewrite !entry_setDataBuffer, decide_True by done;
    cbn; rewrite Hq; cbn;
    rewrite entry_setSize, entry_setEntry, decide_True by done; cbn;
    repeat f_equal;
    try (symmetry; apply set_erase_notin; unfold set_find in HS;
         by apply bool_decide_eq_false in HS);
    try (apply negb_false_iff in HO; by apply String.eqb_eq in HO).
Qed.

Lemma entry_acks_setDataBuffer a b d m :
  MSHR.getAcksNeeded a (MSHR.setDataBuffer b d m) = MSHR.getAcksNeeded a m.
Proof.
  unfold MSHR.getAcksNeeded. rewrite entry_setDataBuffer. by case_decide; subst.
Qed.

(** C10: when [handleEviction] finds a PutS, PutE or PutM for the line
    at the head of its MSHR queue, the replacement is consumed: its
    sender is taken out of the sharers, or else the owner is cleared,
    its payload is saved in the data buffer of the MSHR and the entry
    leaves the queue; whatever the eviction does next, no AckPut is
    added to an outgoing queue.  A PutS handled by [handlePutSRequest]
    in a stable state, and a PutE or PutM handled by
    [handlePutMRequest] in E or M, is answered with an AckPut to its
    sender. *)
Theorem eviction_merges_put_without_AckPut :
  (∀ rq fdc l sh w q,
     MSHR.mshrQueue (MSHR.entry (ln_baseAddr l) (mshr_ sh)) = MSHR.mshrEvent w :: q →
     isPut (ev_cmd w) = true →
     ev_baseAddr w = ln_baseAddr l →
     ∀ s', s' = final (handleEviction cfg rq fdc (mkLineState l sh)) →
     (ev_src w ∉ ln_sharers (dirLine s'))
     ∧ ln_sharers (dirLine s') = set_erase (ev_src w) (ln_sharers l)
     ∧ ln_owner (dirLine s') = (if ln_isSharer (ev_src w) l then ln_owner l else EmptyString)
     ∧ MSHR.getDataBuffer (ln_baseAddr l) (mshr_ (ls_shared s')) = Some (ev_payload w)
     ∧ MSHR.mshrQueue (MSHR.entry (ln_baseAddr l) (mshr_ (ls_shared s'))) = q
     ∧ ackPuts (ls_shared s') = ackPuts sh)
  ∧ (∀ event reqEvent l sh,
       stable (ln_state l) = true →
       MSHR.getAcksNeeded (ev_baseAddr event) (mshr_ sh) = 0 →
       ∃ s' ack,
         handlePutSRequest cfg event reqEvent (mkLineState l sh) = Ret DONE s'
         ∧ outgoingEventQueueUp_ (ls_shared s') = (outgoingEventQueueUp_ sh ++ [ack])%list
         ∧ ev_cmd (resp_event ack) = Command.AckPut
         ∧ ev_dst (resp_event ack) = ev_src event)
  ∧ (∀ event reqEvent l sh,
       ln_state l = State.E ∨ ln_state l = State.M →
       ∃ s' ack,
         handlePutMRequest cfg event reqEvent (mkLineState l sh) = Ret DONE s'
         ∧ outgoingEventQueueUp_ (ls_shared s') = (outgoingEventQueueUp_ sh ++ [ack])%list
         ∧ ev_cmd (resp_event ack) = Command.AckPut
         ∧ ev_dst (resp_event ack) = ev_src event).
Proof.
  split; [|split].
  - intros rq fdc l sh w q Hq Hput Hb s' Heq.
    destruct (handleEviction_collision_spec rq fdc l sh w q Hq Hput Hb) as (s1 & Hrun & Hobs).
    assert (Hs' : evictionObs (ln_baseAddr l) s' = evictionObs (ln_baseAddr l) s1).
    { rewrite Heq, Hrun. apply keepsE_handleEviction_switch. }
    rewrite Hobs in Hs'. unfold evictionObs in Hs'.
    injection Hs' as Hsh Hown Hdata Hqueue Hack.
    rewrite Hsh. split_and!; try done. apply set_erase_not_elem.
  - intros event reqEvent [ba st shs ow dl ts pf sz] [m d u t] Hst Hacks. cbn in *.
    unfold handlePutSRequest, sendWritebackAck. munfold. unfold ln_isSharer. cbn.
    destruct st; try discriminate Hst; cbn; rewrite Hacks; cbn;
      (destruct (set_find (ev_src event) shs); cbn;
       (destruct dl as [dat|]; cbn;
        [|destruct (MSHR.isHit ba m); cbn; rewrite ?entry_acks_setDataBuffer]);
       rewrite Hacks; cbn; do 2 eexists; split_and!; reflexivity).
  - intros event reqEvent [ba st shs ow dl ts pf sz] [m d u t] Hst. cbn in *.
    unfold handlePutMRequest, sendWritebackAck, sendWritebackFromMSHR. munfold. cbn.
    destruct Hst as [-> | ->]; cbn;
      (destruct dl as [dat|]; cbn; [|destruct (MSHR.isHit ba m); cbn]);
      repeat (destruct_if; cbn);
      do 2 eexists; split_and!; reflexivity.
Qed.
End C10.

Lemma bind_never_at {St A B} (m : M St A) (k : A → M St B) s a s1 flt :
  m s = Ret a s1 → never flt (k a) → ∀ s', bind m k s ≠ Abort flt s'.
Proof. intros Hm Hk s'. unfold bind. rewrite Hm. apply Hk. Qed.

Section C9.
Variable cfg : Config.

#[local] Hint Resolve never_invalidateAllSharers never_invalidateAllSharersAndFetch
  never_sendFetchInv never_sendWritebackFromCache never_sendWritebackFromMSHR
  never_sendResponseDown never_sendResponseDownFromMSHR never_sendAckInv
  never_sendWritebackAck never_sendResponseUpCmd never_sendResponseUp
  never_handleEviction never_cacheArray_replaceData never_allocateDirCacheLine
  never_handlePutSRequest never_handlePutMRequest : never_db.

(** C9: [handleReplacement] uses the result of the lookup in the
    directory without a test: it stops on a null line exactly when the
    directory has no line for the base address of the event, so when
    the directory tracks the address that fault cannot happen. *)
Theorem replacement_requires_directory_line event replay s :
  (∃ s', handleReplacement cfg event replay s = Abort NullLine s')
  ↔ list_find (λ l, ln_baseAddr l = ev_baseAddr event) (cacheArray_ s) = None.
Proof.
  split.
  - intros [s' Hrun].
    destruct (list_find _ _) as [[p l]|] eqn:Hfind; [exfalso|done].
    revert Hrun. unfold handleReplacement.
    apply (bind_never_at _ _ s (Some p) s).
    { unfold cacheArray_lookup, gets. by rewrite Hfind. }
    apply never_bind; [apply never_ret|intros q].
    never_tac.
  - intros Hfind. exists s.
    unfold handleReplacement, cacheArray_lookup, gets, bind. by rewrite Hfind.
Qed.
End C9.

Section C6.
Variable cfg : Config.

Lemma invalidateSharersExceptRequestor_loop_spec its rq orq dt nf si l m d u t :
  ∃ msgs,
    invalidateSharersExceptRequestor_loop cfg its rq orq dt nf si
      (mkLineState l (mkShared m d u t))
    = Ret (si || notNull (head msgs))
        (mkLineState l
           (mkShared (Nat.iter (length msgs) (MSHR.incrementAcksNeeded (ln_baseAddr l)) m)
              d (u ++ msgs) t))
    ∧ map (λ r, ev_dst (resp_event r)) msgs = filter (λ x, x ≠ rq) its
    ∧ Forall isInvalidation msgs.
Proof.
  revert nf si m u. induction its as [|it its IH]; intros nf si m u.
  - exists []. cbn. rewrite orb_false_r, app_nil_r. by split_and!.
  - cbn [invalidateSharersExceptRequestor_loop].
    rewrite filter_cons. case_bool_decide as Hit.
    + destruct (IH nf si m u) as (msgs & Hrun & Hdst & Hcmd).
      exists msgs. rewrite Hrun. rewrite decide_False by (by intros Hne; apply Hne).
      by split_and!.
    + munfold. cbn -[filter].
      edestruct (IH false true) as (msgs & Hrun & Hdst & Hcmd).
      eexists (_ :: msgs). rewrite decide_True by done. cbn [head notNull].
      rewrite orb_true_r.
      split_and!; [rewrite Hrun| |].
      * rewrite <- app_assoc. cbn -[filter]. rewrite Nat.iter_swap. reflexivity.
      * cbn -[filter]. by rewrite Hdst.
      * constructor; [|done]. unfold isInvalidation. cbn. destruct nf; auto.
Qed.

Lemma acks_decrementAcksNeeded a m :
  MSHR.getAcksNeeded a (MSHR.decrementAcksNeeded a m) = pred (MSHR.getAcksNeeded a m).
Proof.
  unfold MSHR.getAcksNeeded, MSHR.decrementAcksNeeded.
  by rewrite entry_setEntry, decide_True.
Qed.

(** The two handlers of the upgrade at the last level, each on its own.
    [handleGetXRequest] on a line in S sends nothing to the parent: with
    another sharer the line goes to M_Inv, each other sharer is sent an
    invalidation and the request stalls; without one the line goes to M,
    the requestor becomes the owner, no sharer is left, the requestor is
    answered and the request is DONE.  [handleAckInv], when it is given
    the request with the last AckInv in M_Inv, ends the same way. *)
Lemma handleGetXRequest_last_level event replay :
  lastLevel_ cfg = true →
  (∀ l sh,
     ln_state l = State.S → ln_owner l = EmptyString →
     ∃ action s' up,
       handleGetXRequest cfg event replay (mkLineState l sh) = Ret action s'
       ∧ outgoingEventQueue_ (ls_shared s') = outgoingEventQueue_ sh
       ∧ outgoingEventQueueUp_ (ls_shared s') = outgoingEventQueueUp_ sh ++ up
       ∧ match filter (λ x, x ≠ ev_src event) (ln_sharers l) with
         | [] =>
             action = DONE
             ∧ ln_state (dirLine s') = State.M
             ∧ ln_owner (dirLine s') = ev_src event
             ∧ ln_sharers (dirLine s') = []
             ∧ ∃ r, up = [r]
                    ∧ ev_dst (resp_event r) = ev_src event
                    ∧ ev_cmd (resp_event r) = CommandResponse (ev_cmd event)
         | others =>
             action = STALL
             ∧ ln_state (dirLine s') = State.M_Inv
             ∧ ln_owner (dirLine s') = EmptyString
             ∧ ln_sharers (dirLine s') = ln_sharers l
             ∧ map (λ r, ev_dst (resp_event r)) up = others
             ∧ Forall isInvalidation up
         end)
  ∧ (∀ ack l sh,
       ln_state l = State.M_Inv →
       MSHR.getAcksNeeded (ev_baseAddr ack) (mshr_ sh) = 1 →
       ev_cmd event = Command.GetX ∨ ev_cmd event = Command.GetSX →
       ∃ s' r,
         handleAckInv cfg ack (Some event) (mkLineState l sh) = Ret DONE s'
         ∧ ln_state (dirLine s') = State.M
         ∧ ln_owner (dirLine s') = ev_src event
         ∧ (ev_src event ∉ ln_sharers (dirLine s'))
         ∧ outgoingEventQueue_ (ls_shared s') = outgoingEventQueue_ sh
         ∧ outgoingEventQueueUp_ (ls_shared s') = outgoingEventQueueUp_ sh ++ [r]
         ∧ ev_dst (resp_event r) = ev_src event).
Proof.
  intros Hlast. split.
  - intros [ba st shs ow dl ts pf sz] [m d u t] Hst How. cbn in Hst, How. subst st ow.
    unfold handleGetXRequest, invalidateSharersExceptRequestor, sendResponseUp,
      sendResponseUpCmd.
    munfold. unfold ln_ownerExists, ln_isSharer. cbn -[filter]. rewrite Hlast.
    cbn -[filter].
    destruct pf, dl as [dat|]; cbn -[filter].
    all: edestruct invalidateSharersExceptRequestor_loop_spec as (msgs & Hrun & Hdst & Hcmd);
      rewrite Hrun; clear Hrun; cbn -[filter] in Hdst |- *.
    all: destruct msgs as [|msg msgs]; cbn -[filter] in Hdst |- *; rewrite <- Hdst;
      [rewrite app_nil_r|by do 3 eexists; split_and!; try reflexivity].
    all: destruct (set_find (ev_src event) shs) eqn:Hsrc; cbn -[filter].
    all: do 3 eexists; split_and!; try reflexivity;
      [ cbn; try done; unfold set_find in Hsrc; apply bool_decide_eq_false in Hsrc;
        by rewrite <- (set_erase_notin _ _ Hsrc)
      | eexists; split_and!; reflexivity ].
  - intros ack [ba st shs ow dl ts pf sz] [m d u t] Hst Hacks Hcmd. cbn in Hst, Hacks.
    subst st.
    unfold handleAckInv, sendResponseUp, sendResponseUpCmd. munfold.
    unfold ln_isSharer. cbn.
    set (shs' := if set_find (ev_src ack) shs then set_erase (ev_src ack) shs else shs).
    assert (Hsrc : ev_src event ∉
                   (if set_find (ev_src event) shs' then set_erase (ev_src event) shs'
                    else shs')).
    { destruct (set_find (ev_src event) shs') eqn:Hfind; [apply set_erase_not_elem|].
      by apply bool_decide_eq_false in Hfind. }
    subst shs'.
    destruct (set_find (ev_src ack) shs); cbn; rewrite Hacks; cbn;
      rewrite acks_decrementAcksNeeded, Hacks; cbn;
      (destruct dl as [dat|]; cbn);
      (destruct Hcmd as [-> | ->]; cbn);
      (destruct (set_find (ev_src event) _); cbn);
      do 2 eexists; split_and!; try reflexivity;
      first [exact Hsrc | by cbn; destruct (MSHR.getDataBuffer _ _)].
Qed.
End C6.

Lemma list_find_insert_same (arr : list CacheLine) a p l l' :
  list_find (λ l, ln_baseAddr l = a) arr = Some (p, l) →
  ln_baseAddr l' = a →
  list_find (λ l, ln_baseAddr l = a) (<[p:=l']> arr) = Some (p, l').
Proof.
  intros (Hp & Hl & Hleast)%list_find_Some Hl'.
  apply list_find_insert_Some. right. left.
  split_and!; [done|done|by eapply lookup_lt_Some|done|].
  intros k z Hz Hk. by eapply Hleast.
Qed.

Lemma lookupFront_insert_empty a e m :
  MSHR.mshrQueue (MSHR.entry a m) = [] →
  MSHR.lookupFront a (MSHR.insert a e m) = Some e.
Proof.
  intros Hq. unfold MSHR.lookupFront, MSHR.insert.
  rewrite entry_setSize, entry_setEntry, decide_True by done. cbn. by rewrite Hq.
Qed.

Section C7.
Variable cfg : Config.

(** C7: for a line in I without sharers, with nothing queued at the
    address, [handleRequest] on a GetS that is not a prefetch of this
    cache itself forwards the GetS to the parent, moves the line to IS
    and returns STALL; [handleCacheResponse] on the GetSResp then moves
    the line to S with the requestor as its only sharer, sends a
    GetSResp with the payload of the response to the requestor and
    returns DONE. *)
Theorem simple_miss_then_hit event resp replay inMSHR p l arr sh :
  ev_cmd event = Command.GetS →
  ev_prefetch event && bool_decide (ev_rqstr event = ownerName_ cfg) = false →
  list_find (λ l, ln_baseAddr l = ev_baseAddr event) arr = Some (p, l) →
  ln_state l = State.I →
  ln_sharers l = [] →
  MSHR.mshrQueue (MSHR.entry (ev_baseAddr event) (mshr_ sh)) = [] →
  ev_cmd resp = Command.GetSResp →
  ev_baseAddr resp = ev_baseAddr event →
  ∃ s1 l1 fwd s2 l2 r,
    handleRequest cfg event replay (mkEngine arr sh) = Ret STALL s1
    ∧ cacheArray_ s1 !! p = Some l1
    ∧ ln_state l1 = State.IS
    ∧ outgoingEventQueue_ (en_shared s1) = outgoingEventQueue_ sh ++ [fwd]
    ∧ outgoingEventQueueUp_ (en_shared s1) = outgoingEventQueueUp_ sh
    ∧ ev_cmd (resp_event fwd) = Command.GetS
    ∧ ev_baseAddr (resp_event fwd) = ev_baseAddr event
    ∧ ev_dst (resp_event fwd) = getDestination cfg (ev_baseAddr event)
    ∧ handleCacheResponse cfg resp inMSHR s1 = Ret DONE s2
    ∧ cacheArray_ s2 !! p = Some l2
    ∧ ln_state l2 = State.S
    ∧ ln_sharers l2 = [ev_src event]
    ∧ outgoingEventQueue_ (en_shared s2) = outgoingEventQueue_ (en_shared s1)
    ∧ outgoingEventQueueUp_ (en_shared s2) = outgoingEventQueueUp_ sh ++ [r]
    ∧ ev_cmd (resp_event r) = Command.GetSResp
    ∧ ev_dst (resp_event r) = ev_src event
    ∧ ev_payload (resp_event r) = ev_payload resp.
Proof.
  intros Hcmd Hpf Hfind Hst Hsh Hq Hrcmd Hraddr.
  pose proof Hfind as (Hp & Hba & _)%list_find_Some.
  pose proof (lookup_lt_Some _ _ _ Hp) as Hlen.
  destruct l as [ba st shs ow dl ts pf sz], sh as [m d u t]. cbn in *. subst st shs ba.
  assert (Hrun1 : ∃ s1, handleRequest cfg event replay (mkEngine arr (mkShared m d u t)) = Ret STALL s1
     ∧ s1 = mkEngine (<[p := mkCacheLine (ev_baseAddr event) State.IS [] ow dl
                            (u64_add (u64_max t 0) (tagLatency_ cfg)) pf sz]> arr)
              (mkShared (MSHR.insert (ev_baseAddr event) event m)
                 (d ++ [mkResponse (ev_setSize (lineSize_ cfg)
                          (ev_setDst (getDestination cfg (ev_baseAddr event))
                             (ev_setSrc (ownerName_ cfg) event)))
                          (u64_add (u64_max t 0) (tagLatency_ cfg))
                          (packetHeaderBytes cfg + ev_getPayloadSize event)]) u t)).
  { unfold handleRequest, handleGetSRequest, handleGetSRequest_switch, focus, readLine,
      forwardMessage.
    munfold. cbn. rewrite Hfind. cbn. rewrite Hp. cbn. rewrite Hcmd. cbn.
    rewrite Hp. cbn. rewrite Hpf. cbn. rewrite Hp. cbn.
    eexists. split; reflexivity. }
  destruct Hrun1 as (s1 & Hrun1 & ->).
  assert (Hrun2 : ∃ s2, handleCacheResponse cfg resp inMSHR
     (mkEngine (<[p := mkCacheLine (ev_baseAddr event) State.IS [] ow dl
                            (u64_add (u64_max t 0) (tagLatency_ cfg)) pf sz]> arr)
              (mkShared (MSHR.insert (ev_baseAddr event) event m)
                 (d ++ [mkResponse (ev_setSize (lineSize_ cfg)
                          (ev_setDst (getDestination cfg (ev_baseAddr event))
                             (ev_setSrc (ownerName_ cfg) event)))
                          (u64_add (u64_max t 0) (tagLatency_ cfg))
                          (packetHeaderBytes cfg + ev_getPayloadSize event)]) u t))
     = Ret DONE s2
     ∧ ∃ l2 r, cacheArray_ s2 !! p = Some l2
         ∧ ln_state l2 = State.S
         ∧ ln_sharers l2 = [ev_src event]
         ∧ outgoingEventQueue_ (en_shared s2)
           = d ++ [mkResponse (ev_setSize (lineSize_ cfg)
                          (ev_setDst (getDestination cfg (ev_baseAddr event))
                             (ev_setSrc (ownerName_ cfg) event)))
                          (u64_add (u64_max t 0) (tagLatency_ cfg))
                          (packetHeaderBytes cfg + ev_getPayloadSize event)]
         ∧ outgoingEventQueueUp_ (en_shared s2) = u ++ [r]
         ∧ ev_cmd (resp_event r) = Command.GetSResp
         ∧ ev_dst (resp_event r) = ev_src event
         ∧ ev_payload (resp_event r) = ev_payload resp).
  { unfold handleCacheResponse, handleDataResponse, focus, sendResponseUp,
      sendResponseUpCmd.
    munfold. cbn. rewrite Hraddr.
    rewrite (list_find_insert_same _ _ _ _ _ Hfind) by done. cbn.
    rewrite lookupFront_insert_empty by done. rewrite Hrcmd. cbn.
    rewrite list_lookup_insert_eq by done. cbn. rewrite ?Hrcmd. cbn.
    rewrite Hpf. cbn.
    destruct dl as [dat|]; cbn; rewrite list_insert_insert_eq;
      (eexists; split; [reflexivity|]); cbn;
      rewrite list_lookup_insert_eq by done;
      do 2 eexists; split_and!; try reflexivity; cbn; rewrite ?Hcmd; done. }
  destruct Hrun2 as (s2 & Hrun2 & l2 & r & Hl2 & Hst2 & Hsh2 & Hdown & Hup & Hr1 & Hr2 & Hr3).
  eexists _,
    (mkCacheLine (ev_baseAddr event) State.IS [] ow dl
       (u64_add (u64_max t 0) (tagLatency_ cfg)) pf sz),
    (mkResponse (ev_setSize (lineSize_ cfg)
                   (ev_setDst (getDestination cfg (ev_baseAddr event))
                      (ev_setSrc (ownerName_ cfg) event)))
       (u64_add (u64_max t 0) (tagLatency_ cfg))
       (packetHeaderBytes cfg + ev_getPayloadSize event)),
    s2, l2, r.
  split_and!; try done.
  cbn. by apply list_lookup_insert_eq.
Qed.
End C7.

Lemma app_singleton_neq {A} (l : list A) x : l ≠ l ++ [x].
Proof.
  intros Heq. apply (f_equal length) in Heq. rewrite length_app in Heq. cbn in Heq. lia.
Qed.

Lemma not_resent_same e s : ¬ resent e s s.
Proof. intros (r & _ & [Hq | Hq]); by apply app_singleton_neq in Hq. Qed.

Section C5.
Variable cfg : Config.

(** C5, amended: a NACKed PutS, PutE or PutM is sent again exactly
    when writebacks are not acknowledged in this configuration or a
    writeback is pending for the address; otherwise the message is
    dropped and the state is as before. *)
Theorem nack_put_resent_unless_ack_served ev inMSHR s :
  isPut (ev_cmd (getNACKedEvent ev)) = true →
  ∃ s',
    handleNACK cfg ev inMSHR s = Ret true s'
    ∧ (resent (getNACKedEvent ev) s s'
       ↔ expectWritebackAck_ cfg = false
         ∨ MSHR.pendingWriteback (ev_baseAddr (getNACKedEvent ev)) (mshr_ (en_shared s)) = true)
    ∧ (¬ resent (getNACKedEvent ev) s s' → s' = s).
Proof.
  intros Hput. destruct ev as [e], s as [arr [m d u t]]. cbn in *.
  unfold handleNACK, resendEvent, readLine. munfold. cbn.
  destruct (list_find _ arr) as [[p l]|] eqn:Hfind; cbn;
    [pose proof Hfind as (Hp & _)%list_find_Some; rewrite Hp; cbn|].
  all: destruct (ev_cmd e); try discriminate Hput; cbn.
  all: destruct (expectWritebackAck_ cfg); cbn.
  all: destruct (MSHR.pendingWriteback (ev_baseAddr e) m) eqn:Hpw; cbn.
  all: try destruct (ev_fromHighNetNACK e); cbn.
  all: eexists; split; [reflexivity|].
  all: first
    [ match goal with
      | |- (resent ?x ?s1 ?s2 ↔ _) ∧ _ =>
          assert (Hre : resent x s1 s2)
            by (eexists; split; cycle 1;
                [first [left; reflexivity|right; reflexivity]|reflexivity])
      end;
      split; [split; [intros _; auto|intros _; exact Hre]|intros Hn; by destruct Hn]
    | split;
      [split; [intros Hre; by apply not_resent_same in Hre
              |intros [Hf|Hf]; discriminate Hf]
      |reflexivity] ].
Qed.
End C5.

Lemma pendingWriteback_removeWriteback a m :
  MSHR.pendingWriteback a (MSHR.removeWriteback a m) = false.
Proof.
  unfold MSHR.pendingWriteback, MSHR.removeWriteback.
  by rewrite entry_setEntry, decide_True.
Qed.

Lemma queue_insertInv a e b m :
  MSHR.mshrQueue (MSHR.entry a (MSHR.insertInv a e b m))
  = MSHR.mshrQueue (MSHR.entry a m) ++ [MSHR.mshrEvent e].
Proof.
  unfold MSHR.insertInv. by rewrite entry_setSize, entry_setEntry, decide_True.
Qed.

Section InvalidationRouting.
Variables handleInv handleFetch handleFetchInv handleFetchInvX handleForceInv
  : MemEvent → option nat → bool → option MemEvent → M Engine CacheAction.

Abbreviation route :=
  (handleInvalidationRequest handleInv handleFetch handleFetchInv handleFetchInvX
     handleForceInv).

(** C1: an invalidation for an address with a pending writeback is
    taken as the AckPut, whatever the handlers of the five commands do:
    the marker is removed, the lines of the directory and the two
    outgoing queues are as before, the rest of the MSHR is untouched
    and the answer is DONE. *)
Theorem invalidation_taken_as_AckPut event replay s :
  MSHR.pendingWriteback (ev_baseAddr event) (mshr_ (en_shared s)) = true →
  ∃ s',
    route event replay s = Ret DONE s'
    ∧ MSHR.pendingWriteback (ev_baseAddr event) (mshr_ (en_shared s')) = false
    ∧ cacheArray_ s' = cacheArray_ s
    ∧ outgoingEventQueue_ (en_shared s') = outgoingEventQueue_ (en_shared s)
    ∧ outgoingEventQueueUp_ (en_shared s') = outgoingEventQueueUp_ (en_shared s)
    ∧ mshr_ (en_shared s') = MSHR.removeWriteback (ev_baseAddr event) (mshr_ (en_shared s)).
Proof.
  intros Hpw. unfold handleInvalidationRequest. munfold. cbn. rewrite Hpw. cbn.
  destruct (MSHR.exists_ _ _); cbn; rewrite Hpw; cbn;
    (eexists; split; [reflexivity|]); cbn;
    by rewrite pendingWriteback_removeWriteback.
Qed.

(** C8: an invalidation that arrives when the MSHR is full and no
    writeback is pending for its address is appended to the MSHR queue
    of the address and the answer is STALL; the lines of the directory
    and the outgoing queues are as before. *)
Theorem invalidation_queued_when_mshr_full event replay s :
  MSHR.isFull (mshr_ (en_shared s)) = true →
  MSHR.pendingWriteback (ev_baseAddr event) (mshr_ (en_shared s)) = false →
  ∃ s',
    route event replay s = Ret STALL s'
    ∧ MSHR.mshrQueue (MSHR.entry (ev_baseAddr event) (mshr_ (en_shared s')))
      = MSHR.mshrQueue (MSHR.entry (ev_baseAddr event) (mshr_ (en_shared s)))
        ++ [MSHR.mshrEvent event]
    ∧ cacheArray_ s' = cacheArray_ s
    ∧ outgoingEventQueue_ (en_shared s') = outgoingEventQueue_ (en_shared s)
    ∧ outgoingEventQueueUp_ (en_shared s') = outgoingEventQueueUp_ (en_shared s).
Proof.
  intros Hfull Hpw. unfold handleInvalidationRequest. munfold. cbn.
  rewrite Hpw, Hfull. cbn.
  eexists; split; [reflexivity|]. cbn. by rewrite queue_insertInv.
Qed.
End InvalidationRouting.

Section C4.
Variable cfg : Config.

(** C4, amended: for a line in SI, S_Inv, E_Inv, M_Inv, SM_Inv, E_InvX,
    S_B or I_B, [handleEviction] returns STALL, and when no PutS, PutE
    or PutM waits at the head of the MSHR queue of the line, the line
    and the shared state are as before. *)
Theorem eviction_in_transition_stalls origRqstr fromDataCache l sh :
  stallsEviction (ln_state l) = true →
  (∃ s', handleEviction cfg origRqstr fromDataCache (mkLineState l sh) = Ret STALL s')
  ∧ (collidingPut (ln_baseAddr l) (mshr_ sh) = false →
     handleEviction cfg origRqstr fromDataCache (mkLineState l sh)
     = Ret STALL (mkLineState l sh)).
Proof.
  intros Hst. unfold collidingPut.
  destruct l as [ba st shs ow dl ts pf sz]. cbn in Hst |- *.
  unfold handleEviction, handleEviction_collision, handleEviction_switch. munfold.
  unfold ln_isSharer, ln_ownerExists. cbn -[isPut].
  destruct (MSHR.isHit _ _); cbn -[isPut].
  - destruct (MSHR.lookupFront _ _) as [w|]; cbn -[isPut].
    + destruct (isPut (ev_cmd w)); cbn.
      * split; [|discriminate].
        destruct (State.eqb st State.E && ev_dirty w); cbn;
          (destruct (set_find (ev_src w) shs); cbn;
           [|destruct (negb (ow =? EmptyString))%string; cbn]);
          destruct st; try discriminate Hst; cbn; eauto.
      * destruct st; try discriminate Hst; cbn; eauto.
    + destruct st; try discriminate Hst; cbn; eauto.
  - destruct st; try discriminate Hst; cbn; eauto.
Qed.
End C4.

Section Counterexamples.
Import Scenario.

(** C4 as stated does not hold: on a line in SI with sharer C0 and a
    PutS of C0 at the head of its MSHR queue the eviction removes the
    sharer, and on a line in IS it stops with a fatal error. *)
Lemma eviction_in_transition_changes_or_halts :
  ¬ eviction_in_transition_claim cfg "L2" false
      (mkLineState (line State.SI ["C0"] EmptyString None 0%Z)
                   (shared (mshr [MSHR.mshrEvent putS_C0] 0 false) 10%Z))
  ∧ ¬ eviction_in_transition_claim cfg "L2" false
        (mkLineState (line State.IS [] EmptyString None 0%Z) (shared (mshr [] 0 false) 10%Z)).
Proof.
  split; intros Hclaim; specialize (Hclaim eq_refl).
  - apply (f_equal (λ o, ln_sharers (dirLine (final o)))) in Hclaim.
    vm_compute in Hclaim. discriminate Hclaim.
  - vm_compute in Hclaim. discriminate Hclaim.
Qed.

(** C5 as stated does not hold: when writebacks are not acknowledged,
    a NACKed PutS is sent again although no writeback is pending. *)
Lemma nack_put_resent_without_pending_writeback :
  ¬ nack_put_claim cfg_noAck (mkNACKEvent putS_L2)
      (mkEngine [line State.I [] EmptyString None 0%Z] (shared (mshr [] 0 false) 10%Z)).
Proof.
  intros (s' & Hrun & Hiff). vm_compute in Hrun. injection Hrun as <-.
  destruct Hiff as [_ Hback].
  assert (Hpw : MSHR.pendingWriteback (ev_baseAddr (getNACKedEvent (mkNACKEvent putS_L2)))
                  (mshr_ (en_shared (mkEngine [line State.I [] EmptyString None 0%Z]
                                       (shared (mshr [] 0 false) 10%Z)))) = true).
  { apply Hback. eexists. split; cycle 1; [left; reflexivity|reflexivity]. }
  vm_compute in Hpw. discriminate Hpw.
Qed.
End Counterexamples.

Section Concrete.
Import Scenario.

(** C2: [sendFetchInv] and [invalidateAllSharersAndFetch] at time 10
    on a line whose timestamp is 100, with a tag latency of 1, deliver
    at 11, before the timestamp of the line, which they then set back
    to 11. *)
Theorem fetchInv_delivery_before_line_timestamp :
  (∃ s' r,
     sendFetchInv cfg "L2" false
       (mkLineState (line State.M [] "C0" None 100%Z) (shared (mshr [] 0 false) 10%Z))
     = Ret tt s'
     ∧ outgoingEventQueueUp_ (ls_shared s') = [r]
     ∧ ev_cmd (resp_event r) = Command.FetchInv
     ∧ resp_deliveryTime r = 11%Z
     ∧ ln_timestamp (dirLine s') = 11%Z)
  ∧ (∃ s' r1 r2,
       invalidateAllSharersAndFetch cfg "L2" false
         (mkLineState (line State.S ["C0"; "C1"] EmptyString None 100%Z) (shared (mshr [] 0 false) 10%Z))
       = Ret tt s'
       ∧ outgoingEventQueueUp_ (ls_shared s') = [r1; r2]
       ∧ resp_deliveryTime r1 = 11%Z
       ∧ resp_deliveryTime r2 = 11%Z
       ∧ ln_timestamp (dirLine s') = 11%Z).
Proof.
  split.
  - eexists _, _. split_and!; [vm_compute; reflexivity|reflexivity..].
  - eexists _, _, _. split_and!; [vm_compute; reflexivity|reflexivity..].
Qed.

(** C3: the AckInv of the last sharer of a line in SI, through
    [handleFetchResponse]: a PutS, a PutE and a PutM are sent to the
    parent and the handler stops with a fatal error instead of
    returning DONE. *)
Theorem ackInv_in_SI_falls_through hfr :
  ∃ s',
    handleFetchResponse cfg hfr ackInv_C1 false
      (mkEngine [line State.SI ["C1"] EmptyString (Some [Byte.xdd]) 0%Z]
                (shared (mshr [MSHR.mshrEvent getS_C2] 1 false) 10%Z))
    = Abort Fatal s'
    ∧ map (λ r, ev_cmd (resp_event r)) (outgoingEventQueue_ (en_shared s'))
      = [Command.PutS; Command.PutE; Command.PutM].
Proof. eexists. split; [vm_compute; reflexivity|reflexivity]. Qed.
End Concrete.

(** * The theorems at the scenarios *)
Section Witnesses.
Import Scenario.

Lemma invalidation_taken_as_AckPut_witness :
  MSHR.pendingWriteback 64%Z (mshr [] 0 true) = true
  ∧ ∃ s', handleInvalidationRequest unreached unreached unreached unreached unreached
            inv_parent false
            (mkEngine [line State.I [] EmptyString None 0%Z] (shared (mshr [] 0 true) 10%Z))
          = Ret DONE s'.
Proof.
  split; [reflexivity|].
  destruct (invalidation_taken_as_AckPut unreached unreached unreached unreached unreached
              inv_parent false
              (mkEngine [line State.I [] EmptyString None 0%Z] (shared (mshr [] 0 true) 10%Z)))
    as (s' & Hrun & _); [reflexivity|].
  by exists s'.
Defined.

Lemma invalidation_queued_when_mshr_full_witness :
  MSHR.isFull (mshr [MSHR.mshrEvent getS_C0; MSHR.mshrEvent getS_C2;
                     MSHR.mshrEvent getX_C0; MSHR.mshrEvent putS_C0] 0 false) = true
  ∧ ∃ s', handleInvalidationRequest unreached unreached unreached unreached unreached
            inv_parent false
            (mkEngine [line State.S ["C0"] EmptyString None 0%Z]
               (shared (mshr [MSHR.mshrEvent getS_C0; MSHR.mshrEvent getS_C2;
                              MSHR.mshrEvent getX_C0; MSHR.mshrEvent putS_C0] 0 false) 10%Z))
          = Ret STALL s'.
Proof.
  split; [reflexivity|].
  destruct (invalidation_queued_when_mshr_full unreached unreached unreached unreached
              unreached inv_parent false
              (mkEngine [line State.S ["C0"] EmptyString None 0%Z]
                 (shared (mshr [MSHR.mshrEvent getS_C0; MSHR.mshrEvent getS_C2;
                                MSHR.mshrEvent getX_C0; MSHR.mshrEvent putS_C0] 0 false) 10%Z)))
    as (s' & Hrun & _); [reflexivity|reflexivity|].
  by exists s'.
Defined.

Lemma eviction_in_transition_stalls_witness :
  handleEviction cfg "L2" false
    (mkLineState (line State.S_Inv ["C0"] EmptyString None 0%Z) (shared (mshr [] 1 false) 10%Z))
  = Ret STALL
      (mkLineState (line State.S_Inv ["C0"] EmptyString None 0%Z) (shared (mshr [] 1 false) 10%Z)).
Proof.
  apply (eviction_in_transition_stalls cfg "L2" false
           (line State.S_Inv ["C0"] EmptyString None 0%Z) (shared (mshr [] 1 false) 10%Z));
    reflexivity.
Defined.

Lemma nack_put_resent_unless_ack_served_witness :
  isPut (ev_cmd putS_L2) = true
  ∧ ∃ s', handleNACK cfg (mkNACKEvent putS_L2) false
            (mkEngine [line State.I [] EmptyString None 0%Z] (shared (mshr [] 0 true) 10%Z))
          = Ret true s'.
Proof.
  split; [reflexivity|].
  destruct (nack_put_resent_unless_ack_served cfg (mkNACKEvent putS_L2) false
              (mkEngine [line State.I [] EmptyString None 0%Z] (shared (mshr [] 0 true) 10%Z)))
    as (s' & Hrun & _); [reflexivity|].
  by exists s'.
Defined.

Lemma simple_miss_then_hit_witness :
  ∃ s1 s2,
    handleRequest cfg getS_C0 false
      (mkEngine [line State.I [] EmptyString None 0%Z] (shared (mshr [] 0 false) 10%Z))
    = Ret STALL s1
    ∧ handleCacheResponse cfg getSResp false s1 = Ret DONE s2.
Proof.
  destruct (simple_miss_then_hit cfg getS_C0 getSResp false false 0
              (line State.I [] EmptyString None 0%Z) [line State.I [] EmptyString None 0%Z]
              (shared (mshr [] 0 false) 10%Z))
    as (s1 & l1 & fwd & s2 & l2 & r & Hrun1 & _ & _ & _ & _ & _ & _ & _ & Hrun2 & _);
    try reflexivity.
  by exists s1, s2.
Defined.

Lemma replacement_requires_directory_line_witness :
  ∃ s', handleReplacement cfg putS_C0 false (mkEngine [] (shared (mshr [] 0 false) 10%Z))
        = Abort NullLine s'.
Proof.
  apply (replacement_requires_directory_line cfg putS_C0 false
           (mkEngine [] (shared (mshr [] 0 false) 10%Z))).
  reflexivity.
Defined.

Lemma eviction_merges_put_without_AckPut_witness :
  ackPuts (ls_shared (final (handleEviction cfg "L2" false
             (mkLineState (line State.S ["C0"] EmptyString None 0%Z)
                          (shared (mshr [MSHR.mshrEvent putS_C0] 0 false) 10%Z)))))
  = ackPuts (shared (mshr [MSHR.mshrEvent putS_C0] 0 false) 10%Z)
  ∧ (∃ s', handlePutSRequest cfg putS_C0 None
             (mkLineState (line State.S ["C0"] EmptyString None 0%Z)
                          (shared (mshr [] 0 false) 10%Z))
           = Ret DONE s')
  ∧ (∃ s', handlePutMRequest cfg putM_C0 None
             (mkLineState (line State.M [] "C0" None 0%Z) (shared (mshr [] 0 false) 10%Z))
           = Ret DONE s').
Proof.
  destruct (eviction_merges_put_without_AckPut cfg) as (Hmerge & HputS & HputM).
  split_and!.
  - by destruct (Hmerge "L2" false (line State.S ["C0"] EmptyString None 0%Z)
                   (shared (mshr [MSHR.mshrEvent putS_C0] 0 false) 10%Z) putS_C0 []
                   eq_refl eq_refl eq_refl _ eq_refl)
      as (_ & _ & _ & _ & _ & Hack).
  - destruct (HputS putS_C0 None (line State.S ["C0"] EmptyString None 0%Z)
                (shared (mshr [] 0 false) 10%Z) eq_refl eq_refl)
      as (s' & ack & Hrun & _).
    by exists s'.
  - destruct (HputM putM_C0 None (line State.M [] "C0" None 0%Z)
                (shared (mshr [] 0 false) 10%Z) (or_intror eq_refl))
      as (s' & ack & Hrun & _).
    by exists s'.
Defined.
End Witnesses.

(** * Further properties of the handlers *)

(** * The upgrade at the last level, and the miss of a local prefetch *)

Section LastLevelUpgrade.
Variable cfg : Config.
Variable NextState : State → State.

(** C6: at the last level a GetX or GetSX for a line in S that has one
    other sharer is not carried through.  The line goes to M_Inv, the
    other sharer is sent an invalidation, nothing goes to the parent and
    the request answers STALL; but on this path the request is not put
    in the MSHR: the queue of the address stays empty while one
    acknowledgement is awaited.  An AckInv for the address then finds no
    request to complete: [handleFetchResponse] hands [handleAckInv] a
    null request, and the handler stops where it dereferences it,
    instead of making the requestor the owner, answering it and
    returning DONE. *)
Theorem last_level_GetX_upgrade_forgets_request event ack (replay inMSHR : bool) p l x arr sh :
  lastLevel_ cfg = true →
  ev_cmd event = Command.GetX ∨ ev_cmd event = Command.GetSX →
  list_find (λ l, ln_baseAddr l = ev_baseAddr event) arr = Some (p, l) →
  ln_state l = State.S →
  ln_owner l = EmptyString →
  filter (λ y, y ≠ ev_src event) (ln_sharers l) = [x] →
  MSHR.mshrQueue (MSHR.entry (ev_baseAddr event) (mshr_ sh)) = [] →
  MSHR.getAcksNeeded (ev_baseAddr event) (mshr_ sh) = 0%nat →
  ev_cmd ack = Command.AckInv →
  ev_baseAddr ack = ev_baseAddr event →
  ∃ s1 l1 inv s2,
    handleRequest cfg event replay (mkEngine arr sh) = Ret STALL s1
    ∧ cacheArray_ s1 !! p = Some l1
    ∧ ln_state l1 = State.M_Inv
    ∧ ln_owner l1 = EmptyString
    ∧ ln_sharers l1 = ln_sharers l
    ∧ outgoingEventQueue_ (en_shared s1) = outgoingEventQueue_ sh
    ∧ outgoingEventQueueUp_ (en_shared s1) = outgoingEventQueueUp_ sh ++ [inv]
    ∧ ev_dst (resp_event inv) = x
    ∧ isInvalidation inv
    ∧ MSHR.getAcksNeeded (ev_baseAddr event) (mshr_ (en_shared s1)) = 1%nat
    ∧ MSHR.mshrQueue (MSHR.entry (ev_baseAddr event) (mshr_ (en_shared s1))) = []
    ∧ MESIInternalDirectory.handleFetchResponse cfg NextState ack inMSHR s1
      = Abort NullEvent s2.
Proof.
  intros Hlast Hcmd Hfind Hst How Hoth Hq Hacks Hack Haddr.
  pose proof Hfind as (Hp & Hba & _)%list_find_Some.
  pose proof (lookup_lt_Some _ _ _ Hp) as Hlen.
  destruct l as [ba st shs ow dl ts pf sz], sh as [m d u t]. cbn in *. subst st ow ba.
  assert (Hrun1 : ∃ l1 inv m1,
    handleRequest cfg event replay (mkEngine arr (mkShared m d u t))
    = Ret STALL (mkEngine (<[p := l1]> arr) (mkShared m1 d (u ++ [inv]) t))
    ∧ ln_state l1 = State.M_Inv ∧ ln_owner l1 = EmptyString ∧ ln_sharers l1 = shs
    ∧ ln_baseAddr l1 = ev_baseAddr event
    ∧ ev_dst (resp_event inv) = x ∧ isInvalidation inv
    ∧ m1 = MSHR.incrementAcksNeeded (ev_baseAddr event) m).
  { unfold handleRequest, handleGetXRequest, invalidateSharersExceptRequestor, focus,
      readLine.
    munfold. cbn -[filter]. rewrite Hfind. cbn -[filter]. rewrite Hp. cbn -[filter].
    assert (Hdisp : ∀ A (k : M Engine A) (k' : M Engine A),
              match ev_cmd event with
              | Command.GetS => k'
              | Command.GetX | Command.GetSX => k
              | _ => fatal
              end = k) by (by intros; destruct Hcmd as [-> | ->]).
    rewrite Hdisp. cbn -[filter]. rewrite Hp, Hlast. cbn -[filter].
    destruct pf; cbn -[filter].
    all: edestruct (invalidateSharersExceptRequestor_loop_spec cfg shs (ev_src event)
                      (ev_rqstr event)) as (msgs & Hrun & Hdst & Hinv);
      rewrite Hrun; clear Hrun; cbn -[filter] in Hdst |- *.
    all: rewrite Hoth in Hdst.
    all: destruct msgs as [|inv [|? ?]]; try discriminate Hdst.
    all: injection Hdst as Hdst; apply Forall_cons in Hinv as [Hinv _].
    all: cbn; do 3 eexists; split_and!; try reflexivity; done. }
  destruct Hrun1 as (l1 & inv & m1 & Hrun1 & Hst1 & How1 & Hsh1 & Hba1 & Hdst & Hinv & ->).
  destruct l1 as [ba1 st1 shs1 ow1 dl1 ts1 pf1 sz1].
  cbn in Hst1, How1, Hsh1, Hba1. subst st1 ow1 shs1 ba1.
  set (l1 := mkCacheLine (ev_baseAddr event) State.M_Inv shs EmptyString dl1 ts1 pf1 sz1)
    in *.
  assert (Hq1 : MSHR.mshrQueue (MSHR.entry (ev_baseAddr event)
                  (MSHR.incrementAcksNeeded (ev_baseAddr event) m)) = []).
  { by rewrite entry_incrementAcksNeeded, decide_True. }
  assert (Hacks1 : MSHR.getAcksNeeded (ev_baseAddr event)
                     (MSHR.incrementAcksNeeded (ev_baseAddr event) m) = 1%nat).
  { unfold MSHR.getAcksNeeded in *. rewrite entry_incrementAcksNeeded, decide_True by done.
    cbn. by rewrite Hacks. }
  assert (Hrun2 : ∃ s2,
    MESIInternalDirectory.handleFetchResponse cfg NextState ack inMSHR
      (mkEngine (<[p := l1]> arr)
         (mkShared (MSHR.incrementAcksNeeded (ev_baseAddr event) m) d (u ++ [inv]) t))
    = Abort NullEvent s2).
  { unfold MESIInternalDirectory.handleFetchResponse, handleFetchResponse, onLine,
      handleAckInv, focus.
    munfold. cbn. rewrite Haddr.
    rewrite (list_find_insert_same _ _ _ _ l1 Hfind eq_refl). cbn.
    unfold MSHR.exists_. rewrite Hq1. cbn. rewrite Hack. cbn.
    rewrite list_lookup_insert_eq by done. cbn.
    subst l1. unfold ln_isSharer. cbn.
    destruct (set_find (ev_src ack) shs); cbn; rewrite Hacks1; cbn;
      rewrite acks_decrementAcksNeeded, Hacks1; cbn;
      destruct dl1; cbn; eexists; reflexivity. }
  destruct Hrun2 as (s2 & Hrun2).
  eexists _, l1, inv, s2. split; [exact Hrun1|]. cbn.
  split_and!; try done.
  by rewrite list_lookup_insert_eq.
Qed.
End LastLevelUpgrade.

Section Counterexamples2.
Import Scenario Cases.

(** C7 as stated does not hold: for a GetS that is a prefetch of this
    cache itself, the GetSResp leaves the line in S with its prefetch
    mark set, without any sharer, and nothing is sent to the children;
    the handler still answers DONE. *)
Lemma local_prefetch_miss_adds_no_sharer :
  ¬ simple_miss_claim cfg prefetch_L2 getSResp
      (engine (line State.I [] EmptyString None 0%Z) (mshr [] 0 false))
  ∧ ∃ s1 s2 l2,
      handleRequest cfg prefetch_L2 false
        (engine (line State.I [] EmptyString None 0%Z) (mshr [] 0 false))
      = Ret STALL s1
      ∧ handleCacheResponse cfg getSResp false s1 = Ret DONE s2
      ∧ cacheArray_ s2 = [l2]
      ∧ ln_state l2 = State.S
      ∧ ln_sharers l2 = []
      ∧ ln_prefetch l2 = true
      ∧ outgoingEventQueueUp_ (en_shared s2) = [].
Proof.
  split.
  - intros Hclaim.
    destruct (Hclaim 0%nat _ eq_refl eq_refl eq_refl eq_refl eq_refl)
      as (s1 & s2 & l2 & r & H1 & H2 & Hl & _ & Hsh & _).
    vm_compute in H1. injection H1 as <-.
    vm_compute in H2. injection H2 as <-.
    vm_compute in Hl. injection Hl as <-.
    discriminate Hsh.
  - eexists _, _, _. split_and!; [vm_compute; reflexivity|vm_compute; reflexivity|
      reflexivity..].
Qed.
End Counterexamples2.

(** * Senders *)

Lemma acks_iter_incrementAcksNeeded a n m :
  MSHR.getAcksNeeded a (Nat.iter n (MSHR.incrementAcksNeeded a) m)
  = MSHR.getAcksNeeded a m + n.
Proof.
  induction n as [|n IH]; [cbn; lia|]. rewrite Nat.iter_succ.
  unfold MSHR.getAcksNeeded in *. rewrite entry_incrementAcksNeeded, decide_True by done.
  cbn. rewrite IH. lia.
Qed.

Section Senders.
Variable cfg : Config.

Lemma invalidateAllSharers_loop_spec its rq dt b l m d u t :
  invalidateAllSharers_loop cfg its rq dt b (mkLineState l (mkShared m d u t))
  = Ret (b || notNull (head its))
      (mkLineState l
         (mkShared (Nat.iter (length its) (MSHR.incrementAcksNeeded (ln_baseAddr l)) m) d
            (u ++ map (λ it, mkResponse
                         (ev_setRqstr rq (ev_setDst it
                            (newMemEvent (ownerName_ cfg) (ln_baseAddr l) (ln_baseAddr l)
                               Command.Inv)))
                         dt (packetHeaderBytes cfg)) its) t)).
Proof.
  revert b m u. induction its as [|it its IH]; intros b m u.
  - cbn. by rewrite orb_false_r, app_nil_r.
  - cbn [invalidateAllSharers_loop]. munfold. cbn.
    rewrite IH. rewrite orb_true_r. rewrite <- app_assoc. cbn.
    by rewrite Nat.iter_swap.
Qed.

(** X1: [invalidateAllSharers] returns, and sends one [Inv] to each sharer
    of the line, in the order of the set: every one carries the requestor
    it is given and the address of the line, and all are delivered at the
    same time, the later of the time of the manager and of the timestamp
    of the line plus the MSHR latency of a replay or the tag latency.
    Nothing is sent to the parent, one acknowledgement is counted per
    sharer, and the line only has its timestamp moved to the delivery
    time, when there is a sharer. *)
Theorem invalidateAllSharers_one_Inv_per_sharer rq replay l sh :
  ∃ msgs s',
    invalidateAllSharers cfg rq replay (mkLineState l sh) = Ret tt s'
    ∧ outgoingEventQueueUp_ (ls_shared s') = outgoingEventQueueUp_ sh ++ msgs
    ∧ outgoingEventQueue_ (ls_shared s') = outgoingEventQueue_ sh
    ∧ map (λ r, ev_dst (resp_event r)) msgs = ln_sharers l
    ∧ Forall (λ r, ev_cmd (resp_event r) = Command.Inv
                   ∧ ev_rqstr (resp_event r) = rq
                   ∧ ev_baseAddr (resp_event r) = ln_baseAddr l
                   ∧ resp_deliveryTime r
                     = u64_add (u64_max (timestamp_ sh) (ln_timestamp l))
                         (if replay then mshrLatency_ cfg else tagLatency_ cfg)) msgs
    ∧ MSHR.getAcksNeeded (ln_baseAddr l) (mshr_ (ls_shared s'))
      = MSHR.getAcksNeeded (ln_baseAddr l) (mshr_ sh) + length (ln_sharers l)
    ∧ dirLine s'
      = match ln_sharers l with
        | [] => l
        | _ => ln_setTimestamp
                 (u64_add (u64_max (timestamp_ sh) (ln_timestamp l))
                    (if replay then mshrLatency_ cfg else tagLatency_ cfg)) l
        end.
Proof.
  destruct l as [ba st shs ow dl ts pf sz], sh as [m d u t].
  unfold invalidateAllSharers. munfold. cbn.
  rewrite invalidateAllSharers_loop_spec.
  set (msgs := map _ shs).
  assert (Hdst : map (λ r, ev_dst (resp_event r)) msgs = shs).
  { subst msgs. rewrite map_map. cbn. by rewrite map_id. }
  assert (Hall : Forall (λ r, ev_cmd (resp_event r) = Command.Inv
                   ∧ ev_rqstr (resp_event r) = rq
                   ∧ ev_baseAddr (resp_event r) = ba
                   ∧ resp_deliveryTime r
                     = u64_add (u64_max t ts)
                         (if replay then mshrLatency_ cfg else tagLatency_ cfg)) msgs).
  { subst msgs. apply Forall_map. apply Forall_forall. intros x _. cbn.
    split_and!; try reflexivity. by destruct replay. }
  clearbody msgs.
  destruct shs as [|x shs]; cbn -[Nat.iter];
    (eexists msgs, _; split_and!; [reflexivity|reflexivity|reflexivity|done|done| |]);
    cbn -[Nat.iter]; rewrite ?acks_iter_incrementAcksNeeded; try done.
  by destruct replay.
Qed.
End Senders.

Section Senders2.
Variable cfg : Config.

Lemma invalidateAllSharersAndFetch_loop_spec its rq dt f b l m d u t :
  ∃ msgs,
    invalidateAllSharersAndFetch_loop cfg its rq dt f b (mkLineState l (mkShared m d u t))
    = Ret (b || notNull (head its))
        (mkLineState l
           (mkShared (Nat.iter (length its) (MSHR.incrementAcksNeeded (ln_baseAddr l)) m) d
              (u ++ msgs) t))
    ∧ map (λ r, ev_dst (resp_event r)) msgs = its
    ∧ map (λ r, ev_cmd (resp_event r)) msgs
      = match its with
        | [] => []
        | _ :: rest => (if f then Command.Inv else Command.FetchInv)
                       :: map (λ _, Command.Inv) rest
        end
    ∧ Forall (λ r, ev_rqstr (resp_event r) = rq
                   ∧ ev_baseAddr (resp_event r) = ln_baseAddr l
                   ∧ resp_deliveryTime r = dt) msgs.
Proof.
  revert f b m u. induction its as [|it its IH]; intros f b m u.
  - exists []. cbn. rewrite orb_false_r, app_nil_r. by split_and!.
  - cbn [invalidateAllSharersAndFetch_loop]. munfold. cbn.
    edestruct (IH true true) as (msgs & Hrun & Hdst & Hcmd & Hall).
    eexists (_ :: msgs). rewrite Hrun. rewrite orb_true_r.
    split_and!.
    + rewrite <- app_assoc. cbn. by rewrite Nat.iter_swap.
    + cbn. by rewrite Hdst.
    + cbn. rewrite Hcmd. f_equal. destruct its; reflexivity.
    + constructor; [by cbn|done].
Qed.

(** X2: [invalidateAllSharersAndFetch] returns, and sends one message to
    each sharer of the line: a [FetchInv] to the first sharer and an
    [Inv] to every other one, so the data is asked for once. One
    acknowledgement is counted per sharer; the sharers and the state of
    the line are unchanged and nothing is sent to the parent. *)
Theorem invalidateAllSharersAndFetch_fetches_once rq replay l sh :
  ∃ msgs s',
    invalidateAllSharersAndFetch cfg rq replay (mkLineState l sh) = Ret tt s'
    ∧ outgoingEventQueueUp_ (ls_shared s') = outgoingEventQueueUp_ sh ++ msgs
    ∧ outgoingEventQueue_ (ls_shared s') = outgoingEventQueue_ sh
    ∧ map (λ r, ev_dst (resp_event r)) msgs = ln_sharers l
    ∧ map (λ r, ev_cmd (resp_event r)) msgs
      = match ln_sharers l with
        | [] => []
        | _ :: rest => Command.FetchInv :: map (λ _, Command.Inv) rest
        end
    ∧ Forall (λ r, ev_rqstr (resp_event r) = rq
                   ∧ ev_baseAddr (resp_event r) = ln_baseAddr l) msgs
    ∧ MSHR.getAcksNeeded (ln_baseAddr l) (mshr_ (ls_shared s'))
      = MSHR.getAcksNeeded (ln_baseAddr l) (mshr_ sh) + length (ln_sharers l)
    ∧ ln_sharers (dirLine s') = ln_sharers l
    ∧ ln_state (dirLine s') = ln_state l.
Proof.
  destruct l as [ba st shs ow dl ts pf sz], sh as [m d u t].
  unfold invalidateAllSharersAndFetch. munfold. cbn.
  edestruct invalidateAllSharersAndFetch_loop_spec as (msgs & Hrun & Hdst & Hcmd & Hall).
  rewrite Hrun. clear Hrun. cbn in Hdst, Hcmd, Hall.
  destruct shs as [|x shs]; cbn -[Nat.iter];
    (eexists msgs, _; split_and!;
     [reflexivity|reflexivity|reflexivity|done|done| | | |]);
    cbn -[Nat.iter]; rewrite ?acks_iter_incrementAcksNeeded; try done.
  all: eapply Forall_impl; [exact Hall|]; cbn; by intros r (? & ? & ?).
Qed.

(** The requestor is never sent an invalidation. *)
Lemma invalidateSharersExceptRequestor_loop_cmds its rq orq dt nf si l m d u t :
  ∃ msgs,
    invalidateSharersExceptRequestor_loop cfg its rq orq dt nf si
      (mkLineState l (mkShared m d u t))
    = Ret (si || notNull (head msgs))
        (mkLineState l
           (mkShared (Nat.iter (length msgs) (MSHR.incrementAcksNeeded (ln_baseAddr l)) m)
              d (u ++ msgs) t))
    ∧ map (λ r, ev_dst (resp_event r)) msgs = filter (λ x, x ≠ rq) its
    ∧ map (λ r, ev_cmd (resp_event r)) msgs
      = match filter (λ x, x ≠ rq) its with
        | [] => []
        | _ :: rest => (if nf then Command.FetchInv else Command.Inv)
                       :: map (λ _, Command.Inv) rest
        end
    ∧ Forall (λ r, ev_rqstr (resp_event r) = orq
                   ∧ ev_baseAddr (resp_event r) = ln_baseAddr l
                   ∧ resp_deliveryTime r = dt) msgs.
Proof.
  revert nf si m u. induction its as [|it its IH]; intros nf si m u.
  - exists []. cbn. rewrite orb_false_r, app_nil_r. by split_and!.
  - cbn [invalidateSharersExceptRequestor_loop].
    rewrite filter_cons. case_bool_decide as Hit.
    + destruct (IH nf si m u) as (msgs & Hrun & Hdst & Hcmd & Hall).
      exists msgs. rewrite Hrun. rewrite decide_False by (by intros Hne; apply Hne).
      by split_and!.
    + munfold. cbn -[filter].
      edestruct (IH false true) as (msgs & Hrun & Hdst & Hcmd & Hall).
      eexists (_ :: msgs). rewrite decide_True by done. cbn [head notNull].
      rewrite orb_true_r.
      split_and!; [rewrite Hrun| | |].
      * rewrite <- app_assoc. cbn -[filter]. rewrite Nat.iter_swap. reflexivity.
      * cbn -[filter]. by rewrite Hdst.
      * cbn -[filter]. rewrite Hcmd. f_equal. by destruct (filter _ its).
      * constructor; [by cbn|done].
Qed.

(** X3: [invalidateSharersExceptRequestor] never sends a message to the
    requestor: it sends one message to each other sharer, an [Inv],
    except that the first is a [FetchInv] when the line is not cached
    and the requestor is not a sharer. It counts one acknowledgement per
    message, keeps the sharers, and returns whether a message was
    sent. *)
Theorem invalidateSharersExceptRequestor_spares_requestor rq orq replay uncached l sh :
  ∃ msgs s',
    invalidateSharersExceptRequestor cfg rq orq replay uncached (mkLineState l sh)
    = Ret (notNull (head (filter (λ x, x ≠ rq) (ln_sharers l)))) s'
    ∧ outgoingEventQueueUp_ (ls_shared s') = outgoingEventQueueUp_ sh ++ msgs
    ∧ outgoingEventQueue_ (ls_shared s') = outgoingEventQueue_ sh
    ∧ map (λ r, ev_dst (resp_event r)) msgs = filter (λ x, x ≠ rq) (ln_sharers l)
    ∧ Forall (λ r, ev_dst (resp_event r) ≠ rq ∧ ev_rqstr (resp_event r) = orq) msgs
    ∧ map (λ r, ev_cmd (resp_event r)) msgs
      = match filter (λ x, x ≠ rq) (ln_sharers l) with
        | [] => []
        | _ :: rest =>
            (if uncached && negb (ln_isSharer rq l) then Command.FetchInv else Command.Inv)
            :: map (λ _, Command.Inv) rest
        end
    ∧ MSHR.getAcksNeeded (ln_baseAddr l) (mshr_ (ls_shared s'))
      = MSHR.getAcksNeeded (ln_baseAddr l) (mshr_ sh) + length msgs
    ∧ ln_sharers (dirLine s') = ln_sharers l.
Proof.
  destruct l as [ba st shs ow dl ts pf sz], sh as [m d u t].
  unfold invalidateSharersExceptRequestor. munfold. unfold ln_isSharer. cbn -[filter].
  edestruct invalidateSharersExceptRequestor_loop_cmds as (msgs & Hrun & Hdst & Hcmd & Hall).
  rewrite Hrun. clear Hrun. cbn -[filter] in Hdst, Hcmd, Hall |- *.
  assert (Hne : Forall (λ r, ev_dst (resp_event r) ≠ rq ∧ ev_rqstr (resp_event r) = orq) msgs).
  { apply Forall_forall. intros r Hr. split.
    - assert (Hin : ev_dst (resp_event r) ∈ filter (λ x, x ≠ rq) shs).
      { rewrite <- Hdst. by apply (list_elem_of_fmap_2 (λ r, ev_dst (resp_event r))). }
      by apply list_elem_of_filter in Hin as [? _].
    - rewrite Forall_forall in Hall. by destruct (Hall r Hr) as (? & _). }
  assert (Hhd : notNull (head msgs) = notNull (head (filter (λ x, x ≠ rq) shs))).
  { rewrite <- Hdst. by destruct msgs. }
  rewrite <- Hhd.
  destruct msgs as [|msg msgs]; cbn -[filter Nat.iter] in *;
    (eexists _, _; split_and!;
     [reflexivity|reflexivity|reflexivity|exact Hdst|exact Hne|exact Hcmd| |reflexivity]);
    cbn -[filter Nat.iter].
  - cbn. lia.
  - by rewrite acks_iter_incrementAcksNeeded.
Qed.
End Senders2.

Lemma u64_max_max (a b : Z) : u64_max a b = Z.max a b.
Proof. unfold u64_max. destruct (Z.ltb_spec b a); lia. Qed.

Lemma u64_add_small (a b : Z) : (0 ≤ a + b)%Z → (a + b < u64_modulus)%Z → u64_add a b = (a + b)%Z.
Proof. intros H0 Hlt. unfold u64_add. apply Z.mod_small. lia. Qed.

Section Timely.
Variable cfg : Config.

(** X4: As long as the 64-bit time does not overflow, the message that
    [sendFetchInvX], [sendFetch], [sendForceInv], [sendResponseDown] or
    [sendWritebackFromCache] sends is delivered at the later of the time
    of the manager and of the timestamp of the line, plus the latency of
    the sender: never before either of them. The delivery time is the
    new timestamp of the line. *)
Theorem senders_deliver_after_line_timestamp rq (replay : bool) event data dirty cmd l sh :
  (0 ≤ timestamp_ sh)%Z → (0 ≤ ln_timestamp l)%Z →
  (0 ≤ tagLatency_ cfg)%Z → (0 ≤ accessLatency_ cfg)%Z → (0 ≤ mshrLatency_ cfg)%Z →
  (Z.max (timestamp_ sh) (ln_timestamp l)
   + Z.max (tagLatency_ cfg) (Z.max (accessLatency_ cfg) (mshrLatency_ cfg))
   < u64_modulus)%Z →
  let s := mkLineState l sh in
  deliversAfter (if replay then mshrLatency_ cfg else tagLatency_ cfg)
    (sendFetchInvX cfg rq replay) s
  ∧ deliversAfter (tagLatency_ cfg) (sendFetch cfg rq replay) s
  ∧ deliversAfter (if replay then mshrLatency_ cfg else tagLatency_ cfg)
      (sendForceInv cfg rq replay) s
  ∧ deliversAfter (if replay then mshrLatency_ cfg else accessLatency_ cfg)
      (sendResponseDown cfg event data dirty replay) s
  ∧ deliversAfter (accessLatency_ cfg) (sendWritebackFromCache cfg cmd rq) s.
Proof.
  intros Hts Hlts Htag Hacc Hmshr Hbound s. subst s.
  destruct l as [ba st shs ow dl ts pf sz], sh as [m d u t]. cbn in *.
  assert (Hadd : ∀ lat, (0 ≤ lat)%Z →
            (lat ≤ Z.max (tagLatency_ cfg) (Z.max (accessLatency_ cfg) (mshrLatency_ cfg)))%Z →
            u64_add (u64_max t ts) lat = (Z.max t ts + lat)%Z).
  { intros lat H0 Hle. rewrite u64_max_max. apply u64_add_small; lia. }
  assert (Hrep : ∀ a, u64_add (u64_max t ts) (if replay then mshrLatency_ cfg else a)
                      = if replay then u64_add (u64_max t ts) (mshrLatency_ cfg)
                        else u64_add (u64_max t ts) a) by (by destruct replay).
  unfold deliversAfter. split_and!; intros s'.
  - unfold sendFetchInvX. munfold. cbn. intros [= <-]. cbn.
    eexists. split; [right; split; reflexivity|]. cbn.
    rewrite <- Hrep, Hadd by (destruct replay; lia). destruct replay; split_and!; (reflexivity || lia).
  - unfold sendFetch. munfold. cbn. destruct shs as [|x shs]; cbn; [discriminate|].
    intros [= <-]. cbn.
    eexists. split; [right; split; reflexivity|]. cbn.
    rewrite Hadd by lia. split_and!; (reflexivity || lia).
  - unfold sendForceInv. munfold. cbn. intros [= <-]. cbn.
    eexists. split; [right; split; reflexivity|]. cbn.
    rewrite <- Hrep, Hadd by (destruct replay; lia). destruct replay; split_and!; (reflexivity || lia).
  - unfold sendResponseDown. munfold. cbn. destruct data as [dat|]; cbn; [|discriminate].
    intros [= <-]. cbn.
    eexists. split; [left; split; reflexivity|]. cbn.
    rewrite <- Hrep, Hadd by (destruct replay; lia). destruct replay; split_and!; (reflexivity || lia).
  - unfold sendWritebackFromCache. munfold. cbn.
    destruct (Command.eqb cmd Command.PutM || writebackCleanBlocks_ cfg); cbn;
      [destruct dl as [dat|]; cbn; [|discriminate]|];
      intros [= <-]; cbn;
      (eexists; split; [left; split; reflexivity|]); cbn;
      rewrite Hadd by lia; split_and!; (reflexivity || lia).
Qed.

(** X5: [sendFetch] sends a [Fetch] to the first sharer of the line, and
    stops on a line with no sharer, where the source reads [*begin()] of
    an empty set. [sendFetchInv] sends a [FetchInv] to the owner when
    there is one, else to the first sharer, and stops when there is
    neither. *)
Theorem fetch_goes_to_first_sharer rq replay l sh :
  match ln_sharers l with
  | [] => sendFetch cfg rq replay (mkLineState l sh) = Abort NoSharer (mkLineState l sh)
  | x :: _ =>
      ∃ r s', sendFetch cfg rq replay (mkLineState l sh) = Ret tt s'
              ∧ outgoingEventQueueUp_ (ls_shared s') = outgoingEventQueueUp_ sh ++ [r]
              ∧ ev_cmd (resp_event r) = Command.Fetch
              ∧ ev_dst (resp_event r) = x
  end
  ∧ match ln_owner l, ln_sharers l with
    | EmptyString, [] =>
        sendFetchInv cfg rq replay (mkLineState l sh) = Abort NoSharer (mkLineState l sh)
    | EmptyString, x :: _ =>
        ∃ r s', sendFetchInv cfg rq replay (mkLineState l sh) = Ret tt s'
                ∧ outgoingEventQueueUp_ (ls_shared s') = outgoingEventQueueUp_ sh ++ [r]
                ∧ ev_cmd (resp_event r) = Command.FetchInv
                ∧ ev_dst (resp_event r) = x
    | owner, _ =>
        ∃ r s', sendFetchInv cfg rq replay (mkLineState l sh) = Ret tt s'
                ∧ outgoingEventQueueUp_ (ls_shared s') = outgoingEventQueueUp_ sh ++ [r]
                ∧ ev_cmd (resp_event r) = Command.FetchInv
                ∧ ev_dst (resp_event r) = owner
    end.
Proof.
  destruct l as [ba st shs ow dl ts pf sz], sh as [m d u t]. cbn. split.
  - unfold sendFetch. munfold. cbn. destruct shs as [|x shs]; cbn; [done|].
    eexists _, _. by split_and!.
  - unfold sendFetchInv. munfold. cbn. destruct ow as [|c ow]; cbn.
    + destruct shs as [|x shs]; cbn; [done|]. eexists _, _. by split_and!.
    + eexists _, _. by split_and!.
Qed.
End Timely.

(** One step of symbolic execution: a case analysis on the condition of
    a branch, or on a pointer that is read. *)
Ltac mstep :=
  match goal with
  | |- context [ (if ?c then _ else _) _ ] => destruct c eqn:?
  | |- context [ match ?x with Some _ => _ | None => _ end ] => destruct x eqn:?
  end.

Ltac evict_done :=
  cbn; split_and!; try done; intros _; split_and!; auto;
  try solve [intros Hex; first [discriminate Hex
            | unfold MSHR.insertWriteback; by rewrite entry_setEntry, decide_True]];
  try solve [eexists; split_and!; reflexivity].

Section Eviction.
Variable cfg : Config.

Ltac lcbn := cbn -[invalidateAllSharers_loop invalidateAllSharersAndFetch_loop].

(** The loops of the invalidations return. *)
Ltac run_loops :=
  repeat first
    [ rewrite invalidateAllSharers_loop_spec; lcbn
    | match goal with
      | |- context [ invalidateAllSharersAndFetch_loop ?c ?its ?rq ?dt ?f ?b
                       (mkLineState ?l (mkShared ?m ?d ?u ?t)) ] =>
          destruct (invalidateAllSharersAndFetch_loop_spec c its rq dt f b l m d u t)
            as (? & -> & _); lcbn
      end ].

(** The merge of a colliding replacement changes neither the outgoing
    queues nor the marks of pending writebacks, and the state of the line
    only from E to M. *)
Lemma handleEviction_prefix rq fdc l sh :
  ∃ co s1,
    handleEviction cfg rq fdc (mkLineState l sh)
    = handleEviction_switch cfg rq fdc (ln_state l) (ln_baseAddr l)
        (notNull (ln_dataLine l)) co s1
    ∧ outgoingEventQueue_ (ls_shared s1) = outgoingEventQueue_ sh
    ∧ outgoingEventQueueUp_ (ls_shared s1) = outgoingEventQueueUp_ sh
    ∧ timestamp_ (ls_shared s1) = timestamp_ sh
    ∧ ln_baseAddr (dirLine s1) = ln_baseAddr l
    ∧ ln_dataLine (dirLine s1) = ln_dataLine l
    ∧ (ln_state (dirLine s1) = ln_state l
       ∨ (ln_state l = State.E ∧ ln_state (dirLine s1) = State.M)).
Proof.
  destruct l as [ba st shs ow dl ts pf sz], sh as [m d u t]. cbn.
  unfold handleEviction, handleEviction_collision. munfold.
  unfold ln_isSharer, ln_ownerExists. cbn -[isPut handleEviction_switch].
  destruct (MSHR.isHit ba m); cbn -[isPut handleEviction_switch];
    [destruct (MSHR.lookupFront ba m) as [w|]; cbn -[isPut handleEviction_switch];
     [destruct (isPut (ev_cmd w)); cbn -[handleEviction_switch];
      [destruct (State.eqb st State.E && ev_dirty w) eqn:HE; cbn -[handleEviction_switch];
       (destruct (set_find (ev_src w) shs); cbn -[handleEviction_switch];
        [|destruct (negb (ow =? EmptyString))%string; cbn -[handleEviction_switch]])|]|]|].
  all: eexists _, _; split; [reflexivity|]; cbn; split_and!; try reflexivity; auto.
  all: right; apply andb_true_iff in HE as [HE _]; by destruct st.
Qed.

Lemma handleEviction_switch_done rq st ba ic co l sh s' :
  handleEviction_switch cfg rq false st ba ic co (mkLineState l sh) = Ret DONE s' →
  ln_baseAddr l = ba →
  ln_state (dirLine s') = (if State.eqb st State.I then ln_state l else State.I)
  ∧ outgoingEventQueueUp_ (ls_shared s') = outgoingEventQueueUp_ sh
  ∧ (st = State.I → outgoingEventQueue_ (ls_shared s') = outgoingEventQueue_ sh)
  ∧ (st ≠ State.I →
     ln_sharers (dirLine s') = []
     ∧ (st = State.S ∨ ln_owner (dirLine s') = EmptyString)
     ∧ (expectWritebackAck_ cfg = true →
        MSHR.pendingWriteback ba (mshr_ (ls_shared s')) = true)
     ∧ ∃ wb,
         outgoingEventQueue_ (ls_shared s') = outgoingEventQueue_ sh ++ [wb]
         ∧ ev_cmd (resp_event wb)
           = match st with
             | State.S => Command.PutS
             | State.E => Command.PutE
             | _ => Command.PutM
             end
         ∧ ev_baseAddr (resp_event wb) = ba
         ∧ ev_dst (resp_event wb) = getDestination cfg ba
         ∧ ev_rqstr (resp_event wb) = rq).
Proof.
  destruct l as [ba' st' shs ow dl ts pf sz], sh as [m d u t]. cbn.
  intros Hrun <-. revert Hrun.
  unfold handleEviction_switch, sendWritebackFromCache, sendWritebackFromMSHR,
    invalidateAllSharers, invalidateAllSharersAndFetch, sendFetchInv.
  munfold. unfold ln_ownerExists, ln_numSharers, MSHR.pendingWriteback.
  destruct st; cbn; try discriminate.
  - intros [= <-]. cbn. by split_and!.
  - destruct shs as [|x shs]; lcbn;
      repeat (mstep; lcbn; run_loops); try discriminate; intros [= <-]; evict_done.
  - destruct shs as [|x shs], ow as [|c ow]; lcbn;
      repeat (mstep; lcbn; run_loops); try discriminate; intros [= <-]; evict_done.
  - destruct shs as [|x shs], ow as [|c ow]; lcbn;
      repeat (mstep; lcbn; run_loops); try discriminate; intros [= <-]; evict_done.
Qed.

(** What an eviction that answers [DONE] has done. *)
Lemma handleEviction_done rq l sh s' :
  handleEviction cfg rq false (mkLineState l sh) = Ret DONE s' →
  ln_state (dirLine s') = State.I
  ∧ outgoingEventQueueUp_ (ls_shared s') = outgoingEventQueueUp_ sh
  ∧ (ln_state l = State.I →
     outgoingEventQueue_ (ls_shared s') = outgoingEventQueue_ sh)
  ∧ (ln_state l ≠ State.I →
     ln_sharers (dirLine s') = []
     ∧ (ln_state l = State.S ∨ ln_owner (dirLine s') = EmptyString)
     ∧ (expectWritebackAck_ cfg = true →
        MSHR.pendingWriteback (ln_baseAddr l) (mshr_ (ls_shared s')) = true)
     ∧ ∃ wb,
         outgoingEventQueue_ (ls_shared s') = outgoingEventQueue_ sh ++ [wb]
         ∧ ev_cmd (resp_event wb)
           = match ln_state l with
             | State.S => Command.PutS
             | State.E => Command.PutE
             | _ => Command.PutM
             end
         ∧ ev_baseAddr (resp_event wb) = ln_baseAddr l
         ∧ ev_dst (resp_event wb) = getDestination cfg (ln_baseAddr l)
         ∧ ev_rqstr (resp_event wb) = rq).
Proof.
  intros Hrun.
  destruct (handleEviction_prefix rq false l sh)
    as (co & [l1 sh1] & Heq & Hd & Hu & Ht & Hba & Hdl & Hst).
  rewrite Heq in Hrun. cbn in *.
  apply handleEviction_switch_done in Hrun as (Hst' & Hu' & HI & HnI); [|done].
  rewrite Hu', Hu, <- Hd. split_and!; try done.
  destruct (State.eqb (ln_state l) State.I) eqn:HeqI; [|done].
  destruct Hst as [Hst | [HE _]]; [|by rewrite HE in HeqI].
  rewrite Hst', Hst. by destruct (ln_state l).
Qed.
(** X6: When the eviction of a directory line answers [DONE], the line is
    in state [I] and nothing was sent to the children. If the line was
    not in [I] before, exactly one writeback for its address was sent to
    the parent, a [PutS], [PutE] or [PutM] by the state the line had, in
    the name of the requestor; the line has no sharer left; and the
    address is marked as waiting for the acknowledgement of a writeback
    when acknowledgements are expected. *)
Theorem directory_eviction_done_leaves_line_invalid rq l sh s' :
  handleEviction cfg rq false (mkLineState l sh) = Ret DONE s' →
  ln_state (dirLine s') = State.I
  ∧ outgoingEventQueueUp_ (ls_shared s') = outgoingEventQueueUp_ sh
  ∧ (ln_state l = State.I →
     outgoingEventQueue_ (ls_shared s') = outgoingEventQueue_ sh)
  ∧ (ln_state l ≠ State.I →
     ln_sharers (dirLine s') = []
     ∧ (ln_state l = State.S ∨ ln_owner (dirLine s') = EmptyString)
     ∧ (expectWritebackAck_ cfg = true →
        MSHR.pendingWriteback (ln_baseAddr l) (mshr_ (ls_shared s')) = true)
     ∧ ∃ wb,
         outgoingEventQueue_ (ls_shared s') = outgoingEventQueue_ sh ++ [wb]
         ∧ ev_cmd (resp_event wb)
           = match ln_state l with
             | State.S => Command.PutS
             | State.E => Command.PutE
             | _ => Command.PutM
             end
         ∧ ev_baseAddr (resp_event wb) = ln_baseAddr l
         ∧ ev_dst (resp_event wb) = getDestination cfg (ln_baseAddr l)
         ∧ ev_rqstr (resp_event wb) = rq).
Proof. apply handleEviction_done. Qed.
End Eviction.

Section Requests.
Variable cfg : Config.

(** X7: A request for a line that is in transition answers [STALL]: the
    request is queued at the tail of the MSHR queue of its address, the
    MSHR grows by one, and neither the cache array nor the outgoing
    queues change. *)
Theorem request_for_line_in_transition_waits event replay p l s :
  list_find (λ l, ln_baseAddr l = ev_baseAddr event) (cacheArray_ s) = Some (p, l) →
  ln_inTransition l = true →
  ∃ s',
    handleRequest cfg event replay s = Ret STALL s'
    ∧ cacheArray_ s' = cacheArray_ s
    ∧ MSHR.mshrQueue (MSHR.entry (ev_baseAddr event) (mshr_ (en_shared s')))
      = MSHR.mshrQueue (MSHR.entry (ev_baseAddr event) (mshr_ (en_shared s)))
        ++ [MSHR.mshrEvent event]
    ∧ MSHR.size_ (mshr_ (en_shared s')) = S (MSHR.size_ (mshr_ (en_shared s)))
    ∧ outgoingEventQueue_ (en_shared s') = outgoingEventQueue_ (en_shared s)
    ∧ outgoingEventQueueUp_ (en_shared s') = outgoingEventQueueUp_ (en_shared s).
Proof.
  intros Hfind Htr. pose proof Hfind as (Hp & _)%list_find_Some.
  destruct s as [arr [m d u t]]. cbn in *.
  unfold handleRequest, readLine. munfold. cbn. rewrite Hfind. cbn. rewrite Hp. cbn.
  rewrite Htr. cbn. eexists. split; [reflexivity|]. cbn.
  unfold MSHR.insert. rewrite entry_setSize, entry_setEntry, decide_True by done.
  by split_and!.
Qed.

(** X8: A write miss and its data: a [GetX] or [GetSX] for a line in [I],
    with nothing queued at the address, answers [STALL], forwards the
    request to the parent, leaves the line in [IM] and the request at
    the head of the MSHR queue. The [GetXResp] that follows answers
    [DONE]: the line is in [M], owned by the requestor, who is no
    sharer; the requestor is sent a [GetXResp] with the data of the
    response, and the MSHR queue of the address is empty again. *)
Theorem write_miss_then_data event resp replay inMSHR p l arr sh :
  ev_cmd event = Command.GetX ∨ ev_cmd event = Command.GetSX →
  list_find (λ l, ln_baseAddr l = ev_baseAddr event) arr = Some (p, l) →
  ln_state l = State.I →
  MSHR.mshrQueue (MSHR.entry (ev_baseAddr event) (mshr_ sh)) = [] →
  ev_cmd resp = Command.GetXResp →
  ev_baseAddr resp = ev_baseAddr event →
  ∃ s1 l1 fwd s2 l2 r,
    handleRequest cfg event replay (mkEngine arr sh) = Ret STALL s1
    ∧ cacheArray_ s1 !! p = Some l1
    ∧ ln_state l1 = State.IM
    ∧ outgoingEventQueue_ (en_shared s1) = outgoingEventQueue_ sh ++ [fwd]
    ∧ outgoingEventQueueUp_ (en_shared s1) = outgoingEventQueueUp_ sh
    ∧ ev_cmd (resp_event fwd) = ev_cmd event
    ∧ ev_dst (resp_event fwd) = getDestination cfg (ev_baseAddr event)
    ∧ ev_payload (resp_event fwd) = ev_payload event
    ∧ MSHR.lookupFront (ev_baseAddr event) (mshr_ (en_shared s1)) = Some event
    ∧ handleCacheResponse cfg resp inMSHR s1 = Ret DONE s2
    ∧ cacheArray_ s2 !! p = Some l2
    ∧ ln_state l2 = State.M
    ∧ ln_owner l2 = ev_src event
    ∧ (ev_src event ∉ ln_sharers l2)
    ∧ outgoingEventQueue_ (en_shared s2) = outgoingEventQueue_ (en_shared s1)
    ∧ outgoingEventQueueUp_ (en_shared s2) = outgoingEventQueueUp_ sh ++ [r]
    ∧ ev_cmd (resp_event r) = Command.GetXResp
    ∧ ev_dst (resp_event r) = ev_src event
    ∧ ev_payload (resp_event r) = ev_payload resp
    ∧ MSHR.mshrQueue (MSHR.entry (ev_baseAddr event) (mshr_ (en_shared s2))) = [].
Proof.
  intros Hcmd Hfind Hst Hq Hrcmd Hraddr.
  pose proof Hfind as (Hp & Hba & _)%list_find_Some.
  pose proof (lookup_lt_Some _ _ _ Hp) as Hlen.
  destruct l as [ba st shs ow dl ts pf sz], sh as [m d u t]. cbn in *. subst st ba.
  set (fwd := mkResponse
                (ev_setPayload (ev_payload event)
                   (ev_setSize (lineSize_ cfg)
                      (ev_setDst (getDestination cfg (ev_baseAddr event))
                         (ev_setSrc (ownerName_ cfg) event))))
                (u64_add (u64_max t 0) (tagLatency_ cfg))
                (packetHeaderBytes cfg + ev_getPayloadSize event)).
  set (l1 := mkCacheLine (ev_baseAddr event) State.IM shs ow dl
               (u64_add (u64_max t 0) (tagLatency_ cfg)) pf sz).
  set (s1 := mkEngine (<[p := l1]> arr)
               (mkShared (MSHR.insert (ev_baseAddr event) event m) (d ++ [fwd]) u t)).
  assert (Hrun1 : handleRequest cfg event replay (mkEngine arr (mkShared m d u t))
                  = Ret STALL s1).
  { unfold handleRequest, handleGetXRequest, focus, readLine, forwardMessage.
    munfold. cbn. rewrite Hfind. cbn. rewrite Hp. cbn.
    destruct Hcmd as [-> | ->]; cbn; rewrite Hp; cbn; reflexivity. }
  assert (Hrun2 : ∃ s2 l2 r, handleCacheResponse cfg resp inMSHR s1 = Ret DONE s2
       ∧ cacheArray_ s2 !! p = Some l2
       ∧ ln_state l2 = State.M
       ∧ ln_owner l2 = ev_src event
       ∧ (ev_src event ∉ ln_sharers l2)
       ∧ outgoingEventQueue_ (en_shared s2) = d ++ [fwd]
       ∧ outgoingEventQueueUp_ (en_shared s2) = u ++ [r]
       ∧ ev_cmd (resp_event r) = Command.GetXResp
       ∧ ev_dst (resp_event r) = ev_src event
       ∧ ev_payload (resp_event r) = ev_payload resp
       ∧ MSHR.mshrQueue (MSHR.entry (ev_baseAddr event) (mshr_ (en_shared s2))) = []).
  { assert (Hsrc : ∀ shs', ev_src event ∉
                     (if set_find (ev_src event) shs' then set_erase (ev_src event) shs'
                      else shs')).
    { intros shs'. destruct (set_find (ev_src event) shs') eqn:Hf;
        [apply set_erase_not_elem|by apply bool_decide_eq_false in Hf]. }
    subst s1 l1. unfold handleCacheResponse, handleDataResponse, focus, sendResponseUp,
      sendResponseUpCmd.
    munfold. unfold ln_isSharer. cbn. rewrite Hraddr.
    rewrite (list_find_insert_same _ _ _ _ _ Hfind) by done. cbn.
    rewrite lookupFront_insert_empty by done. rewrite Hrcmd. cbn.
    rewrite list_lookup_insert_eq by done. cbn.
    destruct dl as [dat|]; cbn;
      (destruct (set_find (ev_src event) shs) eqn:Hf; cbn);
      rewrite ?list_insert_insert_eq;
      (eexists _, _, _; split; [reflexivity|]); cbn;
      rewrite list_lookup_insert_eq by (by rewrite ?length_insert);
      (split_and!; try reflexivity; cbn);
      try (specialize (Hsrc shs); by rewrite Hf in Hsrc);
      try (by destruct Hcmd as [-> | ->]).
    all: unfold MSHR.removeFront, MSHR.modifyFront, MSHR.insert; cbn;
      rewrite ?entry_setSize, ?entry_setEntry, ?decide_True by done; cbn;
      rewrite ?Hq; cbn;
      rewrite ?entry_setSize, ?entry_setEntry, ?decide_True by done; cbn;
      rewrite ?entry_setSize, ?entry_setEntry, ?decide_True by done; done. }
  destruct Hrun2 as (s2 & l2 & r & Hrun2 & Hl2 & Hst2 & How & Hsh2 & Hdown & Hup & Hr1 & Hr2
                     & Hr3 & Hq2).
  exists s1, l1, fwd, s2, l2, r.
  split_and!; try done.
  - subst s1. cbn. by apply list_lookup_insert_eq.
  - subst s1. cbn. by apply lookupFront_insert_empty.
Qed.
End Requests.

Section Requests2.
Variable cfg : Config.

(** X9: A [GetS], not a prefetch of this cache, for a line in [S] that
    holds its data answers [DONE] at once: the requestor joins the
    sharers, the state, owner and data stay, the prefetch mark is
    cleared, the requestor is sent a [GetSResp] with the data of the
    line, the timestamp of the line is the delivery time of that
    response, and nothing goes to the parent or into the MSHR. *)
Theorem read_hit_on_shared_line event replay p l arr sh dat :
  ev_cmd event = Command.GetS →
  ev_prefetch event && bool_decide (ev_rqstr event = ownerName_ cfg) = false →
  list_find (λ l, ln_baseAddr l = ev_baseAddr event) arr = Some (p, l) →
  ln_state l = State.S →
  ln_dataLine l = Some dat →
  ∃ s' l' r,
    handleRequest cfg event replay (mkEngine arr sh) = Ret DONE s'
    ∧ cacheArray_ s' = <[p := l']> arr
    ∧ ln_state l' = State.S
    ∧ ln_sharers l' = set_insert (ev_src event) (ln_sharers l)
    ∧ ln_owner l' = ln_owner l
    ∧ ln_dataLine l' = Some dat
    ∧ ln_prefetch l' = false
    ∧ mshr_ (en_shared s') = mshr_ sh
    ∧ outgoingEventQueue_ (en_shared s') = outgoingEventQueue_ sh
    ∧ outgoingEventQueueUp_ (en_shared s') = outgoingEventQueueUp_ sh ++ [r]
    ∧ ev_cmd (resp_event r) = Command.GetSResp
    ∧ ev_dst (resp_event r) = ev_src event
    ∧ ev_payload (resp_event r) = dat
    ∧ ln_timestamp l' = resp_deliveryTime r.
Proof.
  intros Hcmd Hpf Hfind Hst Hdl.
  pose proof Hfind as (Hp & Hba & _)%list_find_Some.
  destruct l as [ba st shs ow dl ts pf sz], sh as [m d u t]. cbn in *. subst st ba dl.
  unfold handleRequest, handleGetSRequest, handleGetSRequest_switch, focus, readLine,
    sendResponseUp, sendResponseUpCmd.
  munfold. cbn. rewrite Hfind. cbn. rewrite Hp. cbn. rewrite Hcmd. cbn.
  rewrite Hp. cbn. rewrite Hpf. cbn. rewrite Hp. cbn.
  destruct pf; cbn; (eexists _, _, _; split; [reflexivity|]); cbn;
    split_and!; try reflexivity; cbn; rewrite ?Hcmd; reflexivity.
Qed.

(** X10: The NACK of a [GetS], [GetX] or [GetSX] always has the request
    sent again, whatever the state of the line and even when the array
    holds no line of the address: the handler returns, the same event is
    queued once more, and the cache array and the MSHR are unchanged. *)
Theorem nacked_request_is_sent_again ev inMSHR s :
  ev_cmd (getNACKedEvent ev) = Command.GetS
  ∨ ev_cmd (getNACKedEvent ev) = Command.GetX
  ∨ ev_cmd (getNACKedEvent ev) = Command.GetSX →
  ∃ s',
    handleNACK cfg ev inMSHR s = Ret true s'
    ∧ resent (getNACKedEvent ev) s s'
    ∧ cacheArray_ s' = cacheArray_ s
    ∧ mshr_ (en_shared s') = mshr_ (en_shared s).
Proof.
  intros Hcmd. destruct ev as [e], s as [arr [m d u t]]. cbn in *.
  unfold handleNACK, resendEvent, readLine, resent. munfold. cbn.
  destruct (list_find _ arr) as [[p l]|] eqn:Hfind; cbn;
    [pose proof Hfind as (Hp & _)%list_find_Some; rewrite Hp; cbn|].
  all: destruct Hcmd as [-> | [-> | ->]]; cbn.
  all: destruct (ev_fromHighNetNACK e); cbn.
  all: eexists; split_and!; try reflexivity.
  all: eexists (mkResponse e _ _); split; [reflexivity|]; cbn;
    first [left; reflexivity | right; reflexivity].
Qed.

(** X11: The NACK of an [Inv], [Fetch], [FetchInv] or [FetchInvX] has the
    invalidation sent again exactly when the line of the address is in
    the array, not in [I], and the child the invalidation went to still
    holds the block (as a sharer for [Inv] and [Fetch], as the owner for
    [FetchInvX], as either for [FetchInv]). Otherwise the NACK is
    dropped and nothing changes. The handler returns in both cases. *)
Theorem nacked_invalidation_retried_while_target_holds ev inMSHR s :
  ev_cmd (getNACKedEvent ev) = Command.Inv
  ∨ ev_cmd (getNACKedEvent ev) = Command.Fetch
  ∨ ev_cmd (getNACKedEvent ev) = Command.FetchInv
  ∨ ev_cmd (getNACKedEvent ev) = Command.FetchInvX →
  ∃ s',
    handleNACK cfg ev inMSHR s = Ret true s'
    ∧ cacheArray_ s' = cacheArray_ s
    ∧ mshr_ (en_shared s') = mshr_ (en_shared s)
    ∧ (resent (getNACKedEvent ev) s s'
       ↔ ∃ p l,
           list_find (λ l, ln_baseAddr l = ev_baseAddr (getNACKedEvent ev)) (cacheArray_ s)
           = Some (p, l)
           ∧ stillHolds (ev_cmd (getNACKedEvent ev)) l (ev_dst (getNACKedEvent ev)))
    ∧ (¬ resent (getNACKedEvent ev) s s' → s' = s).
Proof.
  intros Hcmd. destruct ev as [e], s as [arr [m d u t]]. cbn in *.
  unfold handleNACK, resendEvent, readLine. munfold. unfold ln_isSharer, set_find. cbn.
  destruct (list_find _ arr) as [[p l]|] eqn:Hfind; cbn;
    [pose proof Hfind as (Hp & _)%list_find_Some; rewrite Hp; cbn|].
  2: { destruct Hcmd as [-> | [-> | [-> | ->]]]; cbn;
       (eexists; split_and!; try reflexivity;
        [split; [intros Hre; by apply not_resent_same in Hre
                |by intros (? & ? & [=] & _)]]). }
  assert (Hyes : ∀ s1, (∃ r, resp_event r = e
              ∧ (outgoingEventQueue_ (en_shared s1) = d ++ [r]
                 ∨ outgoingEventQueueUp_ (en_shared s1) = u ++ [r])) →
              resent e (mkEngine arr (mkShared m d u t)) s1) by (intros s1 Hr; exact Hr).
  destruct Hcmd as [-> | [-> | [-> | ->]]]; cbn.
  all: unfold stillHolds.
  all: destruct (State.eqb (ln_state l) State.I) eqn:HI; cbn;
    [assert (HisI : ln_state l = State.I) by (by destruct (ln_state l))
    |assert (HnI : ln_state l ≠ State.I) by (intros HI'; by rewrite HI' in HI)].
  all: repeat case_bool_decide; cbn.
  all: try destruct (ev_fromHighNetNACK e); cbn.
  all: eexists; split_and!; try reflexivity.
  all: try (split;
            [intros Hre; by apply not_resent_same in Hre
            |intros (p' & l' & [= <- <-] & Hst & Hhold); intuition congruence]).
  all: try (intros Hn; exfalso; apply Hn; apply Hyes; eexists; split;
            [|first [left; reflexivity|right; reflexivity]]; reflexivity).
  all: split; [intros _; exists p, l; intuition congruence|intros _].
  all: apply Hyes; eexists; split;
    [|first [left; reflexivity|right; reflexivity]]; reflexivity.
Qed.
End Requests2.

Section Responses.
Variable cfg : Config.
Variable NextState : State → State.

(** X12: The mark of a pending writeback makes a round trip: after the
    eviction of a line that was not in [I] answered [DONE], with
    acknowledgements of writebacks expected, the address is marked; the
    [AckPut] for the address then answers [DONE] and removes the mark,
    and changes neither the cache array nor the outgoing queues. *)
Theorem writeback_marker_round_trip rq p l arr sh s1 ack inMSHR :
  arr !! p = Some l →
  ln_state l ≠ State.I →
  expectWritebackAck_ cfg = true →
  focus p (handleEviction cfg rq false) (mkEngine arr sh) = Ret DONE s1 →
  ev_cmd ack = Command.AckPut →
  ev_baseAddr ack = ln_baseAddr l →
  MSHR.pendingWriteback (ln_baseAddr l) (mshr_ (en_shared s1)) = true
  ∧ ∃ s2,
      MESIInternalDirectory.handleFetchResponse cfg NextState ack inMSHR s1 = Ret DONE s2
      ∧ MSHR.pendingWriteback (ln_baseAddr l) (mshr_ (en_shared s2)) = false
      ∧ cacheArray_ s2 = cacheArray_ s1
      ∧ outgoingEventQueue_ (en_shared s2) = outgoingEventQueue_ (en_shared s1)
      ∧ outgoingEventQueueUp_ (en_shared s2) = outgoingEventQueueUp_ (en_shared s1).
Proof.
  intros Hp HnI Hexp Hrun Hcmd Hba.
  unfold focus in Hrun. cbn [cacheArray_ en_shared] in Hrun. rewrite Hp in Hrun.
  destruct (handleEviction cfg rq false (mkLineState l sh)) as [a s'|f s'] eqn:Hev;
    [|discriminate Hrun]. injection Hrun as -> <-.
  apply handleEviction_done in Hev as (_ & _ & _ & Hev).
  destruct (Hev HnI) as (_ & _ & Hpw & _). specialize (Hpw Hexp).
  split; [exact Hpw|]. destruct s' as [l' [m d u t]]. cbn in *.
  unfold MESIInternalDirectory.handleFetchResponse, handleFetchResponse. munfold. cbn.
  rewrite Hcmd. cbn.
  destruct (MSHR.exists_ (ev_baseAddr ack) m); cbn;
    (destruct (MSHR.lookupFront (ev_baseAddr ack) m); cbn);
    (eexists; split_and!; try reflexivity); cbn; rewrite Hba;
    unfold MSHR.pendingWriteback, MSHR.removeFront, MSHR.removeWriteback;
    rewrite ?entry_setEntry, ?decide_True by done; cbn; try done.
  destruct (MSHR.mshrQueue _); cbn;
    rewrite ?entry_setSize, ?entry_setEntry, ?decide_True by done; cbn;
    by rewrite ?entry_setEntry, ?decide_True by done.
Qed.

(** X13: An [AckInv] that is not the last one awaited, for a line in
    [S_Inv], [E_Inv], [M_Inv], [SM_Inv] or [SB_Inv] that holds its data
    or has a request waiting, answers [IGNORE]: its sender leaves the
    sharers, the count of acknowledgements goes down by one, and nothing
    else changes; no message is sent. *)
Theorem ackInv_with_acks_outstanding ack req l sh :
  ln_state l = State.S_Inv ∨ ln_state l = State.E_Inv ∨ ln_state l = State.M_Inv
  ∨ ln_state l = State.SM_Inv ∨ ln_state l = State.SB_Inv →
  (2 ≤ MSHR.getAcksNeeded (ev_baseAddr ack) (mshr_ sh))%nat →
  notNull (ln_dataLine l) || notNull req = true →
  handleAckInv cfg ack req (mkLineState l sh)
  = Ret IGNORE
      (mkLineState (ln_setSharers (set_erase (ev_src ack) (ln_sharers l)) l)
         (sh_setMshr (MSHR.decrementAcksNeeded (ev_baseAddr ack) (mshr_ sh)) sh)).
Proof.
  intros Hst Hacks Hreq.
  destruct l as [ba st shs ow dl ts pf sz], sh as [m d u t]. cbn in *.
  unfold handleAckInv. munfold. unfold ln_isSharer. cbn.
  assert (Hsh : (if set_find (ev_src ack) shs then set_erase (ev_src ack) shs else shs)
                = set_erase (ev_src ack) shs).
  { destruct (set_find (ev_src ack) shs) eqn:Hf; [done|].
    symmetry. apply set_erase_notin. by apply bool_decide_eq_false in Hf. }
  destruct (MSHR.getAcksNeeded (ev_baseAddr ack) m) as [|[|n]] eqn:Hn; [lia|lia|].
  destruct (set_find (ev_src ack) shs); cbn; rewrite Hn; cbn;
    rewrite acks_decrementAcksNeeded, Hn; cbn;
    rewrite <- ?Hsh;
    (destruct dl as [dat|]; cbn; [|destruct req as [rq|]; [cbn|discriminate Hreq]]).
  all: destruct Hst as [-> | [-> | [-> | [-> | ->]]]]; cbn.
  all: try reflexivity.
  all: unfold ln_setSharers; cbn; fold (set_erase (ev_src ack) shs);
    by rewrite <- Hsh.
Qed.

(** X14: The last [AckInv] awaited for a line in [S_Inv], when the request
    that waits is not a [FetchInv], answers [DONE]: the line goes to
    [I], the sender leaves the sharers, no acknowledgement is awaited
    any more, and one [AckInv] for the address of the waiting request is
    sent to the parent, one tag latency after the current time. *)
Theorem last_ackInv_acknowledges_parent ack req l sh :
  ln_state l = State.S_Inv →
  (MSHR.getAcksNeeded (ev_baseAddr ack) (mshr_ sh) ≤ 1)%nat →
  ev_cmd req ≠ Command.FetchInv →
  ∃ s' r,
    handleAckInv cfg ack (Some req) (mkLineState l sh) = Ret DONE s'
    ∧ ln_state (dirLine s') = State.I
    ∧ ln_sharers (dirLine s') = set_erase (ev_src ack) (ln_sharers l)
    ∧ MSHR.getAcksNeeded (ev_baseAddr ack) (mshr_ (ls_shared s')) = 0
    ∧ outgoingEventQueueUp_ (ls_shared s') = outgoingEventQueueUp_ sh
    ∧ outgoingEventQueue_ (ls_shared s') = outgoingEventQueue_ sh ++ [r]
    ∧ ev_cmd (resp_event r) = Command.AckInv
    ∧ ev_dst (resp_event r) = getDestination cfg (ev_baseAddr req)
    ∧ ev_baseAddr (resp_event r) = ev_baseAddr req
    ∧ resp_deliveryTime r = u64_add (timestamp_ sh) (tagLatency_ cfg).
Proof.
  intros Hst Hacks Hcmd.
  destruct l as [ba st shs ow dl ts pf sz], sh as [m d u t]. cbn in *. subst st.
  unfold handleAckInv, sendAckInv. munfold. unfold ln_isSharer. cbn.
  assert (Hsh : (if set_find (ev_src ack) shs then set_erase (ev_src ack) shs else shs)
                = set_erase (ev_src ack) shs).
  { destruct (set_find (ev_src ack) shs) eqn:Hf; [done|].
    symmetry. apply set_erase_notin. by apply bool_decide_eq_false in Hf. }
  assert (HFI : Command.eqb (ev_cmd req) Command.FetchInv = false).
  { by destruct (ev_cmd req). }
  destruct (MSHR.getAcksNeeded (ev_baseAddr ack) m) as [|[|n]] eqn:Hn; [| |lia].
  all: destruct (set_find (ev_src ack) shs); cbn; rewrite Hn; cbn;
    rewrite ?acks_decrementAcksNeeded, ?Hn; cbn;
    rewrite <- ?Hsh;
    (destruct dl as [dat|]; cbn); rewrite HFI; cbn;
    (eexists _, _; split_and!; try reflexivity); cbn;
    rewrite ?acks_decrementAcksNeeded, ?Hn; done.
Qed.

(** X15: The last fetch response awaited for a line that is being evicted.
    From [EI] and [MI] it answers [DONE] whatever waits in the MSHR: the
    line goes to [I], the sender is no sharer, and exactly one writeback
    goes to the parent in the name of this cache, a [PutM] from [MI]
    and, from [EI], a [PutM] if the response is dirty, else a [PutE].
    From [SI] it does the same with a [PutS] in the name of the requestor
    of the request that waits, when one waits; with none, as after an
    eviction, which leaves only a pointer in the queue, the handler stops
    on the dereference of the null request and sends nothing. The
    writeback is dirty exactly when it is a [PutM], carries the data of
    the response when it is a [PutM] or clean blocks are written back,
    and the address is marked as waiting for its acknowledgement when
    one is expected. *)
Theorem fetchResp_ends_eviction_with_one_writeback resp reqEvent l sh :
  ln_state l = State.SI ∨ ln_state l = State.EI ∨ ln_state l = State.MI →
  (MSHR.getAcksNeeded (ev_baseAddr resp) (mshr_ sh) ≤ 1)%nat →
  if State.eqb (ln_state l) State.SI && negb (notNull reqEvent)
  then
    ∃ s',
      handleFetchResp cfg NextState resp reqEvent (mkLineState l sh) = Abort NullEvent s'
      ∧ outgoingEventQueue_ (ls_shared s') = outgoingEventQueue_ sh
      ∧ outgoingEventQueueUp_ (ls_shared s') = outgoingEventQueueUp_ sh
  else
    ∃ s' wb,
      handleFetchResp cfg NextState resp reqEvent (mkLineState l sh) = Ret DONE s'
      ∧ ln_state (dirLine s') = State.I
      ∧ (ev_src resp ∉ ln_sharers (dirLine s'))
      ∧ outgoingEventQueueUp_ (ls_shared s') = outgoingEventQueueUp_ sh
      ∧ outgoingEventQueue_ (ls_shared s') = outgoingEventQueue_ sh ++ [wb]
      ∧ ev_cmd (resp_event wb)
        = match ln_state l with
          | State.SI => Command.PutS
          | State.EI => if ev_dirty resp then Command.PutM else Command.PutE
          | _ => Command.PutM
          end
      ∧ ev_rqstr (resp_event wb)
        = match reqEvent with
          | Some req => if State.eqb (ln_state l) State.SI then ev_rqstr req
                        else ownerName_ cfg
          | None => ownerName_ cfg
          end
      ∧ ev_dirty (resp_event wb) = Command.eqb (ev_cmd (resp_event wb)) Command.PutM
      ∧ ev_payload (resp_event wb)
        = (if Command.eqb (ev_cmd (resp_event wb)) Command.PutM || writebackCleanBlocks_ cfg
           then ev_payload resp else [])
      ∧ ev_dst (resp_event wb) = getDestination cfg (ln_baseAddr l)
      ∧ (expectWritebackAck_ cfg = true →
         MSHR.pendingWriteback (ln_baseAddr l) (mshr_ (ls_shared s')) = true).
Proof.
  intros Hst Hacks.
  destruct l as [ba st shs ow dl ts pf sz], sh as [m d u t]. cbn in *.
  unfold handleFetchResp, sendWritebackFromMSHR. munfold.
  unfold ln_isSharer, MSHR.pendingWriteback. cbn.
  assert (Hsrc : ev_src resp ∉
            (if set_find (ev_src resp) shs then set_erase (ev_src resp) shs else shs)).
  { destruct (set_find (ev_src resp) shs) eqn:Hf;
      [apply set_erase_not_elem|by apply bool_decide_eq_false in Hf]. }
  pose proof (set_erase_not_elem (ev_src resp) shs) as Hsrc'.
  destruct (MSHR.getAcksNeeded (ev_baseAddr resp) m) as [|[|n]] eqn:Hn; [| |lia].
  all: cbn; rewrite ?acks_decrementAcksNeeded, ?Hn; cbn.
  all: destruct dl as [dat|]; cbn.
  all: destruct reqEvent as [req|]; cbn.
  all: destruct Hst as [-> | [-> | ->]]; cbn.
  all: unfold MSHR.getAcksNeeded;
    rewrite ?entry_setDataBuffer; repeat case_decide; cbn;
    fold (MSHR.getAcksNeeded (ev_baseAddr resp) m);
    rewrite ?acks_decrementAcksNeeded, ?Hn; cbn.
  all: repeat (mstep; cbn).
  all: first [ eexists _, _; split_and!; try reflexivity; cbn; try done
             | eexists; split_and!; reflexivity ].
  all: try (intros _; unfold MSHR.insertWriteback;
            by rewrite entry_setEntry, decide_True).
Qed.
End Responses.

Ltac punfold' :=
  punfold;
  unfold mshr_removeElement, mshr_modifyElement, mshr_queueLength, getsMSHR, modMSHR.

Ltac never_tac' := cbv zeta; punfold'; repeat never_step.

Section NeverNullLineInv.
Variable cfg : Config.

#[local] Hint Resolve never_invalidateAllSharers never_invalidateAllSharersAndFetch
  never_sendFetchInv never_sendWritebackFromCache never_sendWritebackFromMSHR
  never_sendResponseDown never_sendResponseDownFromMSHR never_sendAckInv
  never_sendWritebackAck never_sendResponseUpCmd never_sendResponseUp : never_db.

Lemma never_sendForceInv rq rp : never NullLine (sendForceInv cfg rq rp).
Proof. unfold sendForceInv. never_tac'. Qed.

Lemma never_sendFetchInvX rq rp : never NullLine (sendFetchInvX cfg rq rp).
Proof. unfold sendFetchInvX. never_tac'. Qed.

Lemma never_sendFetch rq rp : never NullLine (sendFetch cfg rq rp).
Proof. unfold sendFetch. never_tac'. Qed.

#[local] Hint Resolve never_sendForceInv never_sendFetchInvX never_sendFetch : never_db.

Lemma never_handleInv_collisions fuel b c : never NullLine (handleInv_collisions fuel b c).
Proof.
  revert c. induction fuel as [|fuel IH]; intros c; cbn; [destruct c; apply never_ret|].
  destruct c as [c|]; [|apply never_ret]. never_tac'.
Qed.

Lemma never_handleInv_collisionsSM fuel b c :
  never NullLine (handleInv_collisionsSM fuel b c).
Proof.
  revert c. induction fuel as [|fuel IH]; intros c; cbn; [destruct c; apply never_ret|].
  destruct c as [c|]; [|apply never_ret]. never_tac'.
Qed.

Lemma never_handleForceInv_collisions fuel b c :
  never NullLine (handleForceInv_collisions cfg fuel b c).
Proof.
  revert c. induction fuel as [|fuel IH]; intros c; cbn; [destruct c; apply never_ret|].
  destruct c as [c|]; [|apply never_ret]. never_tac'.
Qed.

#[local] Hint Resolve never_handleInv_collisions never_handleInv_collisionsSM
  never_handleForceInv_collisions : never_db.

Lemma never_handleInv e r c : never NullLine (handleInv cfg e r c).
Proof. unfold handleInv. never_tac'. Qed.

Lemma never_handleForceInv e r c : never NullLine (handleForceInv cfg e r c).
Proof. unfold handleForceInv. never_tac'. Qed.

Lemma never_handleFetch e r c : never NullLine (handleFetch cfg e r c).
Proof. unfold handleFetch. never_tac'. Qed.

Lemma never_handleFetchInv e r c : never NullLine (handleFetchInv cfg e r c).
Proof. unfold handleFetchInv. never_tac'. Qed.

Lemma never_handleFetchInvX e r c : never NullLine (handleFetchInvX cfg e r c).
Proof. unfold handleFetchInvX. never_tac'. Qed.

#[local] Hint Resolve never_handleInv never_handleForceInv never_handleFetch
  never_handleFetchInv never_handleFetchInvX : never_db.

(** X16: With no writeback pending at the address and room in the MSHR,
    an [Inv], [Fetch], [FetchInv], [FetchInvX] or [ForceInv] stops on the
    dereference of a null line exactly when the cache array holds no
    line for its address: each handler reads the line without a test,
    and none stops that way once it is given a line. *)
Theorem invalidation_requires_directory_line event replay s :
  MSHR.pendingWriteback (ev_baseAddr event) (mshr_ (en_shared s)) = false →
  MSHR.isFull (mshr_ (en_shared s)) = false →
  isInvalidationCmd (ev_cmd event) = true →
  (∃ s', MESIInternalDirectory.handleInvalidationRequest cfg event replay s
         = Abort NullLine s')
  ↔ list_find (λ l, ln_baseAddr l = ev_baseAddr event) (cacheArray_ s) = None.
Proof.
  intros Hpw Hfull Hcmd. split.
  - intros [s' Hrun].
    destruct (list_find _ _) as [[p l]|] eqn:Hfind; [exfalso|done].
    revert Hrun. unfold MESIInternalDirectory.handleInvalidationRequest,
      handleInvalidationRequest.
    apply (bind_never_at _ _ s (Some p) s).
    { unfold cacheArray_lookup, gets. by rewrite Hfind. }
    unfold onLine. cbn [deref].
    never_tac'.
  - intros Hfind. exists s. destruct s as [arr [m d u t]]. cbn in *.
    unfold MESIInternalDirectory.handleInvalidationRequest, handleInvalidationRequest,
      onLine.
    munfold. cbn. rewrite Hfind, Hpw, Hfull. cbn. rewrite ?Hpw. cbn.
    destruct (MSHR.exists_ _ _); cbn;
      destruct (ev_cmd event); try discriminate Hcmd; cbn; rewrite Hpw; reflexivity.
Qed.
End NeverNullLineInv.

(** * The loops over the queued replacements *)

Lemma queue_decrementAcksNeeded a b m :
  MSHR.mshrQueue (MSHR.entry a (MSHR.decrementAcksNeeded b m))
  = MSHR.mshrQueue (MSHR.entry a m).
Proof.
  unfold MSHR.decrementAcksNeeded. rewrite entry_setEntry. by case_decide; subst.
Qed.

Lemma queue_removeFront a m :
  MSHR.mshrQueue (MSHR.entry a (MSHR.removeFront a m))
  = tail (MSHR.mshrQueue (MSHR.entry a m)).
Proof.
  unfold MSHR.removeFront. destruct (MSHR.mshrQueue (MSHR.entry a m)) eqn:Hq; [by rewrite Hq|].
  by rewrite entry_setSize, entry_setEntry, decide_True.
Qed.

Lemma queue_removeElement a e m :
  MSHR.mshrQueue (MSHR.entry a (MSHR.removeElement a e m))
  = MSHR.removeFirst e (MSHR.mshrQueue (MSHR.entry a m)).
Proof.
  unfold MSHR.removeElement. case_bool_decide as Hin.
  - by rewrite entry_setSize, entry_setEntry, decide_True.
  - induction (MSHR.mshrQueue (MSHR.entry a m)) as [|x q IH]; [done|].
    cbn. rewrite decide_False by (intros ->; apply Hin; left).
    f_equal. apply IH. intros Hq. apply Hin. by right.
Qed.

Lemma length_removeFirst e q :
  MSHR.mshrEvent e ∈ q → length (MSHR.removeFirst e q) = pred (length q).
Proof.
  induction q as [|x q IH]; [by intros ?%elem_of_nil|].
  intros Hin. cbn. case_decide as Hx; [done|].
  cbn. rewrite IH; [|by apply elem_of_cons in Hin as [?|?]].
  destruct q; [|done]. apply elem_of_cons in Hin as [?|Hin]; [done|].
  by apply elem_of_nil in Hin.
Qed.

Lemma length_removeFirst_le e q : (length (MSHR.removeFirst e q) ≤ length q)%nat.
Proof.
  induction q as [|x q IH]; [done|]. cbn. case_decide; cbn; lia.
Qed.

Lemma lookupFront_elem a m e :
  MSHR.lookupFront a m = Some e → MSHR.mshrEvent e ∈ MSHR.mshrQueue (MSHR.entry a m).
Proof.
  unfold MSHR.lookupFront. destruct (MSHR.mshrQueue _) as [|[x|x] q]; intros [=]. subst. left.
Qed.

Lemma isHit_false_queue a m : MSHR.isHit a m = false → MSHR.mshrQueue (MSHR.entry a m) = [].
Proof. unfold MSHR.isHit. by destruct (MSHR.mshrQueue _). Qed.

Section Loops.
Variable cfg : Config.

Lemma handleInv_collisions_fuel f1 f2 b c l sh :
  (match c with
   | Some c' =>
       if bool_decide (MSHR.mshrEvent c' ∈ MSHR.mshrQueue (MSHR.entry b (mshr_ sh)))
       then (length (MSHR.mshrQueue (MSHR.entry b (mshr_ sh))) ≤ Nat.min f1 f2)%nat
       else (S (length (MSHR.mshrQueue (MSHR.entry b (mshr_ sh)))) ≤ Nat.min f1 f2)%nat
   | None => True
   end) →
  handleInv_collisions f1 b c (mkLineState l sh)
  = handleInv_collisions f2 b c (mkLineState l sh).
Proof.
  revert f2 c l sh. induction f1 as [|f1 IH]; intros f2 c l sh Hneed.
  - destruct c as [c|]; [|by destruct f2]. exfalso.
    case_bool_decide as Hin; [|lia].
    destruct (MSHR.mshrQueue _); [by apply elem_of_nil in Hin|cbn in Hneed; lia].
  - destruct c as [c|]; [|by destruct f2].
    destruct f2 as [|f2].
    { exfalso. case_bool_decide as Hin; [|lia].
      destruct (MSHR.mshrQueue _); [by apply elem_of_nil in Hin|cbn in Hneed; lia]. }
    cbn [handleInv_collisions].
    destruct (Command.eqb (ev_cmd c) Command.PutS); [|done].
    destruct l as [ba st shs ow dl ts pf sz], sh as [m d u t].
    punfold'. unfold bind, gets, modify, ret. cbn -[handleInv_collisions] in *.
    set (m1 := MSHR.removeElement b c (MSHR.decrementAcksNeeded b m)).
    assert (Hlen : (length (MSHR.mshrQueue (MSHR.entry b m1)) ≤ Nat.min f1 f2)%nat).
    { subst m1. rewrite queue_removeElement, queue_decrementAcksNeeded.
      case_bool_decide as Hin.
      - rewrite length_removeFirst by done. lia.
      - pose proof (length_removeFirst_le c (MSHR.mshrQueue (MSHR.entry b m))). lia. }
    destruct (MSHR.isHit b m1) eqn:Hhit; cbn -[handleInv_collisions];
      [|apply IH; done].
    apply IH. cbn.
    destruct (MSHR.lookupFront b m1) as [c'|] eqn:Hfront; [|done].
    destruct (negb (Command.eqb (ev_cmd c') Command.PutS)); [done|].
    apply lookupFront_elem in Hfront. by rewrite bool_decide_eq_true_2.
Qed.

Lemma handleInv_collisionsSM_fuel f1 f2 b c l sh :
  (match c with
   | Some c' => (length (MSHR.mshrQueue (MSHR.entry b (mshr_ sh))) ≤ Nat.min f1 f2)%nat
                ∧ (1 ≤ Nat.min f1 f2)%nat
   | None => True
   end) →
  handleInv_collisionsSM f1 b c (mkLineState l sh)
  = handleInv_collisionsSM f2 b c (mkLineState l sh).
Proof.
  revert f2 c l sh. induction f1 as [|f1 IH]; intros f2 c l sh Hneed.
  - destruct c as [c|]; [lia|by destruct f2].
  - destruct c as [c|]; [|by destruct f2].
    destruct f2 as [|f2]; [lia|].
    cbn [handleInv_collisionsSM].
    destruct (Command.eqb (ev_cmd c) Command.PutS); [|done].
    destruct l as [ba st shs ow dl ts pf sz], sh as [m d u t].
    punfold'. unfold bind, gets, modify, ret. cbn -[handleInv_collisionsSM] in *.
    set (m1 := MSHR.removeFront b (MSHR.decrementAcksNeeded b m)).
    assert (Hq1 : MSHR.mshrQueue (MSHR.entry b m1) = tail (MSHR.mshrQueue (MSHR.entry b m))).
    { subst m1. by rewrite queue_removeFront, queue_decrementAcksNeeded. }
    destruct (MSHR.isHit b m1) eqn:Hhit; cbn -[handleInv_collisionsSM];
      [|apply IH; done].
    apply IH. cbn.
    destruct (MSHR.lookupFront b m1) as [c'|] eqn:Hfront; [|done].
    destruct (Command.eqb (ev_cmd c') Command.PutS); cbn; [|done].
    apply lookupFront_elem in Hfront. rewrite Hq1 in Hfront |- *.
    destruct (MSHR.mshrQueue (MSHR.entry b m)) as [|x [|y q]]; cbn in *;
      [by apply elem_of_nil in Hfront|by apply elem_of_nil in Hfront|lia].
Qed.

Lemma handleForceInv_collisions_fuel f1 f2 b c l sh :
  ln_baseAddr l = b →
  (match c with
   | Some c' => (length (MSHR.mshrQueue (MSHR.entry b (mshr_ sh))) ≤ Nat.min f1 f2)%nat
                ∧ (1 ≤ Nat.min f1 f2)%nat
   | None => True
   end) →
  handleForceInv_collisions cfg f1 b c (mkLineState l sh)
  = handleForceInv_collisions cfg f2 b c (mkLineState l sh).
Proof.
  revert f2 c l sh. induction f1 as [|f1 IH]; intros f2 c l sh Hb Hneed.
  - destruct c as [c|]; [lia|by destruct f2].
  - destruct c as [c|]; [|by destruct f2].
    destruct f2 as [|f2]; [lia|].
    cbn [handleForceInv_collisions].
    destruct (isWriteback c); [|done].
    destruct l as [ba st shs ow dl ts pf sz], sh as [m d u t].
    unfold sendWritebackAck.
    punfold'. unfold bind, gets, modify, when, ret. cbn -[handleForceInv_collisions] in *.
    subst ba.
    assert (Hq1 : MSHR.mshrQueue (MSHR.entry b (MSHR.removeFront b m))
                  = tail (MSHR.mshrQueue (MSHR.entry b m))) by apply queue_removeFront.
    assert (Hnext : ∀ l' sh' front,
              mshr_ sh' = MSHR.removeFront b m → ln_baseAddr l' = b →
              (front = None ∨ MSHR.lookupFront b (MSHR.removeFront b m) = front) →
              handleForceInv_collisions cfg f1 b front (mkLineState l' sh')
              = handleForceInv_collisions cfg f2 b front (mkLineState l' sh')).
    { intros l' sh' front Hm Hb' Hfront. apply IH; [done|].
      destruct front as [c'|]; [|done]. destruct Hfront as [[=]|Hfront].
      apply lookupFront_elem in Hfront. rewrite Hm, Hq1 in *.
      destruct (MSHR.mshrQueue (MSHR.entry b m)) as [|x [|y q]]; cbn in *;
        [by apply elem_of_nil in Hfront|by apply elem_of_nil in Hfront|lia]. }
    destruct (ln_isSharer (ev_src c) _) eqn:HS; cbn -[handleForceInv_collisions];
      (destruct (ln_ownerExists _) eqn:HO; cbn -[handleForceInv_collisions]);
      (destruct (MSHR.isHit b (MSHR.removeFront b m)); cbn -[handleForceInv_collisions]);
      apply Hnext; cbn; auto.
Qed.

(** X17: The three loops over the replacements queued at an address (of
    [handleInv] in the cases [S] and [SM], and of [handleForceInv]) end
    within one turn more than the length of the MSHR queue of the
    address: given any larger number of turns they give the same outcome
    as with that number, which is the one the handlers give them. *)
Theorem collision_loops_end_within_their_turns fuel b c l sh :
  (length (MSHR.mshrQueue (MSHR.entry b (mshr_ sh))) < fuel)%nat →
  handleInv_collisions fuel b c (mkLineState l sh)
  = handleInv_collisions (S (length (MSHR.mshrQueue (MSHR.entry b (mshr_ sh))))) b c
      (mkLineState l sh)
  ∧ handleInv_collisionsSM fuel b c (mkLineState l sh)
    = handleInv_collisionsSM (S (length (MSHR.mshrQueue (MSHR.entry b (mshr_ sh))))) b c
        (mkLineState l sh)
  ∧ (ln_baseAddr l = b →
     handleForceInv_collisions cfg fuel b c (mkLineState l sh)
     = handleForceInv_collisions cfg
         (S (length (MSHR.mshrQueue (MSHR.entry b (mshr_ sh))))) b c (mkLineState l sh)).
Proof.
  intros Hfuel. split_and!.
  - apply handleInv_collisions_fuel. destruct c; [|done]. case_bool_decide; lia.
  - apply handleInv_collisionsSM_fuel. destruct c; [|done]. lia.
  - intros Hb. apply handleForceInv_collisions_fuel; [done|]. destruct c; [|done]. lia.
Qed.
End Loops.

Lemma acks_removeElement a b e m :
  MSHR.getAcksNeeded a (MSHR.removeElement b e m) = MSHR.getAcksNeeded a m.
Proof.
  unfold MSHR.getAcksNeeded, MSHR.removeElement. case_bool_decide; [|done].
  rewrite entry_setSize, entry_setEntry. by case_decide; subst.
Qed.

Lemma acks_removeFront a b m :
  MSHR.getAcksNeeded a (MSHR.removeFront b m) = MSHR.getAcksNeeded a m.
Proof.
  unfold MSHR.getAcksNeeded, MSHR.removeFront. destruct (MSHR.mshrQueue _); [done|].
  rewrite entry_setSize, entry_setEntry. by case_decide; subst.
Qed.

Lemma removeFirst_head e q : MSHR.removeFirst e (MSHR.mshrEvent e :: q) = q.
Proof. cbn. by rewrite decide_True. Qed.

Section InvRace.
Variable cfg : Config.

Lemma handleInv_collisions_one fuel b c q l sh :
  Command.eqb (ev_cmd c) Command.PutS = true →
  MSHR.mshrQueue (MSHR.entry b (mshr_ sh)) = MSHR.mshrEvent c :: q →
  frontPutS q = false →
  handleInv_collisions (S fuel) b (Some c) (mkLineState l sh)
  = Ret tt (mkLineState (ln_setSharers (set_erase (ev_src c) (ln_sharers l)) l)
              (sh_setMshr (MSHR.removeElement b c (MSHR.decrementAcksNeeded b (mshr_ sh)))
                 sh)).
Proof.
  intros Hc Hq Hfront.
  destruct l as [ba st shs ow dl ts pf sz], sh as [m d u t]. cbn in *.
  rewrite Hc. punfold'. unfold bind, gets, modify, ret. cbn -[handleInv_collisions].
  set (m1 := MSHR.removeElement b c (MSHR.decrementAcksNeeded b m)).
  assert (Hq1 : MSHR.mshrQueue (MSHR.entry b m1) = q).
  { subst m1. by rewrite queue_removeElement, queue_decrementAcksNeeded, Hq,
      removeFirst_head. }
  assert (Hnext : match (if MSHR.isHit b m1 then MSHR.lookupFront b m1 else None) with
                  | Some c' => if negb (Command.eqb (ev_cmd c') Command.PutS) then None
                               else Some c'
                  | None => None
                  end = None).
  { unfold MSHR.isHit, MSHR.lookupFront. rewrite Hq1.
    destruct q as [|[e|a] q]; cbn in *; [done| |done]. by rewrite Hfront. }
  destruct (MSHR.isHit b m1); cbn -[handleInv_collisions] in *;
    [rewrite Hnext|]; by destruct fuel.
Qed.

(** X18: An [Inv] that meets, at the head of the MSHR queue, the [PutS] of
    the only sharer of a line in [S], no other [PutS] behind it and no
    acknowledgement awaited, takes it as the acknowledgement of the
    [Inv] it sends: the handler answers [DONE], one [Inv] went to that
    sharer, the [PutS] left the queue, no acknowledgement is awaited,
    the line is in [I] without sharers, and the parent is sent one
    [AckInv]. *)
Theorem inv_takes_queued_PutS_as_acknowledgement event replay puts q l sh :
  ln_state l = State.S →
  ln_sharers l = [ev_src puts] →
  ln_baseAddr l = ev_baseAddr event →
  ev_cmd puts = Command.PutS →
  MSHR.mshrQueue (MSHR.entry (ev_baseAddr event) (mshr_ sh)) = MSHR.mshrEvent puts :: q →
  frontPutS q = false →
  MSHR.getAcksNeeded (ev_baseAddr event) (mshr_ sh) = 0 →
  ∃ s' inv ack,
    handleInv cfg event replay (Some puts) (mkLineState l sh) = Ret DONE s'
    ∧ ln_state (dirLine s') = State.I
    ∧ ln_sharers (dirLine s') = []
    ∧ MSHR.mshrQueue (MSHR.entry (ev_baseAddr event) (mshr_ (ls_shared s'))) = q
    ∧ MSHR.getAcksNeeded (ev_baseAddr event) (mshr_ (ls_shared s')) = 0
    ∧ outgoingEventQueueUp_ (ls_shared s') = outgoingEventQueueUp_ sh ++ [inv]
    ∧ ev_cmd (resp_event inv) = Command.Inv
    ∧ ev_dst (resp_event inv) = ev_src puts
    ∧ outgoingEventQueue_ (ls_shared s') = outgoingEventQueue_ sh ++ [ack]
    ∧ ev_cmd (resp_event ack) = Command.AckInv
    ∧ ev_dst (resp_event ack) = getDestination cfg (ev_baseAddr event).
Proof.
  intros Hst Hsh Hba Hcmd Hq Hfront Hacks.
  destruct l as [ba st shs ow dl ts pf sz], sh as [m d u t]. cbn in *. subst st shs ba.
  assert (Hc : Command.eqb (ev_cmd puts) Command.PutS = true) by (by rewrite Hcmd).
  assert (Hq' : MSHR.mshrQueue (MSHR.entry (ev_baseAddr event)
                  (MSHR.incrementAcksNeeded (ev_baseAddr event) m))
                = MSHR.mshrEvent puts :: q).
  { unfold MSHR.incrementAcksNeeded. by rewrite entry_setEntry, decide_True. }
  unfold handleInv, invalidateAllSharers, sendAckInv.
  punfold'. unfold bind, gets, modify, when, ret.
  cbn -[handleInv_collisions]. rewrite Hc.
  pose (m1 := MSHR.removeElement (ev_baseAddr event) puts
               (MSHR.decrementAcksNeeded (ev_baseAddr event)
                  (MSHR.incrementAcksNeeded (ev_baseAddr event) m))).
  assert (Hq1 : MSHR.mshrQueue (MSHR.entry (ev_baseAddr event) m1) = q).
  { subst m1. by rewrite queue_removeElement, queue_decrementAcksNeeded, Hq',
      removeFirst_head. }
  assert (Hacks1 : MSHR.getAcksNeeded (ev_baseAddr event) m1 = 0).
  { subst m1. rewrite acks_removeElement, acks_decrementAcksNeeded.
    change (MSHR.incrementAcksNeeded (ev_baseAddr event) m)
      with (Nat.iter 1 (MSHR.incrementAcksNeeded (ev_baseAddr event)) m).
    by rewrite acks_iter_incrementAcksNeeded, Hacks. }
  assert (Hnext : match (if MSHR.isHit (ev_baseAddr event) m1
                         then MSHR.lookupFront (ev_baseAddr event) m1 else None) with
                  | Some c' => if negb (Command.eqb (ev_cmd c') Command.PutS) then None
                               else Some c'
                  | None => None
                  end = None).
  { unfold MSHR.isHit, MSHR.lookupFront. rewrite Hq1.
    destruct q as [|[e|a] q']; cbn in *; [done| |done]. by rewrite Hfront. }
  destruct pf; cbn -[handleInv_collisions].
  all: fold m1; clearbody m1; destruct (MSHR.isHit (ev_baseAddr event) m1);
    cbn -[handleInv_collisions] in *; [rewrite Hnext|].
  all: destruct (length _); cbn; rewrite Hacks1; cbn.
  all: eexists _, _, _; split_and!; try reflexivity; cbn; try done.
  all: by rewrite decide_False by (by intros H; apply H).
Qed.
End InvRace.

Lemma set_insert_elem x l : x ∈ set_insert x l.
Proof.
  induction l as [|y l IH]; cbn; [by left|].
  destruct (String.compare x y) eqn:Hc.
  - apply String.compare_eq_iff in Hc. subst. by left.
  - by left.
  - by right.
Qed.

Section Recalls.
Variable cfg : Config.

(** X19: With no colliding event, a [ForceInv], [FetchInv], [Fetch] or
    [FetchInvX] for a line in [I], [IS] or [IM] answers [IGNORE] and
    sends nothing: the line and the MSHR are unchanged, except that
    [ForceInv] and [FetchInv] clear the prefetch mark. An [Inv] for such
    a line is not ignored: it ends in the fatal error of the unhandled
    state. *)
Theorem recall_of_line_not_held event (replay : bool) l sh :
  ln_state l = State.I ∨ ln_state l = State.IS ∨ ln_state l = State.IM →
  handleForceInv cfg event replay None (mkLineState l sh)
    = Ret IGNORE (mkLineState (ln_setPrefetch false l) sh)
  ∧ handleFetchInv cfg event replay None (mkLineState l sh)
    = Ret IGNORE (mkLineState (ln_setPrefetch false l) sh)
  ∧ handleFetch cfg event replay None (mkLineState l sh) = Ret IGNORE (mkLineState l sh)
  ∧ handleFetchInvX cfg event replay None (mkLineState l sh) = Ret IGNORE (mkLineState l sh)
  ∧ handleInv cfg event replay None (mkLineState l sh)
    = Abort Fatal (mkLineState (ln_setPrefetch false l) sh).
Proof.
  intros Hst. destruct l as [ba st shs ow dl ts pf sz], sh as [m d u t]. cbn in Hst.
  unfold handleForceInv, handleFetchInv, handleFetch, handleFetchInvX, handleInv.
  punfold'. unfold bind, gets, modify, when, ret, abort.
  destruct Hst as [-> | [-> | ->]]; destruct pf; cbn; done.
Qed.

(** X20: In the states [E_D], [M_D], [E_Inv], [E_InvX], [M_Inv] and
    [M_InvX], a [ForceInv], [FetchInv] or [FetchInvX] answers by the
    colliding event alone: [STALL] when it is a flush, [BLOCK] when it
    is another event that is no replacement; nothing is sent. With no
    colliding event the handlers stop on the dereference of a null
    event. *)
Theorem recall_in_transition_reads_colliding_event event (replay : bool) c l sh :
  recallWaits (ln_state l) = true →
  isWriteback c = false →
  let answer := if isFlush (ev_cmd c) then STALL else BLOCK in
  let s := mkLineState l sh in
  let s' := mkLineState (ln_setPrefetch false l) sh in
  (handleForceInv cfg event replay (Some c) s = Ret answer s'
   ∧ handleFetchInv cfg event replay (Some c) s = Ret answer s'
   ∧ handleFetchInvX cfg event replay (Some c) s = Ret answer s)
  ∧ (handleForceInv cfg event replay None s = Abort NullEvent s'
     ∧ handleFetchInv cfg event replay None s = Abort NullEvent s'
     ∧ handleFetchInvX cfg event replay None s = Abort NullEvent s).
Proof.
  intros Hst Hwb. destruct l as [ba st shs ow dl ts pf sz], sh as [m d u t]. cbn in Hst.
  unfold handleForceInv, handleFetchInv, handleFetchInvX.
  punfold'. unfold bind, gets, modify, when, ret, abort.
  destruct st; try discriminate Hst; destruct pf; cbn; rewrite ?Hwb; cbn;
    destruct (isFlush (ev_cmd c)); done.
Qed.

(** X21: A [Fetch] for a line in [S] or [SM] is answered [DONE] at once
    when the data is at hand, in the line or else in a colliding
    event: one clean response with that data, of its size, goes to the
    parent; the line only has its timestamp moved to the delivery time,
    and neither the MSHR nor the queue to the children changes. *)
Theorem fetch_served_without_asking_a_sharer event (replay : bool) c l sh dat :
  ln_state l = State.S ∨ ln_state l = State.SM →
  match ln_dataLine l, c with
  | Some d, _ => d
  | None, Some w => ev_payload w
  | None, None => []
  end = dat →
  notNull (ln_dataLine l) || notNull c = true →
  ∃ s' r,
    handleFetch cfg event replay c (mkLineState l sh) = Ret DONE s'
    ∧ dirLine s' = ln_setTimestamp (resp_deliveryTime r) l
    ∧ mshr_ (ls_shared s') = mshr_ sh
    ∧ outgoingEventQueueUp_ (ls_shared s') = outgoingEventQueueUp_ sh
    ∧ outgoingEventQueue_ (ls_shared s') = outgoingEventQueue_ sh ++ [r]
    ∧ resp_event r
      = ev_setDirty false (ev_setSize (Z.of_nat (length dat))
          (ev_setPayload dat (makeResponse event))).
Proof.
  intros Hst Hdat Hsrc. destruct l as [ba st shs ow dl ts pf sz], sh as [m d u t].
  cbn in *. unfold handleFetch, sendResponseDown.
  punfold'. unfold bind, gets, modify, when, ret, abort.
  destruct Hst as [-> | ->]; destruct dl as [dd|]; cbn; subst dat;
    try (destruct c as [w|]; [|discriminate Hsrc]); cbn;
    eexists _, (mkResponse _ _ _); split_and!; reflexivity.
Qed.

(** X22: A [FetchInvX] that meets the replacement of the owner of a line
    in [E] or [M] answers [DONE]: the owner becomes a sharer, the line
    goes to [S], the replacement stays in the MSHR queue as a [PutS],
    and the parent is sent one response with the data of the
    replacement, always marked dirty. *)
Theorem fetchInvX_turns_owner_writeback_into_PutS event (replay : bool) c q l sh :
  ln_state l = State.E ∨ ln_state l = State.M →
  isWriteback c = true →
  ln_owner l = ev_src c →
  ev_src c ≠ EmptyString →
  MSHR.mshrQueue (MSHR.entry (ev_baseAddr event) (mshr_ sh)) = MSHR.mshrEvent c :: q →
  ∃ s' r,
    handleFetchInvX cfg event replay (Some c) (mkLineState l sh) = Ret DONE s'
    ∧ ln_state (dirLine s') = State.S
    ∧ ln_owner (dirLine s') = EmptyString
    ∧ ev_src c ∈ ln_sharers (dirLine s')
    ∧ MSHR.mshrQueue (MSHR.entry (ev_baseAddr event) (mshr_ (ls_shared s')))
      = MSHR.mshrEvent (ev_setCmd Command.PutS c) :: q
    ∧ outgoingEventQueue_ (ls_shared s') = outgoingEventQueue_ sh ++ [r]
    ∧ resp_event r
      = ev_setDirty true (ev_setSize (ev_getPayloadSize c)
          (ev_setPayload (ev_payload c) (makeResponse event))).
Proof.
  intros Hst Hwb How Hne Hq. destruct l as [ba st shs ow dl ts pf sz], sh as [m d u t].
  cbn in *. subst ow. unfold handleFetchInvX, sendResponseDown.
  punfold'. unfold bind, gets, modify, when, ret, abort. cbn. rewrite Hwb.
  assert (Hoe : ∀ st', ln_ownerExists
            (mkCacheLine ba st' shs (ev_src c) dl ts pf sz) = true).
  { intros st'. unfold ln_ownerExists. cbn. apply negb_true_iff, String.eqb_neq.
    exact Hne. }
  destruct Hst as [-> | ->]; cbn; destruct (ev_dirty c); cbn;
    unfold ln_setState; cbn; rewrite ?Hoe; cbn.
  all: eexists _, (mkResponse _ _ _); split_and!; try reflexivity; cbn.
  all: try apply set_insert_elem.
  all: unfold MSHR.modifyElement; rewrite entry_setEntry, decide_True by done; cbn;
    rewrite Hq; cbn; by rewrite decide_True.
Qed.
End Recalls.

Section Blocked.
Variable cfg : Config.

(** X23: With no writeback pending at the address and room in the MSHR,
    an [Inv] or a [Fetch] for a line in [SI], [S_Inv] or [S_D] answers
    [BLOCK]: the event is queued in the MSHR behind the request in
    progress, no message is sent, and the line is unchanged, except that
    [Inv] clears its prefetch mark. *)
Theorem invalidation_behind_request_in_progress_is_queued event (replay : bool) p l arr sh :
  ev_cmd event = Command.Inv ∨ ev_cmd event = Command.Fetch →
  ln_state l = State.SI ∨ ln_state l = State.S_Inv ∨ ln_state l = State.S_D →
  list_find (λ l, ln_baseAddr l = ev_baseAddr event) arr = Some (p, l) →
  MSHR.pendingWriteback (ev_baseAddr event) (mshr_ sh) = false →
  MSHR.isFull (mshr_ sh) = false →
  MESIInternalDirectory.handleInvalidationRequest cfg event replay (mkEngine arr sh)
  = Ret BLOCK
      (mkEngine
         (<[p := if Command.eqb (ev_cmd event) Command.Inv then ln_setPrefetch false l
                 else l]> arr)
         (sh_setMshr (MSHR.insertInv (ev_baseAddr event) event true (mshr_ sh)) sh)).
Proof.
  intros Hcmd Hst Hfind Hpw Hfull.
  pose proof Hfind as Hfind'. apply list_find_Some in Hfind' as (Hp & _ & _).
  destruct l as [ba st shs ow dl ts pf sz], sh as [m d u t]. cbn in *.
  unfold MESIInternalDirectory.handleInvalidationRequest, handleInvalidationRequest,
    onLine.
  munfold. cbn. rewrite Hfind, Hpw, Hfull. cbn. rewrite ?Hpw. cbn.
  unfold handleInv, handleFetch, focus.
  punfold'. unfold bind, gets, modify, when, ret, abort. cbn.
  destruct Hcmd as [-> | ->]; cbn;
    destruct (MSHR.exists_ (ev_baseAddr event) m); cbn; rewrite ?Hpw; cbn;
    rewrite ?Hp; cbn;
    try destruct (match MSHR.lookupFront (ev_baseAddr event) m with
                  | Some c => isPut (ev_cmd c) | None => false end); cbn;
    rewrite ?Hp; cbn;
    destruct Hst as [-> | [-> | ->]]; cbn; destruct pf; cbn;
    rewrite ?list_insert_insert; reflexivity.
Qed.
End Blocked.

Section CacheHit.
Variable cfg : Config.

Lemma isCacheHit_answers event s :
  ∃ hit, isCacheHit cfg event s = Ret hit s
         ∧ (list_find (λ l, ln_baseAddr l = ev_baseAddr event) (cacheArray_ s) = None
            → hit = false).
Proof.
  unfold isCacheHit.
  unfold cacheArray_lookup, bind at 1 2 3, gets, readLine, ret.
  destruct (list_find _ _) as [[p l]|] eqn:Hfind; cbn; [|by exists false].
  apply list_find_Some in Hfind as (Hp & Hl & _). rewrite Hp. cbn.
  destruct l as [ba st shs ow dl ts pf sz]. cbn.
  destruct st; cbn; try (by eexists);
    destruct (ev_prefetch event && bool_decide (ev_rqstr event = ownerName_ cfg));
    cbn; try (by eexists); destruct (lastLevel_ cfg); cbn; try (by eexists);
    unfold bind, deref, ret; cbn; destruct (ln_ownerExists _); try (by eexists);
    destruct (Command.eqb (ev_cmd event) Command.GetSX); cbn; try (by eexists);
    destruct (Command.eqb (ev_cmd event) Command.GetS); try (by eexists);
    destruct (Command.eqb (ev_cmd event) Command.GetX); by eexists.
Qed.

Lemma isCacheHit_write_then_read event s :
  ev_cmd event = Command.GetX ∨ ev_cmd event = Command.GetSX →
  isCacheHit cfg event s = Ret true s →
  isCacheHit cfg (ev_setCmd Command.GetS event) s = Ret true s.
Proof.
  intros Hcmd. unfold isCacheHit.
  unfold cacheArray_lookup, bind at 1 2 3 6 7 8, gets, readLine, ret.
  cbn [ev_baseAddr ev_cmd ev_setCmd ev_prefetch ev_rqstr ev_src].
  destruct (list_find _ _) as [[p l]|] eqn:Hfind; cbn; [|done].
  apply list_find_Some in Hfind as (Hp & Hl & _). rewrite Hp. cbn.
  destruct l as [ba st shs ow dl ts pf sz]. cbn.
  destruct Hcmd as [-> | ->]; cbn;
    destruct st; cbn; try done;
    destruct (ev_prefetch event && bool_decide (ev_rqstr event = ownerName_ cfg));
    cbn; try done; destruct (lastLevel_ cfg); cbn; try done;
    unfold bind, deref, ret; cbn; destruct (ln_ownerExists _); done.
Qed.

(** X24: [isCacheHit] always answers and changes nothing. It answers the
    same for a [GetSX] as for a [GetX]; it answers a miss when the array
    holds no line of the address; and when it answers a hit for a [GetX]
    or [GetSX], it answers a hit for the [GetS] of the same event. *)
Theorem isCacheHit_is_a_query event s :
  ∃ hit,
    isCacheHit cfg event s = Ret hit s
    ∧ isCacheHit cfg (ev_setCmd Command.GetSX event) s
      = isCacheHit cfg (ev_setCmd Command.GetX event) s
    ∧ (list_find (λ l, ln_baseAddr l = ev_baseAddr event) (cacheArray_ s) = None →
       hit = false)
    ∧ (ev_cmd event = Command.GetX ∨ ev_cmd event = Command.GetSX →
       hit = true →
       isCacheHit cfg (ev_setCmd Command.GetS event) s = Ret true s).
Proof.
  destruct (isCacheHit_answers event s) as (hit & Hrun & Habsent).
  exists hit. split_and!; [done|reflexivity|done|].
  intros Hcmd ->. by apply isCacheHit_write_then_read.
Qed.
End CacheHit.

Section FlushTheorems.
Variable cfg : Config.
Variable NextState : State → State.

(** X25: A [FlushLine] or [FlushLineInv] for an address with no directory
    line, no request waiting, answers [STALL] and is forwarded to the
    parent: one flush of the same command, in the name of this cache
    and with the requestor of the event, without data and not dirty, is
    delivered one tag latency after the current time. The cache array
    and the queue to the children are unchanged. *)
Theorem flush_without_line_is_forwarded event (replay : bool) s :
  ev_cmd event = Command.FlushLine ∨ ev_cmd event = Command.FlushLineInv →
  ∃ s' r,
    MESIInternalDirectory.handleFlush cfg NextState event None None replay s = Ret STALL s'
    ∧ cacheArray_ s' = cacheArray_ s
    ∧ outgoingEventQueueUp_ (en_shared s') = outgoingEventQueueUp_ (en_shared s)
    ∧ outgoingEventQueue_ (en_shared s') = outgoingEventQueue_ (en_shared s) ++ [r]
    ∧ resp_event r
      = ev_setSize (lineSize_ cfg) (ev_setRqstr (ev_rqstr event)
          (ev_setDst (getDestination cfg (ev_baseAddr event))
             (newMemEvent (ownerName_ cfg) (ev_baseAddr event) (ev_baseAddr event)
                (ev_cmd event))))
    ∧ resp_deliveryTime r = u64_add (timestamp_ (en_shared s)) (tagLatency_ cfg).
Proof.
  intros Hcmd. destruct s as [arr [m d u t]].
  unfold MESIInternalDirectory.handleFlush, handleFlushLineInvRequest_null,
    handleFlushLineRequest_null, forwardFlushLine_null.
  punfold'. unfold bind, gets, modify, when, ret, abort.
  destruct Hcmd as [-> | ->]; cbn;
    destruct (ev_getPayloadSize event =? 0)%Z; cbn;
    try destruct (MSHR.isHit _ _); cbn;
    eexists _, (mkResponse _ _ _); split_and!; reflexivity.
Qed.

(** X26: A [FlushLine] with data, from the owner of a line in [E] or [M],
    answers [STALL]: the owner becomes a sharer, the line goes to [S_B],
    and one [FlushLine] goes to the parent with the data of the event,
    dirty exactly when the line was in [M] or the event is dirty.
    Nothing is sent to the children. *)
Theorem flushLine_from_owner_is_forwarded_with_its_data event (replay : bool) l sh :
  ln_state l = State.E ∨ ln_state l = State.M →
  ln_owner l = ev_src event →
  ev_src event ≠ EmptyString →
  ev_payload event ≠ [] →
  ∃ s' r,
    handleFlushLineRequest cfg NextState event None replay (mkLineState l sh)
      = Ret STALL s'
    ∧ ln_state (dirLine s') = State.S_B
    ∧ ln_owner (dirLine s') = EmptyString
    ∧ ev_src event ∈ ln_sharers (dirLine s')
    ∧ outgoingEventQueueUp_ (ls_shared s') = outgoingEventQueueUp_ sh
    ∧ outgoingEventQueue_ (ls_shared s') = outgoingEventQueue_ sh ++ [r]
    ∧ ev_cmd (resp_event r) = Command.FlushLine
    ∧ ev_dst (resp_event r) = getDestination cfg (ev_baseAddr event)
    ∧ ev_rqstr (resp_event r) = ev_rqstr event
    ∧ ev_payload (resp_event r) = ev_payload event
    ∧ ev_dirty (resp_event r) = State.eqb (ln_state l) State.M || ev_dirty event.
Proof.
  intros Hst How Hne Hpay. destruct l as [ba st shs ow dl ts pf sz], sh as [m d u t].
  cbn in *. subst ow.
  assert (Hsz : (ev_getPayloadSize event =? 0)%Z = false).
  { apply Z.eqb_neq. unfold ev_getPayloadSize. destruct (ev_payload event); [done|].
    cbn. lia. }
  assert (Hoe : String.eqb (ev_src event) EmptyString = false) by by apply String.eqb_neq.
  unfold handleFlushLineRequest, handleFlushLineRequest_body, saveFlushPayload,
    forwardFlushLine.
  punfold'. unfold bind, gets, modify, when, ret, abort.
  destruct Hst as [-> | ->]; cbn; rewrite Hsz; cbn;
    (destruct dl as [dd|]; cbn; [|destruct (MSHR.isHit (ev_baseAddr event) m) eqn:Hhit; cbn]);
    rewrite ?bool_decide_eq_true_2 by done; cbn;
    destruct (ev_dirty event); cbn; unfold ln_ownerExists; cbn; rewrite ?Hoe; cbn;
    rewrite ?Hsz; cbn.
  all: try (replace (MSHR.isHit (ev_baseAddr event)
                  (MSHR.setDataBuffer (ev_baseAddr event) (ev_payload event) m))
         with true
         by (symmetry; unfold MSHR.isHit, MSHR.setDataBuffer in *;
             rewrite entry_setEntry, decide_True by done; exact Hhit); cbn;
       unfold MSHR.getDataBuffer, MSHR.setDataBuffer;
       rewrite entry_setEntry, decide_True by done; cbn).
  all: rewrite ?Hhit; cbn; rewrite ?Hsz; cbn.
  all: eexists _, (mkResponse _ _ _); split_and!; try reflexivity; cbn.
  all: apply set_insert_elem.
Qed.
End FlushTheorems.

Section FlushTheorems2.
Variable cfg : Config.
Variable NextState : State → State.

(** X27: A [FlushLineInv] with data, from the owner of a line in [E] or
    [M] without sharers, answers [STALL]: the line has no owner and no
    sharer, its prefetch mark is cleared, it goes to [I_B], and one
    [FlushLineInv] goes to the parent with the data of the event, dirty
    exactly when the line was in [M] or the event is dirty. *)
Theorem flushLineInv_from_owner_gives_the_line_up event (replay : bool) l sh :
  ln_state l = State.E ∨ ln_state l = State.M →
  ln_owner l = ev_src event →
  ev_src event ≠ EmptyString →
  ln_sharers l = [] →
  ev_payload event ≠ [] →
  ∃ s' r,
    handleFlushLineInvRequest cfg NextState event None replay (mkLineState l sh)
      = Ret STALL s'
    ∧ ln_state (dirLine s') = State.I_B
    ∧ ln_owner (dirLine s') = EmptyString
    ∧ ln_sharers (dirLine s') = []
    ∧ ln_prefetch (dirLine s') = false
    ∧ outgoingEventQueueUp_ (ls_shared s') = outgoingEventQueueUp_ sh
    ∧ outgoingEventQueue_ (ls_shared s') = outgoingEventQueue_ sh ++ [r]
    ∧ ev_cmd (resp_event r) = Command.FlushLineInv
    ∧ ev_dst (resp_event r) = getDestination cfg (ev_baseAddr event)
    ∧ ev_payload (resp_event r) = ev_payload event
    ∧ ev_dirty (resp_event r) = State.eqb (ln_state l) State.M || ev_dirty event.
Proof.
  intros Hst How Hne Hshs Hpay. destruct l as [ba st shs ow dl ts pf sz], sh as [m d u t].
  cbn in *. subst ow shs.
  assert (Hsz : (ev_getPayloadSize event =? 0)%Z = false).
  { apply Z.eqb_neq. unfold ev_getPayloadSize. destruct (ev_payload event); [done|].
    cbn. lia. }
  assert (Hns : set_find (ev_src event) [] = false).
  { unfold set_find. apply bool_decide_eq_false_2. by intros ?%elem_of_nil. }
  unfold handleFlushLineInvRequest, saveFlushPayload, forwardFlushLine.
  punfold'. unfold bind, gets, modify, when, ret, abort.
  destruct Hst as [-> | ->]; cbn; rewrite Hsz; cbn;
    (destruct dl as [dd|]; cbn; [|destruct (MSHR.isHit (ev_baseAddr event) m) eqn:Hhit; cbn]);
    rewrite ?bool_decide_eq_true_2 by done; cbn;
    destruct (ev_dirty event); cbn; destruct pf; cbn; rewrite ?Hsz; cbn.
  all: unfold ln_isSharer, ln_setPrefetch, ln_setState, ln_setOwner, ln_ownerExists; cbn;
    rewrite ?Hns; cbn; rewrite ?Hsz; cbn.
  all: try (replace (MSHR.isHit (ev_baseAddr event)
                  (MSHR.setDataBuffer (ev_baseAddr event) (ev_payload event) m))
         with true
         by (symmetry; unfold MSHR.isHit, MSHR.setDataBuffer in *;
             rewrite entry_setEntry, decide_True by done; exact Hhit); cbn;
       unfold MSHR.getDataBuffer, MSHR.setDataBuffer;
       rewrite entry_setEntry, decide_True by done; cbn).
  all: rewrite ?Hhit; cbn; rewrite ?Hsz; cbn.
  all: eexists _, (mkResponse _ _ _); split_and!; reflexivity.
Qed.

(** X28: A [FlushLineResp] for an address whose line is in the array, with
    the flush waiting at the head of the MSHR queue, answers [DONE]: the
    sender of the flush is sent the response, with the success of the
    one received, one MSHR latency after the current time; the flush
    leaves the queue; and the line goes to [S] from [S_B] and to [I]
    from any other state. *)
Theorem flush_response_ends_the_flush resp req q p l arr sh (inMSHR : bool) :
  ev_cmd resp = Command.FlushLineResp →
  list_find (λ l, ln_baseAddr l = ev_baseAddr resp) arr = Some (p, l) →
  MSHR.mshrQueue (MSHR.entry (ev_baseAddr resp) (mshr_ sh)) = MSHR.mshrEvent req :: q →
  ∃ s' r,
    handleCacheResponse cfg resp inMSHR (mkEngine arr sh) = Ret DONE s'
    ∧ cacheArray_ s'
      = <[p := ln_setState (if State.eqb (ln_state l) State.S_B then State.S else State.I) l]>
          arr
    ∧ MSHR.mshrQueue (MSHR.entry (ev_baseAddr resp) (mshr_ (en_shared s'))) = q
    ∧ outgoingEventQueue_ (en_shared s') = outgoingEventQueue_ sh
    ∧ outgoingEventQueueUp_ (en_shared s') = outgoingEventQueueUp_ sh ++ [r]
    ∧ resp_event r
      = ev_setDst (ev_src req) (ev_setSuccess (ev_success resp) (makeResponse req))
    ∧ resp_deliveryTime r = u64_add (timestamp_ sh) (mshrLatency_ cfg).
Proof.
  intros Hcmd Hfind Hq. destruct sh as [m d u t]. cbn in *.
  pose proof Hfind as Hfind'. apply list_find_Some in Hfind' as (Hp & _ & _).
  unfold handleCacheResponse, sendFlushResponse, focus.
  punfold'. unfold bind, gets, modify, when, ret, abort. cbn.
  rewrite Hfind, Hcmd. cbn. unfold MSHR.lookupFront. rewrite Hq. cbn. rewrite Hp. cbn.
  destruct (State.eqb (ln_state l) State.S_B); cbn;
    eexists _, (mkResponse _ _ _); split_and!; try reflexivity; cbn.
  all: unfold MSHR.removeFront; rewrite Hq; cbn.
  all: by rewrite entry_setSize, entry_setEntry, decide_True.
Qed.

End FlushTheorems2.

Section FlushTheorems3.
Variable cfg : Config.
Variable NextState : State → State.

(** X29: A [FlushLineInv] for a line in [S] that has sharers other than
    the sender answers [STALL]: the sender leaves the sharers, each other
    sharer is sent one [Inv] with the requestor of the flush, one
    acknowledgement is counted for each, the line goes to [S_Inv], and
    nothing is sent to the parent yet. *)
Theorem flushLineInv_from_sharer_recalls_the_other_copies event (replay : bool) l sh :
  ln_state l = State.S →
  set_erase (ev_src event) (ln_sharers l) ≠ [] →
  ∃ s' msgs,
    handleFlushLineInvRequest cfg NextState event None replay (mkLineState l sh)
      = Ret STALL s'
    ∧ ln_state (dirLine s') = State.S_Inv
    ∧ ln_sharers (dirLine s') = set_erase (ev_src event) (ln_sharers l)
    ∧ outgoingEventQueue_ (ls_shared s') = outgoingEventQueue_ sh
    ∧ outgoingEventQueueUp_ (ls_shared s') = outgoingEventQueueUp_ sh ++ msgs
    ∧ map (λ r, ev_dst (resp_event r)) msgs = set_erase (ev_src event) (ln_sharers l)
    ∧ Forall (λ r, ev_cmd (resp_event r) = Command.Inv
                   ∧ ev_rqstr (resp_event r) = ev_rqstr event) msgs
    ∧ MSHR.getAcksNeeded (ln_baseAddr l) (mshr_ (ls_shared s'))
      = MSHR.getAcksNeeded (ln_baseAddr l) (mshr_ sh)
        + length (set_erase (ev_src event) (ln_sharers l)).
Proof.
  intros Hst Hrest. destruct l as [ba st shs ow dl ts pf sz], sh as [m d u t].
  cbn in *. subst st.
  assert (Hrun : ∀ rest, rest ≠ [] →
    (if set_find (ev_src event) shs then set_erase (ev_src event) shs else shs) = rest →
    ∃ s' msgs,
      handleFlushLineInvRequest cfg NextState event None replay
        (mkLineState (mkCacheLine ba State.S shs ow dl ts pf sz) (mkShared m d u t))
        = Ret STALL s'
      ∧ ln_state (dirLine s') = State.S_Inv
      ∧ ln_sharers (dirLine s') = rest
      ∧ outgoingEventQueue_ (ls_shared s') = d
      ∧ outgoingEventQueueUp_ (ls_shared s') = u ++ msgs
      ∧ map (λ r, ev_dst (resp_event r)) msgs = rest
      ∧ Forall (λ r, ev_cmd (resp_event r) = Command.Inv
                     ∧ ev_rqstr (resp_event r) = ev_rqstr event) msgs
      ∧ MSHR.getAcksNeeded ba (mshr_ (ls_shared s')) = MSHR.getAcksNeeded ba m + length rest).
  { intros rest Hne Hshs.
    assert (Hlen : match length rest with 0%nat => false | S _ => true end = true)
      by (by destruct rest).
    assert (Hhd : notNull (head rest) = true) by (by destruct rest).
    set (msgs dt := map (λ it, mkResponse
                           (ev_setRqstr (ev_rqstr event) (ev_setDst it
                              (newMemEvent (ownerName_ cfg) ba ba Command.Inv)))
                           dt (packetHeaderBytes cfg)) rest).
    assert (Hdst : ∀ dt, map (λ r, ev_dst (resp_event r)) (msgs dt) = rest).
    { intros dt. subst msgs. cbn. rewrite map_map. cbn. by rewrite map_id. }
    assert (Hall : ∀ dt, Forall (λ r, ev_cmd (resp_event r) = Command.Inv
                     ∧ ev_rqstr (resp_event r) = ev_rqstr event) (msgs dt)).
    { intros dt. subst msgs. cbn. apply Forall_map. by apply Forall_forall. }
    destruct (set_find (ev_src event) shs) eqn:Hfind; [|subst shs].
    all: unfold handleFlushLineInvRequest, saveFlushPayload, invalidateAllSharers.
    all: punfold'; unfold bind, gets, modify, when, ret, abort.
    all: cbn -[set_erase invalidateAllSharers_loop Nat.iter].
    all: destruct (ev_getPayloadSize event =? 0)%Z;
      cbn -[set_erase invalidateAllSharers_loop Nat.iter];
      (destruct dl as [dd|]; cbn -[set_erase invalidateAllSharers_loop Nat.iter];
       [|try destruct (MSHR.isHit (ev_baseAddr event) m);
         cbn -[set_erase invalidateAllSharers_loop Nat.iter]]);
      destruct pf; cbn -[set_erase invalidateAllSharers_loop Nat.iter];
      unfold ln_isSharer, ln_setPrefetch, ln_setDataLine;
      cbn -[set_erase invalidateAllSharers_loop Nat.iter];
      rewrite Hfind; cbn -[set_erase invalidateAllSharers_loop Nat.iter];
      rewrite ?Hshs, Hlen; cbn -[set_erase invalidateAllSharers_loop Nat.iter];
      unfold sh_setMshr; cbn -[set_erase invalidateAllSharers_loop Nat.iter];
      rewrite invalidateAllSharers_loop_spec, Hhd;
      cbn -[set_erase invalidateAllSharers_loop Nat.iter].
    all: eexists _, (msgs _); split_and!; try reflexivity; cbn -[Nat.iter];
      rewrite ?Hdst; try done.
    all: rewrite ?acks_iter_incrementAcksNeeded, ?entry_acks_setDataBuffer; try done. }
  destruct (Hrun (set_erase (ev_src event) shs) Hrest) as (s' & msgs & H).
  { unfold set_find. case_bool_decide; [done|]. by rewrite set_erase_notin. }
  by exists s', msgs.
Qed.
End FlushTheorems3.

Lemma bind_ext {St A B} (m : M St A) (k1 k2 : A → M St B) s :
  (∀ a s', k1 a s' = k2 a s') → bind m k1 s = bind m k2 s.
Proof. intros Hk. unfold bind. destruct (m s); [apply Hk|done]. Qed.

(** One step of a proof that two handlers agree: through a [bind] whose
    first part is shared, or by cases on what a branch tests. *)
Ltac ext_step :=
  match goal with
  | |- bind (deref _ None) _ _ = _ => reflexivity
  | |- bind ?m _ ?s = bind ?m _ ?s => apply bind_ext; intros
  | |- (match ?x with _ => _ end) _ = _ => destruct x
  | |- ?x = ?x => reflexivity
  end.

Section FlushRecursion.
Variable cfg : Config.
Variable NextState : State → State.

Lemma handleFlushLineRequest_body_ext self1 self2 event reqEvent replay s :
  (∀ req s', self1 req s' = self2 req s') →
  handleFlushLineRequest_body cfg NextState self1 event reqEvent replay s
  = handleFlushLineRequest_body cfg NextState self2 event reqEvent replay s.
Proof.
  intros Hself. unfold handleFlushLineRequest_body. cbv zeta.
  repeat first [apply Hself | ext_step].
Qed.

Lemma handleFlushLineRequest_body_no_request self1 self2 event replay s :
  handleFlushLineRequest_body cfg NextState self1 event None replay s
  = handleFlushLineRequest_body cfg NextState self2 event None replay s.
Proof.
  unfold handleFlushLineRequest_body. cbv zeta.
  repeat ext_step.
Qed.

(** The function satisfies the recursive equation of the source, where
    the call on the request that waited is the function itself. *)
Lemma handleFlushLineRequest_unrolls event reqEvent replay s :
  handleFlushLineRequest cfg NextState event reqEvent replay s
  = handleFlushLineRequest_body cfg NextState
      (λ req, handleFlushLineRequest cfg NextState req None true)
      event reqEvent replay s.
Proof.
  unfold handleFlushLineRequest.
  apply handleFlushLineRequest_body_ext. intros req s'.
  apply handleFlushLineRequest_body_no_request.
Qed.

(** X30: A call of [handleFlushLineRequest] with no waiting request,
    which is how the function calls itself on the [FlushLine] that
    waited, never calls the function again: its outcome is the same
    whatever the self-call would do, because the only call site comes
    after the command of the waiting request is read. The recursion of
    the source is therefore one call deep at most. *)
Theorem flushLine_without_waiting_request_makes_no_self_call self event replay s :
  handleFlushLineRequest cfg NextState event None replay s
  = handleFlushLineRequest_body cfg NextState self event None replay s.
Proof. unfold handleFlushLineRequest. apply handleFlushLineRequest_body_no_request. Qed.
End FlushRecursion.

(** * The further theorems at the scenarios *)

Section Witnesses2.
Import Scenario Cases.

Lemma last_level_GetX_upgrade_forgets_request_witness :
  ∃ s1 s2,
    handleRequest cfg_lastLevel getX_C0 false
      (engine (line State.S ["C0"; "C1"] EmptyString (Some [Byte.xbb]) 0%Z) (mshr [] 0 false))
    = Ret STALL s1
    ∧ MSHR.mshrQueue (MSHR.entry 64%Z (mshr_ (en_shared s1))) = []
    ∧ MESIInternalDirectory.handleFetchResponse cfg_lastLevel nextState ackInv_C1 false s1
      = Abort NullEvent s2.
Proof.
  destruct (last_level_GetX_upgrade_forgets_request cfg_lastLevel nextState getX_C0 ackInv_C1
              false false 0 (line State.S ["C0"; "C1"] EmptyString (Some [Byte.xbb]) 0%Z) "C1"
              [line State.S ["C0"; "C1"] EmptyString (Some [Byte.xbb]) 0%Z]
              (shared (mshr [] 0 false) 10%Z))
    as (s1 & l1 & inv & s2 & Hrun1 & _ & _ & _ & _ & _ & _ & _ & _ & _ & Hq & Hrun2);
    [reflexivity|by left|reflexivity|reflexivity|reflexivity|by vm_compute|reflexivity
    |reflexivity|reflexivity|reflexivity|].
  by exists s1, s2.
Defined.

Lemma senders_deliver_after_line_timestamp_witness :
  deliversAfter 1 (sendFetch cfg "memory" false)
    (mkLineState (line State.S ["C0"] EmptyString None 5%Z) (shared (mshr [] 0 false) 10%Z)).
Proof.
  destruct (senders_deliver_after_line_timestamp cfg "memory" false fetch_parent
              (Some [Byte.xbb]) false Command.PutS
              (line State.S ["C0"] EmptyString None 5%Z) (shared (mshr [] 0 false) 10%Z))
    as (_ & Hfetch & _); [by vm_compute..|].
  exact Hfetch.
Defined.

Lemma directory_eviction_done_leaves_line_invalid_witness :
  ∃ s', handleEviction cfg "L2" false
          (mkLineState (line State.S [] EmptyString (Some [Byte.xbb]) 0%Z)
                       (shared (mshr [] 0 false) 10%Z))
        = Ret DONE s'
        ∧ ln_state (dirLine s') = State.I.
Proof.
  eexists.
  refine (let Hrun := _ in
          conj Hrun (proj1 (directory_eviction_done_leaves_line_invalid cfg "L2"
                              (line State.S [] EmptyString (Some [Byte.xbb]) 0%Z)
                              (shared (mshr [] 0 false) 10%Z) _ Hrun))).
  vm_compute. reflexivity.
Defined.

Lemma request_for_line_in_transition_waits_witness :
  ∃ s', handleRequest cfg getS_C0 false
          (engine (line State.IS [] EmptyString None 0%Z) (mshr [] 0 false))
        = Ret STALL s'.
Proof.
  destruct (request_for_line_in_transition_waits cfg getS_C0 false 0
              (line State.IS [] EmptyString None 0%Z)
              (engine (line State.IS [] EmptyString None 0%Z) (mshr [] 0 false)))
    as (s' & Hrun & _); [reflexivity|reflexivity|].
  by exists s'.
Defined.

Lemma write_miss_then_data_witness :
  ∃ s1 s2,
    handleRequest cfg getX_C0 false
      (engine (line State.I [] EmptyString None 0%Z) (mshr [] 0 false))
    = Ret STALL s1
    ∧ handleCacheResponse cfg getXResp false s1 = Ret DONE s2.
Proof.
  destruct (write_miss_then_data cfg getX_C0 getXResp false false 0
              (line State.I [] EmptyString None 0%Z) [line State.I [] EmptyString None 0%Z]
              (shared (mshr [] 0 false) 10%Z))
    as (s1 & l1 & fwd & s2 & l2 & r & Hrun1 & _ & _ & _ & _ & _ & _ & _ & _ & Hrun2 & _);
    [by left|reflexivity..|].
  by exists s1, s2.
Defined.

Lemma read_hit_on_shared_line_witness :
  ∃ s', handleRequest cfg getS_C0 false
          (engine (line State.S ["C1"] EmptyString (Some [Byte.xbb]) 0%Z) (mshr [] 0 false))
        = Ret DONE s'.
Proof.
  destruct (read_hit_on_shared_line cfg getS_C0 false 0
              (line State.S ["C1"] EmptyString (Some [Byte.xbb]) 0%Z)
              [line State.S ["C1"] EmptyString (Some [Byte.xbb]) 0%Z]
              (shared (mshr [] 0 false) 10%Z) [Byte.xbb])
    as (s' & l' & r & Hrun & _); [reflexivity..|].
  by exists s'.
Defined.

Lemma nacked_request_is_sent_again_witness :
  ∃ s', handleNACK cfg (mkNACKEvent getS_L2) false
          (engine (line State.IS [] EmptyString None 0%Z) (mshr [] 0 false))
        = Ret true s'.
Proof.
  destruct (nacked_request_is_sent_again cfg (mkNACKEvent getS_L2) false
              (engine (line State.IS [] EmptyString None 0%Z) (mshr [] 0 false)))
    as (s' & Hrun & _); [by left|].
  by exists s'.
Defined.

Lemma nacked_invalidation_retried_while_target_holds_witness :
  ∃ s', handleNACK cfg (mkNACKEvent inv_L2_C0) false
          (engine (line State.S_Inv ["C0"] EmptyString None 0%Z) (mshr [] 1 false))
        = Ret true s'.
Proof.
  destruct (nacked_invalidation_retried_while_target_holds cfg (mkNACKEvent inv_L2_C0) false
              (engine (line State.S_Inv ["C0"] EmptyString None 0%Z) (mshr [] 1 false)))
    as (s' & Hrun & _); [by left|].
  by exists s'.
Defined.

Lemma writeback_marker_round_trip_witness :
  ∃ s1 s2,
    focus 0 (handleEviction cfg "L2" false)
      (engine (line State.S [] EmptyString (Some [Byte.xbb]) 0%Z) (mshr [] 0 false))
    = Ret DONE s1
    ∧ MSHR.pendingWriteback 64%Z (mshr_ (en_shared s1)) = true
    ∧ MESIInternalDirectory.handleFetchResponse cfg nextState ackPut_parent false s1
      = Ret DONE s2
    ∧ MSHR.pendingWriteback 64%Z (mshr_ (en_shared s2)) = false.
Proof.
  pose (s1 := final (focus 0 (handleEviction cfg "L2" false)
                 (engine (line State.S [] EmptyString (Some [Byte.xbb]) 0%Z)
                         (mshr [] 0 false)))).
  assert (Hrun : focus 0 (handleEviction cfg "L2" false)
                   (engine (line State.S [] EmptyString (Some [Byte.xbb]) 0%Z)
                           (mshr [] 0 false))
                 = Ret DONE s1) by (vm_compute; reflexivity).
  destruct (writeback_marker_round_trip cfg nextState "L2" 0
              (line State.S [] EmptyString (Some [Byte.xbb]) 0%Z)
              [line State.S [] EmptyString (Some [Byte.xbb]) 0%Z]
              (shared (mshr [] 0 false) 10%Z) s1 ackPut_parent false)
    as (Hpw & s2 & Hack & Hpw2 & _);
    [reflexivity|discriminate|reflexivity|exact Hrun|reflexivity|reflexivity|].
  by exists s1, s2.
Defined.

Lemma ackInv_with_acks_outstanding_witness :
  handleAckInv cfg ackInv_C1 (Some inv_parent)
    (mkLineState (line State.S_Inv ["C0"; "C1"] EmptyString None 0%Z)
                 (shared (mshr [MSHR.mshrEvent inv_parent] 2 false) 10%Z))
  = Ret IGNORE
      (mkLineState
         (ln_setSharers (set_erase "C1" ["C0"; "C1"])
            (line State.S_Inv ["C0"; "C1"] EmptyString None 0%Z))
         (sh_setMshr (MSHR.decrementAcksNeeded 64%Z (mshr [MSHR.mshrEvent inv_parent] 2 false))
            (shared (mshr [MSHR.mshrEvent inv_parent] 2 false) 10%Z))).
Proof.
  apply (ackInv_with_acks_outstanding cfg ackInv_C1 (Some inv_parent)
           (line State.S_Inv ["C0"; "C1"] EmptyString None 0%Z)
           (shared (mshr [MSHR.mshrEvent inv_parent] 2 false) 10%Z));
    [by left|by vm_compute|reflexivity].
Defined.

Lemma last_ackInv_acknowledges_parent_witness :
  ∃ s', handleAckInv cfg ackInv_C1 (Some inv_parent)
          (mkLineState (line State.S_Inv ["C1"] EmptyString None 0%Z)
                       (shared (mshr [MSHR.mshrEvent inv_parent] 1 false) 10%Z))
        = Ret DONE s'.
Proof.
  destruct (last_ackInv_acknowledges_parent cfg ackInv_C1 inv_parent
              (line State.S_Inv ["C1"] EmptyString None 0%Z)
              (shared (mshr [MSHR.mshrEvent inv_parent] 1 false) 10%Z))
    as (s' & r & Hrun & _); [reflexivity|by vm_compute|discriminate|].
  by exists s'.
Defined.

Lemma fetchResp_ends_eviction_with_one_writeback_witness :
  (∃ s', handleFetchResp cfg nextState fetchResp_C0 (Some getS_C2)
           (mkLineState (line State.SI ["C0"] EmptyString None 0%Z)
                        (shared (mshr [MSHR.mshrEvent getS_C2] 1 false) 10%Z))
         = Ret DONE s')
  ∧ (∃ s', handleFetchResp cfg nextState fetchResp_C0 None
             (mkLineState (line State.SI ["C0"] EmptyString None 0%Z)
                          (shared (mshr [MSHR.mshrPointer 128%Z] 1 false) 10%Z))
           = Abort NullEvent s').
Proof.
  split.
  - destruct (fetchResp_ends_eviction_with_one_writeback cfg nextState fetchResp_C0
                (Some getS_C2) (line State.SI ["C0"] EmptyString None 0%Z)
                (shared (mshr [MSHR.mshrEvent getS_C2] 1 false) 10%Z)
                (or_introl eq_refl))
      as (s' & wb & Hrun & _); [by vm_compute|].
    by exists s'.
  - destruct (fetchResp_ends_eviction_with_one_writeback cfg nextState fetchResp_C0
                None (line State.SI ["C0"] EmptyString None 0%Z)
                (shared (mshr [MSHR.mshrPointer 128%Z] 1 false) 10%Z)
                (or_introl eq_refl))
      as (s' & Hrun & _); [by vm_compute|].
    by exists s'.
Defined.

Lemma invalidation_requires_directory_line_witness :
  ∃ s', MESIInternalDirectory.handleInvalidationRequest cfg inv_parent false
          (mkEngine [] (shared (mshr [] 0 false) 10%Z))
        = Abort NullLine s'.
Proof.
  apply (invalidation_requires_directory_line cfg inv_parent false
           (mkEngine [] (shared (mshr [] 0 false) 10%Z))); reflexivity.
Defined.

Lemma collision_loops_end_within_their_turns_witness :
  handleInv_collisions 5 64%Z (Some putS_C0)
    (mkLineState (line State.S_Inv ["C0"] EmptyString None 0%Z)
                 (shared (mshr [MSHR.mshrEvent putS_C0] 1 false) 10%Z))
  = handleInv_collisions 2 64%Z (Some putS_C0)
      (mkLineState (line State.S_Inv ["C0"] EmptyString None 0%Z)
                   (shared (mshr [MSHR.mshrEvent putS_C0] 1 false) 10%Z)).
Proof.
  destruct (collision_loops_end_within_their_turns cfg 5 64%Z (Some putS_C0)
              (line State.S_Inv ["C0"] EmptyString None 0%Z)
              (shared (mshr [MSHR.mshrEvent putS_C0] 1 false) 10%Z))
    as (Hloop & _); [vm_compute; lia|].
  exact Hloop.
Defined.

Lemma inv_takes_queued_PutS_as_acknowledgement_witness :
  ∃ s', handleInv cfg inv_parent false (Some putS_C0)
          (mkLineState (line State.S ["C0"] EmptyString None 0%Z)
                       (shared (mshr [MSHR.mshrEvent putS_C0] 0 false) 10%Z))
        = Ret DONE s'.
Proof.
  destruct (inv_takes_queued_PutS_as_acknowledgement cfg inv_parent false putS_C0 []
              (line State.S ["C0"] EmptyString None 0%Z)
              (shared (mshr [MSHR.mshrEvent putS_C0] 0 false) 10%Z))
    as (s' & inv & ack & Hrun & _); [reflexivity..|].
  by exists s'.
Defined.

Lemma recall_of_line_not_held_witness :
  handleInv cfg inv_parent false None
    (mkLineState (line State.I [] EmptyString None 0%Z) (shared (mshr [] 0 false) 10%Z))
  = Abort Fatal
      (mkLineState (ln_setPrefetch false (line State.I [] EmptyString None 0%Z))
                   (shared (mshr [] 0 false) 10%Z)).
Proof.
  destruct (recall_of_line_not_held cfg inv_parent false
              (line State.I [] EmptyString None 0%Z) (shared (mshr [] 0 false) 10%Z))
    as (_ & _ & _ & _ & Hinv); [by left|].
  exact Hinv.
Defined.

Lemma recall_in_transition_reads_colliding_event_witness :
  handleFetchInvX cfg fetchInvX_parent false (Some getS_C0)
    (mkLineState (line State.M_Inv [] "C1" None 0%Z)
                 (shared (mshr [MSHR.mshrEvent getS_C0] 1 false) 10%Z))
  = Ret BLOCK
      (mkLineState (line State.M_Inv [] "C1" None 0%Z)
                   (shared (mshr [MSHR.mshrEvent getS_C0] 1 false) 10%Z)).
Proof.
  destruct (recall_in_transition_reads_colliding_event cfg fetchInvX_parent false getS_C0
              (line State.M_Inv [] "C1" None 0%Z)
              (shared (mshr [MSHR.mshrEvent getS_C0] 1 false) 10%Z))
    as ((_ & _ & Hrun) & _); [reflexivity|reflexivity|].
  exact Hrun.
Defined.

Lemma fetch_served_without_asking_a_sharer_witness :
  ∃ s', handleFetch cfg fetch_parent false None
          (mkLineState (line State.S ["C0"] EmptyString (Some [Byte.xbb]) 0%Z)
                       (shared (mshr [] 0 false) 10%Z))
        = Ret DONE s'.
Proof.
  destruct (fetch_served_without_asking_a_sharer cfg fetch_parent false None
              (line State.S ["C0"] EmptyString (Some [Byte.xbb]) 0%Z)
              (shared (mshr [] 0 false) 10%Z) [Byte.xbb])
    as (s' & r & Hrun & _); [by left|reflexivity|reflexivity|].
  by exists s'.
Defined.

Lemma fetchInvX_turns_owner_writeback_into_PutS_witness :
  ∃ s', handleFetchInvX cfg fetchInvX_parent false (Some putM_C0)
          (mkLineState (line State.M [] "C0" None 0%Z)
                       (shared (mshr [MSHR.mshrEvent putM_C0] 0 false) 10%Z))
        = Ret DONE s'
        ∧ ln_state (dirLine s') = State.S.
Proof.
  destruct (fetchInvX_turns_owner_writeback_into_PutS cfg fetchInvX_parent false putM_C0 []
              (line State.M [] "C0" None 0%Z)
              (shared (mshr [MSHR.mshrEvent putM_C0] 0 false) 10%Z))
    as (s' & r & Hrun & Hst & _); [by right|reflexivity|reflexivity|discriminate|reflexivity|].
  by exists s'.
Defined.

Lemma invalidation_behind_request_in_progress_is_queued_witness :
  ∃ s', MESIInternalDirectory.handleInvalidationRequest cfg inv_parent false
          (engine (line State.S_D ["C0"] EmptyString None 0%Z)
                  (mshr [MSHR.mshrEvent getS_C2] 1 false))
        = Ret BLOCK s'.
Proof.
  eexists.
  apply (invalidation_behind_request_in_progress_is_queued cfg inv_parent false 0
           (line State.S_D ["C0"] EmptyString None 0%Z)
           [line State.S_D ["C0"] EmptyString None 0%Z]
           (shared (mshr [MSHR.mshrEvent getS_C2] 1 false) 10%Z));
    [by left|by right; right|reflexivity..].
Defined.

Lemma isCacheHit_is_a_query_witness :
  isCacheHit cfg (ev_setCmd Command.GetS getX_C0)
    (engine (line State.M [] EmptyString (Some [Byte.xbb]) 0%Z) (mshr [] 0 false))
  = Ret true (engine (line State.M [] EmptyString (Some [Byte.xbb]) 0%Z) (mshr [] 0 false)).
Proof.
  destruct (isCacheHit_is_a_query cfg getX_C0
              (engine (line State.M [] EmptyString (Some [Byte.xbb]) 0%Z) (mshr [] 0 false)))
    as (hit & Hrun & _ & _ & Hread).
  apply Hread; [by left|].
  assert (Hhit : isCacheHit cfg getX_C0
            (engine (line State.M [] EmptyString (Some [Byte.xbb]) 0%Z) (mshr [] 0 false))
          = Ret true
              (engine (line State.M [] EmptyString (Some [Byte.xbb]) 0%Z) (mshr [] 0 false)))
    by reflexivity.
  congruence.
Defined.

Lemma flush_without_line_is_forwarded_witness :
  ∃ s', MESIInternalDirectory.handleFlush cfg nextState flush_C0 None None false
          (mkEngine [] (shared (mshr [] 0 false) 10%Z))
        = Ret STALL s'.
Proof.
  destruct (flush_without_line_is_forwarded cfg nextState flush_C0 false
              (mkEngine [] (shared (mshr [] 0 false) 10%Z)))
    as (s' & r & Hrun & _); [by left|].
  by exists s'.
Defined.

Lemma flushLine_from_owner_is_forwarded_with_its_data_witness :
  ∃ s', handleFlushLineRequest cfg nextState flush_C0 None false
          (mkLineState (line State.M [] "C0" (Some [Byte.xbb]) 0%Z)
                       (shared (mshr [] 0 false) 10%Z))
        = Ret STALL s'
        ∧ ln_state (dirLine s') = State.S_B.
Proof.
  destruct (flushLine_from_owner_is_forwarded_with_its_data cfg nextState flush_C0 false
              (line State.M [] "C0" (Some [Byte.xbb]) 0%Z) (shared (mshr [] 0 false) 10%Z))
    as (s' & r & Hrun & Hst & _); [by right|reflexivity|discriminate|discriminate|].
  by exists s'.
Defined.

Lemma flushLineInv_from_owner_gives_the_line_up_witness :
  ∃ s', handleFlushLineInvRequest cfg nextState flushInv_C0 None false
          (mkLineState (line State.M [] "C0" (Some [Byte.xbb]) 0%Z)
                       (shared (mshr [] 0 false) 10%Z))
        = Ret STALL s'
        ∧ ln_state (dirLine s') = State.I_B.
Proof.
  destruct (flushLineInv_from_owner_gives_the_line_up cfg nextState flushInv_C0 false
              (line State.M [] "C0" (Some [Byte.xbb]) 0%Z) (shared (mshr [] 0 false) 10%Z))
    as (s' & r & Hrun & Hst & _);
    [by right|reflexivity|discriminate|reflexivity|discriminate|].
  by exists s'.
Defined.

Lemma flush_response_ends_the_flush_witness :
  ∃ s', handleCacheResponse cfg flushResp false
          (engine (line State.S_B ["C0"] EmptyString (Some [Byte.xbb]) 0%Z)
                  (mshr [MSHR.mshrEvent flush_C0] 0 false))
        = Ret DONE s'.
Proof.
  destruct (flush_response_ends_the_flush cfg flushResp flush_C0 [] 0
              (line State.S_B ["C0"] EmptyString (Some [Byte.xbb]) 0%Z)
              [line State.S_B ["C0"] EmptyString (Some [Byte.xbb]) 0%Z]
              (shared (mshr [MSHR.mshrEvent flush_C0] 0 false) 10%Z) false)
    as (s' & r & Hrun & _); [reflexivity..|].
  by exists s'.
Defined.

Lemma flushLineInv_from_sharer_recalls_the_other_copies_witness :
  ∃ s', handleFlushLineInvRequest cfg nextState flushInv_C0 None false
          (mkLineState (line State.S ["C0"; "C1"] EmptyString (Some [Byte.xbb]) 0%Z)
                       (shared (mshr [] 0 false) 10%Z))
        = Ret STALL s'
        ∧ ln_state (dirLine s') = State.S_Inv.
Proof.
  destruct (flushLineInv_from_sharer_recalls_the_other_copies cfg nextState flushInv_C0 false
              (line State.S ["C0"; "C1"] EmptyString (Some [Byte.xbb]) 0%Z)
              (shared (mshr [] 0 false) 10%Z))
    as (s' & msgs & Hrun & Hst & _); [reflexivity|by vm_compute|].
  by exists s'.
Defined.
End Witnesses2.
